(** * EPREM runtime projects: the run log and the path orchestration

    A shallow embedding of [src/runtime/eprem.py]: the JSON-backed run log
    ([RunLog]) and the project operations that keep the directory tree and
    the log in step ([Project]).  The Python objects live in a world made of
    the process working directory and a directory tree; every method is a
    computation over that world which either returns or raises, and the
    world reached when an exception is raised is kept, so that partial
    effects are visible.

    Embedded: [RunLog] ([__init__], [__getitem__], [create], [append], [mv],
    [rm], [_asdict], [dump]), [_ProjectInit], and of [Project] the
    constructor, [mv], [rm] and the path helpers.  Left out: [Project.run]
    and [_locate], which start the external program; [Project.remove];
    the loading of YAML or JSON sources into the log; the command line;
    and the messages that are printed. *)

From Stdlib Require Import Ascii String.
From stdpp Require Import gmap strings list fin_maps.

Set Warnings "-register-all".
Set Default Proof Using "Type".

Open Scope string_scope.

(** ** Values *)

(** What [json.load] returns and [json.dump] accepts.  Objects are
    dictionaries with string keys; numbers are the integers. *)
Inductive json :=
| JNull
| JBool (b : bool)
| JNum (n : Z)
| JStr (s : string)
| JArr (l : list json)
| JObj (m : gmap string json).

Abbreviation dict := (gmap string json).

(** Truth value of a Python string: only the empty string is false. *)
Definition truthy (s : string) : bool := negb (String.eqb s "").

(** ** Exceptions *)

(** The exception classes the program defines or meets.  The classes of the
    module carry their message split into its fixed text and the value that
    is formatted into it. *)
Inductive exn :=
| LogKeyError (msg : string) (subject : option string)
| RunKeyError (msg : string)
| ReadTypeError (msg : string)
| PathOperationError (msg : string) (subject : string)
| ProjectExistsError (subject : string)
| KeyError (key : string)
| TypeError (msg : string)
| ValueError (msg : string)
| AttributeError (msg : string)
| FileNotFoundError (subject : string)
| FileExistsError (subject : string)
| NotADirectoryError (subject : string)
| IsADirectoryError (subject : string)
| OSError (msg : string) (subject : string).

Inductive exn_class :=
| CBaseException | CException | CLookupError | CKeyError | CLogKeyError
| CRunKeyError | CReadTypeError | CPathOperationError | CProjectExistsError
| CTypeError | CValueError | CAttributeError | COSError
| CFileNotFoundError | CFileExistsError | CNotADirectoryError
| CIsADirectoryError.

Global Instance exn_class_eq_dec : EqDecision exn_class.
Proof. solve_decision. Defined.

Definition class_of (e : exn) : exn_class :=
  match e with
  | LogKeyError _ _ => CLogKeyError
  | RunKeyError _ => CRunKeyError
  | ReadTypeError _ => CReadTypeError
  | PathOperationError _ _ => CPathOperationError
  | ProjectExistsError _ => CProjectExistsError
  | KeyError _ => CKeyError
  | TypeError _ => CTypeError
  | ValueError _ => CValueError
  | AttributeError _ => CAttributeError
  | FileNotFoundError _ => CFileNotFoundError
  | FileExistsError _ => CFileExistsError
  | NotADirectoryError _ => CNotADirectoryError
  | IsADirectoryError _ => CIsADirectoryError
  | OSError _ _ => COSError
  end.

(** The direct base class: [class LogKeyError(KeyError)],
    [class RunKeyError(Exception)] and so on. *)
Definition base (c : exn_class) : option exn_class :=
  match c with
  | CBaseException => None
  | CException => Some CBaseException
  | CLookupError => Some CException
  | CKeyError => Some CLookupError
  | CLogKeyError => Some CKeyError
  | CRunKeyError => Some CException
  | CReadTypeError => Some CException
  | CPathOperationError => Some CException
  | CProjectExistsError => Some CException
  | CTypeError => Some CException
  | CValueError => Some CException
  | CAttributeError => Some CException
  | COSError => Some CException
  | CFileNotFoundError => Some COSError
  | CFileExistsError => Some COSError
  | CNotADirectoryError => Some COSError
  | CIsADirectoryError => Some COSError
  end.

Fixpoint subclass_upto (n : nat) (c d : exn_class) : bool :=
  bool_decide (c = d) ||
  match n with
  | O => false
  | S n' => match base c with
            | Some c' => subclass_upto n' c' d
            | None => false
            end
  end.

(** No chain of bases is longer than five classes. *)
Definition issubclass (c d : exn_class) : bool := subclass_upto 5 c d.

Definition isinstance (e : exn) (d : exn_class) : bool :=
  issubclass (class_of e) d.

(** ** pathlib *)

(** The pure part of [pathlib.Path] on a POSIX system: a path is its root
    (the empty string, one slash or two slashes) and its segments. *)
Module pathlib.

Record PurePath := mk { root : string; parts : list string }.

Global Instance PurePath_eq_dec : EqDecision PurePath.
Proof. solve_decision. Defined.

Definition slash : Ascii.ascii := "/"%char.
Definition dot : Ascii.ascii := "."%char.

(** [s.split('/')] *)
Fixpoint split (s : string) : list string :=
  match s with
  | EmptyString => [EmptyString]
  | String c s' =>
      if Ascii.eqb c slash then EmptyString :: split s'
      else match split s' with
           | x :: xs => String c x :: xs
           | [] => [String c EmptyString]
           end
  end.

Fixpoint leading_slashes (s : string) : nat :=
  match s with
  | String c s' => if Ascii.eqb c slash then S (leading_slashes s') else 0
  | EmptyString => 0
  end.

(** A segment survives parsing when it is neither empty nor a dot. *)
Definition kept (x : string) : bool :=
  negb (String.eqb x "") && negb (String.eqb x ".").

(** [pathlib.PurePosixPath(s)]: exactly two leading slashes are kept as a
    root of their own, any other positive number collapses to one. *)
Definition parse (s : string) : PurePath :=
  {| root := match leading_slashes s with
             | 0 => ""
             | 2 => "//"
             | _ => "/"
             end;
     parts := List.filter kept (split s) |}.

Fixpoint join (l : list string) : string :=
  match l with
  | [] => ""
  | [x] => x
  | x :: l' => x ++ "/" ++ join l'
  end.

(** [str(p)] *)
Definition to_str (p : PurePath) : string :=
  match root p, parts p with
  | EmptyString, [] => "."
  | r, ps => r ++ join ps
  end.

(** [p.parent]: the path without its last segment; a path without
    segments is its own parent. *)
Definition parent (p : PurePath) : PurePath :=
  {| root := root p; parts := removelast (parts p) |}.

(** [p.name]: the last segment, or the empty string. *)
Definition name (p : PurePath) : string := List.last (parts p) "".

(** [p / s]: an absolute right operand replaces the left one. *)
Definition joinpath (p : PurePath) (s : string) : PurePath :=
  let q := parse s in
  match root q with
  | EmptyString => {| root := root p; parts := parts p ++ parts q |}
  | _ => q
  end.

(** Index of the last dot of [s], as [s.rfind('.')]. *)
Fixpoint rfind_dot (s : string) : option nat :=
  match s with
  | EmptyString => None
  | String c s' =>
      match rfind_dot s' with
      | Some i => Some (S i)
      | None => if Ascii.eqb c dot then Some 0 else None
      end
  end.

(** [p.stem] of a name: the name without its suffix; a dot in first or
    last position does not start a suffix. *)
Definition stem_of (nm : string) : string :=
  match rfind_dot nm with
  | Some i =>
      if bool_decide (0 < i < String.length nm - 1)
      then String.substring 0 i nm else nm
  | None => nm
  end.

(** [p.with_suffix(sfx)]: fails on a path with an empty name. *)
Definition with_suffix (p : PurePath) (sfx : string) : option PurePath :=
  match name p with
  | EmptyString => None
  | nm => Some {| root := root p;
                  parts := removelast (parts p) ++ [stem_of nm ++ sfx] |}
  end.

End pathlib.

Abbreviation PurePath := pathlib.PurePath.
Notation "p // s" := (pathlib.joinpath p s) (at level 40, left associativity).

(** ** The world: working directory and directory tree *)

(** A file holds the JSON document that was last dumped into it: the text
    [json.dump(..., indent=4, sort_keys=True)] writes is a function of the
    document, so two files with equal documents are equal byte for byte.
    There are no symbolic links, and a segment [..] is a name like any
    other to the tree. *)
Inductive node :=
| File (c : json)
| Dir (children : gmap string node).

Record world := World { cwd : list string; tree : node }.

Inductive outcome (A : Type) :=
| Ok (a : A)
| Raise (e : exn).
Arguments Ok {A} a.
Arguments Raise {A} e.

(** A computation returns or raises, and in both cases leaves a world. *)
Definition M (A : Type) : Type := world → outcome A * world.

Global Instance M_ret : MRet M := λ A a w, (Ok a, w).

Global Instance M_bind : MBind M := λ A B f m w,
  match m w with
  | (Ok a, w') => f a w'
  | (Raise e, w') => (Raise e, w')
  end.

Global Instance M_fmap : FMap M := λ A B f m, a ← m; mret (f a).

Definition raise {A} (e : exn) : M A := λ w, (Raise e, w).

(** [for x in l: f(x)], where what [f] returns is dropped. *)
Fixpoint for_each {A B} (f : A → M B) (l : list A) : M unit :=
  match l with
  | [] => mret tt
  | x :: l' => f x ;; for_each f l'
  end.

(** The calls into [os], [shutil] and the impure part of [pathlib]. *)
Module os.

Inductive resolved :=
| Found (n : node)
| NoEnt
| NotDir.

(** Walking down from a node: a missing entry, or a file met before the
    last segment, stops the walk. *)
Fixpoint resolve (p : list string) (n : node) : resolved :=
  match p with
  | [] => Found n
  | s :: p' =>
      match n with
      | File _ => NotDir
      | Dir m => match m !! s with
                 | Some c => resolve p' c
                 | None => NoEnt
                 end
      end
  end.

(** Put [v] at [p], or remove the entry when [v] is [None]; nothing
    happens unless the parent of [p] is a directory. *)
Fixpoint set_node (p : list string) (v : option node) (n : node) : node :=
  match p with
  | [] => default n v
  | s :: p' =>
      match n with
      | File _ => n
      | Dir m =>
          Dir (partial_alter
                 (λ o, match p' with
                       | [] => v
                       | _ => set_node p' v <$> o
                       end) s m)
      end
  end.

(** Relative paths are taken from the working directory. *)
Definition key (w : world) (p : PurePath) : list string :=
  match pathlib.root p with
  | EmptyString => cwd w ++ pathlib.parts p
  | _ => pathlib.parts p
  end.

Definition stat (w : world) (p : PurePath) : resolved :=
  resolve (key w p) (tree w).

Definition put (w : world) (p : PurePath) (v : option node) : world :=
  {| cwd := cwd w; tree := set_node (key w p) v (tree w) |}.

(** [p.exists()] and [p.is_dir()] *)
Definition exists_ (p : PurePath) : M bool := λ w,
  (Ok match stat w p with Found _ => true | _ => false end, w).

Definition is_dir (p : PurePath) : M bool := λ w,
  (Ok match stat w p with Found (Dir _) => true | _ => false end, w).

(** [os.mkdir(p)] *)
Definition mkdir (p : PurePath) : M unit := λ w,
  match stat w p with
  | Found _ => (Raise (FileExistsError (pathlib.to_str p)), w)
  | NotDir => (Raise (NotADirectoryError (pathlib.to_str p)), w)
  | NoEnt =>
      match stat w (pathlib.parent p) with
      | Found (Dir _) => (Ok tt, put w p (Some (Dir ∅)))
      | _ => (Raise (FileNotFoundError (pathlib.to_str p)), w)
      end
  end.

(** [p.mkdir(parents=False, exist_ok=exist_ok)]: an existing directory
    is accepted when [exist_ok] is set. *)
Definition mkdir_once (p : PurePath) (exist_ok : bool) : M unit := λ w,
  match mkdir p w with
  | (Raise (FileNotFoundError s), w') => (Raise (FileNotFoundError s), w')
  | (Raise e, w') =>
      match is_dir p w' with
      | (Ok true, w'') => if exist_ok then (Ok tt, w'') else (Raise e, w'')
      | (_, w'') => (Raise e, w'')
      end
  | r => r
  end.

(** [p.mkdir(parents=True, exist_ok=exist_ok)] on the path whose
    segments, last one first, are [rp]: when the parent is missing it is
    made first, with [exist_ok=True], and the directory is made again. *)
Fixpoint mkdir_rev (rt : string) (rp : list string) (exist_ok : bool)
  : M unit := λ w,
  let p := pathlib.mk rt (rev rp) in
  match mkdir p w with
  | (Raise (FileNotFoundError s), w') =>
      match rp with
      | [] => (Raise (FileNotFoundError s), w')
      | _ :: rp' => (mkdir_rev rt rp' true ;; mkdir_once p exist_ok) w'
      end
  | (Raise e, w') =>
      match is_dir p w' with
      | (Ok true, w'') => if exist_ok then (Ok tt, w'') else (Raise e, w'')
      | (_, w'') => (Raise e, w'')
      end
  | r => r
  end.

Definition mkdir_parents (p : PurePath) (exist_ok : bool) : M unit :=
  mkdir_rev (pathlib.root p) (rev (pathlib.parts p)) exist_ok.

(** [shutil.rmtree(p)] *)
Definition rmtree (p : PurePath) : M unit := λ w,
  match stat w p with
  | Found (Dir _) =>
      match key w p with
      | [] => (Raise (OSError "Device or resource busy" (pathlib.to_str p)),
               {| cwd := cwd w; tree := Dir ∅ |})
      | _ => (Ok tt, put w p None)
      end
  | Found (File _) | NotDir =>
      (Raise (NotADirectoryError (pathlib.to_str p)), w)
  | NoEnt => (Raise (FileNotFoundError (pathlib.to_str p)), w)
  end.

Definition is_empty_dir (n : node) : bool :=
  match n with
  | Dir m => bool_decide (m = ∅)
  | File _ => false
  end.

(** [old.rename(new)]: the target may be replaced when it is a file (for
    a file) or an empty directory (for a directory); a directory does not
    move below itself. *)
Definition rename (old new : PurePath) : M unit := λ w,
  let ko := key w old in
  let kn := key w new in
  match stat w old with
  | Found n =>
      if bool_decide (ko = kn) then (Ok tt, w)
      else if bool_decide (ko `prefix_of` kn) then
        (Raise (OSError "Invalid argument" (pathlib.to_str old)), w)
      else
        let move := (Ok tt, put (put w old None) new (Some n)) in
        match stat w new, n with
        | Found (Dir _ as d), Dir _ =>
            if is_empty_dir d then move
            else (Raise (OSError "Directory not empty"
                           (pathlib.to_str new)), w)
        | Found (Dir _), File _ =>
            (Raise (IsADirectoryError (pathlib.to_str new)), w)
        | Found (File _), Dir _ =>
            (Raise (NotADirectoryError (pathlib.to_str new)), w)
        | Found (File _), File _ => move
        | NotDir, _ => (Raise (NotADirectoryError (pathlib.to_str new)), w)
        | NoEnt, _ =>
            match stat w (pathlib.parent new) with
            | Found (Dir _) => move
            | _ => (Raise (FileNotFoundError (pathlib.to_str new)), w)
            end
        end
  | NotDir => (Raise (NotADirectoryError (pathlib.to_str old)), w)
  | NoEnt => (Raise (FileNotFoundError (pathlib.to_str old)), w)
  end.

(** [json.load] on [p.open('r')] *)
Definition read_json (p : PurePath) : M json := λ w,
  match stat w p with
  | Found (File c) => (Ok c, w)
  | Found (Dir _) => (Raise (IsADirectoryError (pathlib.to_str p)), w)
  | NotDir => (Raise (NotADirectoryError (pathlib.to_str p)), w)
  | NoEnt => (Raise (FileNotFoundError (pathlib.to_str p)), w)
  end.

(** [json.dump] on [p.open('w')]: the file is made or replaced. *)
Definition write_json (p : PurePath) (c : json) : M unit := λ w,
  match stat w p with
  | Found (File _) => (Ok tt, put w p (Some (File c)))
  | Found (Dir _) => (Raise (IsADirectoryError (pathlib.to_str p)), w)
  | NotDir => (Raise (NotADirectoryError (pathlib.to_str p)), w)
  | NoEnt =>
      match stat w (pathlib.parent p) with
      | Found (Dir _) => (Ok tt, put w p (Some (File c)))
      | _ => (Raise (FileNotFoundError (pathlib.to_str p)), w)
      end
  end.

(** [d.glob(pattern)] for a pattern of one segment: the entries of [d]
    whose name the pattern matches, in the order of the listing.  The
    matching of names is left to [fnmatch]. *)
Definition glob (fnmatch : string → string → bool) (d : PurePath)
    (pattern : string) : M (list PurePath) := λ w,
  match pattern with
  | EmptyString => (Raise (ValueError "Unacceptable pattern"), w)
  | _ =>
      match stat w d with
      | Found (Dir m) =>
          (Ok ((λ kv, pathlib.mk (pathlib.root d)
                        (pathlib.parts d ++ [kv.1]))
                 <$> List.filter (λ kv, fnmatch kv.1 pattern)
                                 (map_to_list m)), w)
      | _ => (Ok [], w)
      end
  end.

(** [..] steps back lexically, as [resolve()] does without links. *)
Definition collapse (ps : list string) : list string :=
  fold_left (λ acc s, if String.eqb s ".." then removelast acc
                      else (acc ++ [s])%list) ps [].

(** [p.expanduser().resolve()], home directories apart. *)
Definition abspath (w : world) (p : PurePath) : PurePath :=
  pathlib.mk "/" (collapse (key w p)).

Definition realpath (p : PurePath) : M PurePath := λ w,
  (Ok (abspath w p), w).

End os.

(** [dict(x)] of a loaded document: the program only ever dumps objects,
    and any other document is refused here. *)
Definition as_dict (c : json) : M dict :=
  match c with
  | JObj m => mret m
  | _ => raise (TypeError "not a mapping")
  end.

(** [fullpath] *)
Definition fullpath (p : PurePath) : M PurePath := os.realpath p.

(** ** Python operations on loaded documents *)

(** [x[k]] for a string [k] *)
Definition getitem (x : json) (k : string) : M json :=
  match x with
  | JObj m => match m !! k with
              | Some v => mret v
              | None => raise (KeyError k)
              end
  | _ => raise (TypeError "indices must be integers")
  end.

(** [x[k] = v] for a string [k] *)
Definition setitem (x : json) (k : string) (v : json) : M json :=
  match x with
  | JObj m => mret (JObj (<[k := v]> m))
  | _ => raise (TypeError "does not support item assignment")
  end.

(** [x.items()] *)
Definition items (x : json) : M dict :=
  match x with
  | JObj m => mret m
  | _ => raise (AttributeError "object has no attribute 'items'")
  end.

(** [pathlib.Path(x)] *)
Definition Path (x : json) : M PurePath :=
  match x with
  | JStr s => mret (pathlib.parse s)
  | _ => raise (TypeError "expected str, bytes or os.PathLike object")
  end.

(** ** RunLog *)

Module RunLog.

Record t := mk { _path : PurePath; _branches : list string }.

Definition _asdict (self : t) : M dict :=
  c ← os.read_json (_path self); as_dict c.

Definition dump (self : t) (contents : dict) : M unit :=
  os.write_json (_path self) (JObj contents).

Definition __init__ (path : PurePath) (branches : option (list string))
    (common : dict) : M t :=
  p ← fullpath path;
  let self := {| _path := p; _branches := default [] branches |} in
  dump self common ;;
  mret self.

Definition __getitem__ (self : t) (k : string) : M json :=
  contents ← _asdict self;
  match contents !! k with
  | Some v => mret v
  | None => raise (LogKeyError "Unknown run" (Some k))
  end.

(** [create] with no source or with a mapping as source. *)
Definition create (self : t) (key : string) (source : option dict)
  : M t :=
  contents ← _asdict self;
  let contents :=
    match source with
    | None => <[key := JObj ∅]> contents
    | Some _ => contents
    end in
  dump self (<[key := JObj (default ∅ source)]> contents) ;;
  mret self.

Definition append (self : t) (target key : string) (metadata : json)
  : M t :=
  contents ← _asdict self;
  match contents !! target with
  | None => raise (LogKeyError "Cannot append to unknown run" (Some target))
  | Some record =>
      record ← setitem record key metadata;
      dump self (<[target := record]> contents) ;;
      mret self
  end.

(** [{k: v if k != 'directory' else str(directory) for k, v in ...}] *)
Definition redirect (directory : PurePath) (m : dict) : dict :=
  map_imap (λ k v, Some (if bool_decide (k ≠ "directory") then v
                         else JStr (pathlib.to_str directory))) m.

(** The record of [run] with its directory moved to the sibling
    [target]. *)
Definition moved (run : json) (target : string) : M json :=
  d ← getitem run "directory";
  p ← Path d;
  let directory := pathlib.parent p // target in
  m ← items run;
  mret (JObj (redirect directory m)).

Definition mv (self : t) (source target : string) : M t :=
  current ← _asdict self;
  match current !! source with
  | None => raise (LogKeyError "Cannot rename unknown run" (Some source))
  | Some run =>
      let updated := filter (λ kv, kv.1 ≠ source) current in
      match _branches self with
      | [] =>
          new ← moved run target;
          dump self (<[target := new]> updated) ;;
          mret self
      | branches =>
          new ← foldl (λ acc branch,
                         new ← acc;
                         old ← getitem run branch;
                         rec ← moved old target;
                         mret (<[branch := rec]> new))
                      (mret ∅) branches;
          dump self (<[target := JObj new]> updated) ;;
          mret self
      end
  end.

(** A call of [self.mv] with the positional arguments [args]: beside
    [self] the method takes exactly two, and Python refuses any other number before the
    body runs. *)
Definition call_mv (self : t) (args : list string) : M t :=
  match args with
  | [source; target] => mv self source target
  | _ => raise (TypeError "mv() takes 3 positional arguments")
  end.

(** [branch in self._branches], where no string equals [None]. *)
Definition has_branch (self : t) (branch : option string) : bool :=
  match branch with
  | Some b => bool_decide (b ∈ _branches self)
  | None => false
  end.

(** [next((t for t in targets if t not in current), None)] *)
Definition first_unknown (current : dict) (targets : list string)
  : option string :=
  List.find (λ t, bool_decide (current !! t = None)) targets.

(** The loop that puts back each target without the sub-record of
    [branch]. *)
Definition strip (targets : list string) (branch : string)
    (current updated : dict) : M dict :=
  map_fold (λ key info acc,
              updated ← acc;
              if bool_decide (key ∈ targets) then
                m ← items info;
                mret (<[key := JObj (filter (λ kv, kv.1 ≠ branch) m)]>
                        updated)
              else mret updated)
           (mret updated) current.

Definition rm (self : t) (targets : list string) (branch : option string)
  : M t :=
  current ← _asdict self;
  match first_unknown current targets with
  | Some target =>
      if truthy target
      then raise (LogKeyError "Cannot remove unknown run" (Some target))
      else mret tt
  | None => mret tt
  end ;;
  let updated := filter (λ kv, kv.1 ∉ targets) current in
  if negb (has_branch self branch)
  then raise (LogKeyError "Cannot remove runs from unknown branch" branch)
  else
    updated ← match branch with
              | Some b => if truthy b
                          then strip targets b current updated
                          else mret updated
              | None => mret updated
              end;
    dump self updated ;;
    mret self.

Definition __len__ (self : t) : M nat :=
  contents ← _asdict self;
  mret (size contents).

End RunLog.

(** ** _ProjectInit *)

Module _ProjectInit.

(** The keyword arguments of a call of [Project]; [None] stands
    for a keyword that was not given. *)
Record kwargs := Kwargs {
  kw_branches : option (list string);
  kw_config : option string;
  kw_output : option string;
  kw_rundir : option string;
  kw_logstem : option string }.

Definition no_kwargs : kwargs := Kwargs None None None None None.

(** [bool(kwargs)]: the dictionary of keywords is not empty. *)
Definition given (kw : kwargs) : bool :=
  bool_decide (is_Some (kw_branches kw))
  || bool_decide (is_Some (kw_config kw))
  || bool_decide (is_Some (kw_output kw))
  || bool_decide (is_Some (kw_rundir kw))
  || bool_decide (is_Some (kw_logstem kw)).

(** [self._attrs] *)
Record t := mk {
  a_branches : list string;
  a_config : string;
  a_output : string;
  a_rundir : string;
  a_logstem : string;
  a_root : string }.

(** [str(kwargs.get(key) or default)] *)
Definition str_or (v : option string) (dflt : string) : string :=
  match v with
  | Some s => if truthy s then s else dflt
  | None => dflt
  end.

Definition __init__ (rt : string) (kw : kwargs) : t :=
  {| a_branches := default [] (kw_branches kw);
     a_config := str_or (kw_config kw) "eprem.cfg";
     a_output := str_or (kw_output kw) "eprem.log";
     a_rundir := str_or (kw_rundir kw) "runs";
     a_logstem := str_or (kw_logstem kw) "runs";
     a_root := rt |}.

Definition path (self : t) : M PurePath :=
  fullpath (pathlib.parse (a_root self)).

Definition branches (self : t) : list string := a_branches self.
Definition config (self : t) : string := a_config self.
Definition rundir (self : t) : string := a_rundir self.
Definition logstem (self : t) : string := a_logstem self.

(** Only the file name of the configured output is used. *)
Definition output (self : t) : string :=
  pathlib.name (pathlib.parse (a_output self)).

Definition logname (self : t) : M string :=
  match pathlib.with_suffix (pathlib.parse (logstem self)) ".json" with
  | Some p => mret (pathlib.name p)
  | None => raise (ValueError "has an empty name")
  end.

(** [dict(init)] as [json.dump] writes it to the registry. *)
Definition to_json (self : t) : json :=
  JObj (<["branches" := JArr (JStr <$> a_branches self)]>
       (<["config" := JStr (a_config self)]>
       (<["output" := JStr (a_output self)]>
       (<["rundir" := JStr (a_rundir self)]>
       (<["logstem" := JStr (a_logstem self)]>
       (<["root" := JStr (a_root self)]> ∅)))))).

Definition falsy (v : json) : bool :=
  match v with
  | JNull | JBool false | JNum 0 | JStr EmptyString | JArr [] => true
  | JObj m => bool_decide (m = ∅)
  | _ => false
  end.

Definition as_str (v : json) : M string :=
  match v with
  | JStr s => mret s
  | _ => raise (TypeError "registry value is not a string")
  end.

(** One keyword of a registry entry, read back: a missing or false value
    counts as not given.  The registry the program writes holds strings
    and a list of strings, and other values are refused here. *)
Definition kw_str (m : dict) (k : string) : M (option string) :=
  match m !! k with
  | None => mret None
  | Some v => if falsy v then mret None else Some <$> as_str v
  end.

(** [tuple(s)] of a string: its characters. *)
Fixpoint chars (s : string) : list string :=
  match s with
  | EmptyString => []
  | String c s' => String c EmptyString :: chars s'
  end.

Definition kw_strs (m : dict) (k : string) : M (option (list string)) :=
  match m !! k with
  | None => mret None
  | Some (JArr l) => Some <$> mapM as_str l
  | Some (JStr s) => mret (if truthy s then Some (chars s) else None)
  | Some v =>
      if falsy v then mret None
      else raise (TypeError "registry value is not a list")
  end.

(** [_ProjectInit] applied to the keywords of an entry loaded from the
    registry. *)
Definition of_json (entry : json) : M t :=
  match entry with
  | JObj m =>
      match m !! "root" with
      | None => raise (TypeError "missing required argument: 'root'")
      | Some r =>
          rt ← as_str r;
          bs ← kw_strs m "branches";
          cfg ← kw_str m "config";
          out ← kw_str m "output";
          rd ← kw_str m "rundir";
          ls ← kw_str m "logstem";
          mret (__init__ rt (Kwargs bs cfg out rd ls))
      end
  | _ => raise (TypeError "argument after ** must be a mapping")
  end.

End _ProjectInit.

(** ** Project *)

Module Project.
Section methods.

(** The matching of a name against a glob pattern belongs to [pathlib]. *)
Variable fnmatch : string → string → bool.

(** The registry, a path relative to the working directory. *)
Definition database : PurePath := pathlib.parse ".eprem-runtime.json".

(** [root] caches [self._attrs.path], which is computed on first use. *)
Record t := mk {
  _attrs : _ProjectInit.t;
  root : PurePath;
  _log : RunLog.t;
  _directories : list PurePath }.

Definition log (self : t) : RunLog.t := _log self.
Definition directories (self : t) : list PurePath := _directories self.

Definition _init_attrs (rt : string) (kw : _ProjectInit.kwargs)
  : M _ProjectInit.t :=
  path ← fullpath (pathlib.parse rt);
  ex ← os.exists_ path;
  if ex && _ProjectInit.given kw
  then raise (ProjectExistsError (pathlib.to_str path))
  else
    let key := pathlib.to_str path in
    ex ← os.exists_ path;
    if (ex : bool) then
      c ← os.read_json database;
      existing ← as_dict c;
      match existing !! key with
      | Some entry => _ProjectInit.of_json entry
      | None => raise (KeyError key)
      end
    else
      os.mkdir_parents path false ;;
      let init := _ProjectInit.__init__ (pathlib.to_str path) kw in
      os.write_json database (JObj {[ key := _ProjectInit.to_json init ]}) ;;
      mret init.

(** [attrs.branches or ['']] *)
Definition branches_or_blank (attrs : _ProjectInit.t) : list string :=
  match _ProjectInit.branches attrs with
  | [] => [""]
  | bs => bs
  end.

Definition __init__ (rt : string) (kw : _ProjectInit.kwargs) : M t :=
  attrs ← _init_attrs rt kw;
  path ← _ProjectInit.path attrs;
  let directories :=
    (λ branch, path // branch // _ProjectInit.rundir attrs)
      <$> branches_or_blank attrs in
  for_each (λ directory, os.mkdir_parents directory true) directories ;;
  logname ← _ProjectInit.logname attrs;
  lg ← RunLog.__init__ (path // logname)
         (Some (_ProjectInit.branches attrs))
         (<["config" := JStr (_ProjectInit.config attrs)]>
            {[ "output" := JStr (_ProjectInit.output attrs) ]});
  mret {| _attrs := attrs; root := path; _log := lg;
          _directories := directories |}.

Definition _get_rundirs (self : t) (subset : list string)
  : list PurePath :=
  match subset with
  | [] => directories self
  | _ => List.filter
           (λ d, bool_decide (pathlib.name (pathlib.parent d) ∈ subset))
           (directories self)
  end.

(** The check returns the action that the caller applies to each path. *)
Definition _make_paths_check (paths : list PurePath)
  : M (PurePath → M unit) :=
  let action := λ path, os.mkdir_parents path false in
  for_each (λ path,
              ex ← os.exists_ path;
              if (ex : bool) then raise (PathOperationError "already exists"
                                  (pathlib.to_str path))
              else mret tt) paths ;;
  mret action.

Definition _make_paths (self : t) (name : string) (subset : list string)
  : M (list PurePath) :=
  let rundirs := _get_rundirs self subset in
  let paths := (λ rundir, rundir // name) <$> rundirs in
  action ← _make_paths_check paths;
  for_each action paths ;;
  mret paths.

Definition _rename_paths_check (pairs : list (PurePath * PurePath))
  : M (PurePath → PurePath → M unit) :=
  let action := λ old new, os.rename old new in
  for_each (λ '(old, new),
              ex ← os.exists_ old;
              if negb ex then raise (PathOperationError "does not exist"
                                       (pathlib.to_str old))
              else
                isd ← os.is_dir old;
                if negb isd then raise (PathOperationError "not a directory"
                                          (pathlib.to_str old))
                else
                  ex ← os.exists_ new;
                  if (ex : bool)
                  then raise (PathOperationError "would overwrite"
                                (pathlib.to_str new))
                  else mret tt) pairs ;;
  mret action.

Definition _rename_paths (self : t) (src dst : string)
    (subset : list string) : M (list (PurePath * PurePath)) :=
  let rundirs := _get_rundirs self subset in
  let pairs := (λ rundir, (rundir // src, rundir // dst)) <$> rundirs in
  action ← _rename_paths_check pairs;
  for_each (λ pair, action pair.1 pair.2) pairs ;;
  mret pairs.

Definition _remove_paths_check (paths : list PurePath)
  : M (PurePath → M unit) :=
  let action := λ path, os.rmtree path in
  for_each (λ path,
              ex ← os.exists_ path;
              if negb ex then raise (PathOperationError "does not exist"
                                       (pathlib.to_str path))
              else
                isd ← os.is_dir path;
                if negb isd then raise (PathOperationError "not a directory"
                                          (pathlib.to_str path))
                else mret tt) paths ;;
  mret action.

Definition _remove_paths (self : t) (name : string) (subset : list string)
  : M (list PurePath) :=
  let rundirs := _get_rundirs self subset in
  found ← mapM (λ rundir, os.glob fnmatch rundir name) rundirs;
  let paths := @List.concat PurePath found in
  action ← _remove_paths_check paths;
  for_each action paths ;;
  mret paths.

(** The branch a run directory belongs to: [path.parent.parent.name]. *)
Definition branch_of (path : PurePath) : string :=
  pathlib.name (pathlib.parent (pathlib.parent path)).

(** The messages printed unless [silent] are not part of the model. *)
Definition mv (self : t) (source target : string) (subset : list string)
  : M unit :=
  paths ← _rename_paths self source target subset;
  match paths with
  | [] => mret tt
  | _ =>
      let branches := (λ path, branch_of path.1) <$> paths in
      for_each (λ branch,
                  RunLog.call_mv (log self) [source; target; branch])
               branches
  end.

(** [self.log.rm] receives the branch after the targets, as one more
    positional argument, and so no [branch] keyword. *)
Definition rm (self : t) (run : string) (subset : list string) : M unit :=
  paths ← _remove_paths self run subset;
  let branches := branch_of <$> paths in
  let targets := pathlib.name <$> paths in
  for_each (λ branch, RunLog.rm (log self) (targets ++ [branch]) None)
           branches.

(** [run] up to the body of its loop over the new paths.  The body, which
    locates the executables, copies the configuration, runs the process
    and appends to the log, is [execute]. *)
Definition run (execute : PurePath → M unit) (self : t) (name : string)
    (subset : list string) : M unit :=
  RunLog.create (log self) name None ;;
  paths ← _make_paths self name subset;
  for_each execute paths.

(** [remove]; the flag [_isvalid] that it clears at the end is not part
    of [t]. *)
Definition remove (self : t) : M unit :=
  os.rmtree (root self) ;;
  c ← os.read_json database;
  current ← as_dict c;
  let updated := filter (λ kv, kv.1 ≠ pathlib.to_str (root self)) current in
  os.write_json database (JObj updated).

End methods.
End Project.


(** ** Locating an executable *)

(** [os.path.realpath(p)]: the string of the resolved path. *)
Definition os_path_realpath (p : PurePath) : M string :=
  real ← os.realpath p; mret (pathlib.to_str real).

(** [_locate]; what [shutil.which] finds on the search path is [which]. *)
Definition _locate (which : string → option string) (name : string)
    (path : PurePath) (environment : gmap string string) : M PurePath :=
  let location :=
    match environment !! name with
    | Some s => if truthy s then pathlib.parse s else path // name
    | None => path // name
    end in
  real ← os_path_realpath location;
  it ← fullpath (pathlib.parse real);
  ex ← os.exists_ it;
  if (ex : bool) then mret it
  else match which name with
       | Some found => mret (pathlib.parse found)
       | None => raise (TypeError "expected str, bytes or os.PathLike object")
       end.

(** ** Vocabulary of the statements *)

(** The log file of [self] holds the mapping [m]. *)
Definition holds (w : world) (self : RunLog.t) (m : dict) : Prop :=
  os.stat w (RunLog._path self) = os.Found (File (JObj m)).

(** The record of a target of [rm] once the sub-record of [branch] is
    taken out of it. *)
Definition stripped (branch : string) (info : json) : json :=
  match info with
  | JObj o => JObj (filter (λ kv, kv.1 ≠ branch) o)
  | x => x
  end.

Fixpoint has_slash (s : string) : bool :=
  match s with
  | EmptyString => false
  | String c s' => Ascii.eqb c pathlib.slash || has_slash s'
  end.

(** A string that names one path segment: not empty, not a dot, and free
    of slashes. *)
Definition is_segment (s : string) : bool :=
  pathlib.kept s && negb (has_slash s).

(** A path as [pathlib] builds them. *)
Definition well_formed (p : PurePath) : Prop :=
  pathlib.root p ∈ [""; "/"; "//"] ∧
  Forall (λ s, is_segment s = true) (pathlib.parts p).

(** Something, respectively a directory, is at [p]. *)
Definition present (w : world) (p : PurePath) : Prop :=
  ∃ n, os.stat w p = os.Found n.

Definition dir_at (w : world) (p : PurePath) : Prop :=
  ∃ m, os.stat w p = os.Found (Dir m).

Global Instance present_dec w p : Decision (present w p).
Proof.
  unfold present. destruct (os.stat w p) as [n| |].
  - left. eauto.
  - right. by intros [? ?].
  - right. by intros [? ?].
Defined.

(** A computation preserves directories when every directory of the world
    it starts in is a directory of the world it ends in. *)
Definition preserves_dirs {A} (c : M A) : Prop :=
  ∀ w q, dir_at w q → dir_at (c w).2 q.

(** The run directories are in place, pairwise distinct, and free of the
    name to be made. *)
Definition ready (w : world) (name : string) (rundirs : list PurePath)
  : Prop :=
  Forall (dir_at w) rundirs ∧
  NoDup (os.key w <$> rundirs) ∧
  Forall (λ d, os.stat w (d // name) = os.NoEnt) rundirs.

(** The attributes common to all runs that [Project] hands to its log. *)
Definition common (attrs : _ProjectInit.t) : dict :=
  <["config" := JStr (_ProjectInit.config attrs)]>
    {[ "output" := JStr (_ProjectInit.output attrs) ]}.

(** The run directories of a project with the attributes [attrs] and the
    root [path]. *)
Definition rundirs_of (attrs : _ProjectInit.t) (path : PurePath)
  : list PurePath :=
  (λ branch, path // branch // _ProjectInit.rundir attrs)
    <$> Project.branches_or_blank attrs.

(** Matching for patterns without wildcards, where a name matches when it
    is the pattern. *)
Definition literal_match (name pattern : string) : bool :=
  String.eqb name pattern.

(** A computation is quiet when it leaves the world as it found it, and
    safe when it does so at least whenever it raises. *)
Definition quiet {A} (c : M A) : Prop := ∀ w, (c w).2 = w.


(** A document that is a mapping. *)
Definition is_obj (x : json) : bool :=
  match x with
  | JObj _ => true
  | _ => false
  end.

(** The record [run] has, for the branch [br], a sub-record with a
    directory. *)
Definition has_branch_record (run : dict) (br : string) : Prop :=
  ∃ rb d, run !! br = Some (JObj rb) ∧ rb !! "directory" = Some (JStr d).

(** The sub-record [rb] with its directory [d] moved to the sibling
    [target]. *)
Definition moved_to (target : string) (rb : dict) (d : string) : json :=
  JObj (<["directory" :=
           JStr (pathlib.to_str
                   (pathlib.parent (pathlib.parse d) // target))]> rb).

(** The second world has the working directory of the first, and every
    file and every directory of the first is in it: files with what they
    held, directories possibly with more entries. *)
Definition grows (w w' : world) : Prop :=
  cwd w' = cwd w ∧
  (∀ q x, os.stat w q = os.Found (File x) → os.stat w' q = os.Found (File x)) ∧
  (∀ q, dir_at w q → dir_at w' q).

(** A computation only adds to the world. *)
Definition growing {A} (c : M A) : Prop := ∀ w, grows w (c w).2.

(** A computation leaves the working directory alone. *)
Definition keeps_cwd {A} (c : M A) : Prop := ∀ w, cwd (c w).2 = cwd w.

(** Two places are apart when neither is at or below the other. *)
Definition apart (a b : list string) : Prop :=
  ¬ a `prefix_of` b ∧ ¬ b `prefix_of` a.

(** The second world is the first with something taken out at the places
    [ks], and nothing is new: the working directory is the same, what
    was missing is missing, where no place of [ks] is at or above the
    files hold what they held and the directories are there, and what is
    apart from [ks] is as it was. *)
Definition shrinks (ks : list (list string)) (w w' : world) : Prop :=
  cwd w' = cwd w ∧
  ∀ q, (os.stat w q = os.NoEnt → os.stat w' q = os.NoEnt) ∧
       (Forall (λ k, ¬ k `prefix_of` os.key w q) ks →
        (∀ x, os.stat w q = os.Found (File x) →
              os.stat w' q = os.Found (File x)) ∧
        (dir_at w q → dir_at w' q)) ∧
       (Forall (λ k, apart k (os.key w q)) ks → os.stat w' q = os.stat w q).

(** What [d.glob(pattern)] yields in the world [w]. *)
Definition globbed (fnmatch : string → string → bool) (w : world)
    (pattern : string) (d : PurePath) : list PurePath :=
  match os.glob fnmatch d pattern w with
  | (Ok ps, _) => ps
  | _ => []
  end.

(** A string that names an entry of a directory: one segment other than
    [..], which names the directory above. *)
Definition is_name (s : string) : bool :=
  is_segment s && negb (String.eqb s "..").

(** A pattern for [glob] that stands for names of entries of one
    directory: one segment other than [..] and [**], which [glob] does
    not match against names. *)
Definition is_pattern (s : string) : bool :=
  is_name s && negb (String.eqb s "**").

(** What the listings of the run directories [rundirs] yield together. *)
Definition listing (fnmatch : string → string → bool) (w : world)
    (pattern : string) (rundirs : list PurePath) : list PurePath :=
  @List.concat PurePath (globbed fnmatch w pattern <$> rundirs).

(** The pairs of source and target in the run directories [rundirs]. *)
Definition pairs_of (src dst : string) (rundirs : list PurePath)
  : list (PurePath * PurePath) :=
  (λ rundir, (rundir // src, rundir // dst)) <$> rundirs.

(** ** Worlds used as concrete inputs *)

(** A project directory [/p] whose log [/p/runs.json] holds [m]. *)
Definition log_path : PurePath := pathlib.parse "/p/runs.json".

Definition world_with_log (m : dict) : world :=
  World [] (Dir {[ "p" := Dir {[ "runs.json" := File (JObj m) ]} ]}).

Definition unbranched : RunLog.t := RunLog.mk log_path [].
Definition branched : RunLog.t := RunLog.mk log_path ["a"; "b"].

(** The log of a branched project in which [run1] has a record for each
    branch. *)
Definition two_branch_log : dict :=
  {[ "run1" := JObj (<["a" := JObj {[ "directory" := JStr "/p/a/runs/run1" ]}]>
                       {[ "b" := JObj {[ "directory" := JStr "/p/b/runs/run1" ]} ]}) ]}.

(** The log of a project without branches that holds the run [run1]. *)
Definition run1_record : dict := {[ "directory" := JStr "/p/runs/run1" ]}.
Definition one_run_log : dict := {[ "run1" := JObj run1_record ]}.

(** A project [/p] with the branches [a] and [b]: its run directories hold
    [runs_a] and [runs_b], and its log holds [m]. *)
Definition demo_attrs : _ProjectInit.t :=
  _ProjectInit.__init__ "/p"
    (_ProjectInit.Kwargs (Some ["a"; "b"]) None None None None).

Definition demo_project : Project.t :=
  {| Project._attrs := demo_attrs;
     Project.root := pathlib.parse "/p";
     Project._log := branched;
     Project._directories :=
       [pathlib.parse "/p/a/runs"; pathlib.parse "/p/b/runs"] |}.

Definition demo_world (m : dict) (runs_a runs_b : gmap string node) : world :=
  World []
    (Dir {[ "p" :=
      Dir (<["a" := Dir {[ "runs" := Dir runs_a ]}]>
          (<["b" := Dir {[ "runs" := Dir runs_b ]}]>
             {[ "runs.json" := File (JObj m) ]})) ]}).

(** The project [/p] without branches, as found on disk with the run
    [run1]: the registry in the working directory, the run directory, and
    a log that holds the common attributes and the entry of the run. *)
Definition plain_attrs : _ProjectInit.t :=
  _ProjectInit.__init__ "/p" _ProjectInit.no_kwargs.

Definition plain_log : dict := <["run1" := JObj run1_record]> (common plain_attrs).

Definition plain_world : world :=
  World []
    (Dir (<[".eprem-runtime.json" :=
              File (JObj {[ "/p" := _ProjectInit.to_json plain_attrs ]})]>
         {[ "p" := Dir (<["runs" := Dir {[ "run1" := Dir ∅ ]}]>
                          {[ "runs.json" := File (JObj plain_log) ]}) ]})).

Definition plain_project : Project.t :=
  {| Project._attrs := plain_attrs;
     Project.root := pathlib.parse "/p";
     Project._log := unbranched;
     Project._directories := [pathlib.parse "/p/runs"] |}.

(** An empty disk. *)
Definition empty_world : world := World [] (Dir ∅).

(** The project with the branches [a] and [b] in which [run1] was run in
    both branches. *)
Definition demo_world_run1 : world :=
  demo_world two_branch_log {[ "run1" := Dir ∅ ]} {[ "run1" := Dir ∅ ]}.

(** The record of [run1] in [two_branch_log], and the record of a run that
    was made in the branch [a] only. *)
Definition two_branch_record : dict :=
  <["a" := JObj {[ "directory" := JStr "/p/a/runs/run1" ]}]>
    {[ "b" := JObj {[ "directory" := JStr "/p/b/runs/run1" ]} ]}.

Definition only_a_record : dict :=
  {[ "a" := JObj {[ "directory" := JStr "/p/a/runs/run1" ]} ]}.

(** * Properties *)

(** ** The monad *)

Lemma bind_run {A B} (m : M A) (f : A → M B) (w : world) :
  (m ≫= f) w = match m w with
               | (Ok a, w') => f a w'
               | (Raise e, w') => (Raise e, w')
               end.
Proof. reflexivity. Qed.

Lemma bind_ok {A B} (m : M A) (f : A → M B) (w w' : world) (a : A) :
  m w = (Ok a, w') → (m ≫= f) w = f a w'.
Proof. intros H. by rewrite bind_run, H. Qed.

Lemma bind_raise {A B} (m : M A) (f : A → M B) (w w' : world) (e : exn) :
  m w = (Raise e, w') → (m ≫= f) w = (Raise e, w').
Proof. intros H. by rewrite bind_run, H. Qed.

(** A sequence returns only if both of its parts return. *)
Lemma bind_ok_inv {A B} (m : M A) (f : A → M B) (w w'' : world) (b : B) :
  (m ≫= f) w = (Ok b, w'') →
  ∃ a w', m w = (Ok a, w') ∧ f a w' = (Ok b, w'').
Proof.
  rewrite bind_run. destruct (m w) as [[a|e] w']; [eauto | discriminate].
Qed.

Lemma ret_run {A} (a : A) (w : world) : (mret a : M A) w = (Ok a, w).
Proof. reflexivity. Qed.

Lemma raise_run {A} (e : exn) (w : world) : @raise A e w = (Raise e, w).
Proof. reflexivity. Qed.

Lemma for_each_ok_inv {A B} (f : A → M B) (l : list A) (w w' : world) :
  for_each f l w = (Ok tt, w') →
  l = [] ∧ w' = w ∨
  ∃ x l' b w1, l = x :: l' ∧ f x w = (Ok b, w1) ∧
               for_each f l' w1 = (Ok tt, w').
Proof.
  destruct l as [|x l']; simpl.
  - rewrite ret_run. intros [= <-]. by left.
  - intros H. apply bind_ok_inv in H as (b & w1 & H1 & H2).
    right. eauto 10.
Qed.

(** A loop whose body always raises returns only on the empty list. *)
Lemma for_each_raises {A B} (f : A → M B) (x : A) (l : list A) (w : world) :
  (∀ w0, ∃ e, f x w0 = (Raise e, w0)) →
  ∃ e, for_each f (x :: l) w = (Raise e, w).
Proof.
  intros H. destruct (H w) as [e He]. exists e.
  simpl. by rewrite (bind_raise _ _ _ _ _ He).
Qed.

(** ** The directory tree *)

Import os.

Lemma key_put (w : world) (p q : PurePath) (v : option node) :
  key (put w p v) q = key w q.
Proof. reflexivity. Qed.

(** What is put below a directory is found there. *)
Lemma resolve_set_node (k : list string) (v : node) (n : node) :
  k ≠ [] →
  (∃ m, resolve (removelast k) n = Found (Dir m)) →
  resolve k (set_node k (Some v) n) = Found v.
Proof.
  revert n. induction k as [|s k IH]; intros n Hne [m Hm]; [done|].
  destruct k as [|s' k].
  - simpl in *. injection Hm as ->. simpl.
    by rewrite lookup_partial_alter_eq.
  - change (removelast (s :: s' :: k)) with (s :: removelast (s' :: k)) in Hm.
    cbn [resolve] in Hm. destruct n as [c|m0]; [done|].
    destruct (m0 !! s) as [c|] eqn:Hs; [|done].
    cbn [set_node resolve]. rewrite lookup_partial_alter_eq, Hs. simpl.
    apply IH; [done | eauto].
Qed.

(** A path that resolves has a directory as parent. *)
Lemma resolve_parent (k : list string) (n x : node) :
  k ≠ [] → resolve k n = Found x →
  ∃ m, resolve (removelast k) n = Found (Dir m).
Proof.
  revert n. induction k as [|s k IH]; intros n Hne H; [done|].
  destruct n as [c|m0]; [done|]. cbn [resolve] in H.
  destruct (m0 !! s) as [c|] eqn:Hs; [|done].
  destruct k as [|s' k]; [simpl; eauto|].
  change (removelast (s :: s' :: k)) with (s :: removelast (s' :: k)).
  cbn [resolve]. rewrite Hs. by apply IH.
Qed.

Lemma stat_put_file (w : world) (p : PurePath) (c c' : json) :
  stat w p = Found (File c) →
  stat (put w p (Some (File c'))) p = Found (File c').
Proof.
  unfold stat. rewrite key_put. unfold put. cbn [tree]. intros H.
  destruct (key w p) as [|s k] eqn:Hk.
  - simpl in *. done.
  - apply resolve_set_node; [done|]. by eapply resolve_parent.
Qed.


(** ** Reading and writing the log *)

Lemma key_parent (w : world) (p : PurePath) :
  key w (pathlib.parent p) =
  match pathlib.parts p with
  | [] => key w p
  | _ => removelast (key w p)
  end.
Proof.
  unfold key, pathlib.parent. cbn [pathlib.root pathlib.parts].
  destruct (pathlib.parts p) as [|s ps] eqn:Hp; [done|].
  destruct (pathlib.root p); [|done].
  by rewrite removelast_app.
Qed.

(** A dump that returns leaves its argument in the file. *)
Lemma write_json_ok (p : PurePath) (c : json) (w w' : world) :
  write_json p c w = (Ok tt, w') → stat w' p = Found (File c).
Proof.
  unfold write_json. destruct (stat w p) as [[c0|m0]| |] eqn:Hs; try done.
  - intros [= <-]. by eapply stat_put_file.
  - destruct (stat w (pathlib.parent p)) as [[?|mp]| |] eqn:Hp; try done.
    intros [= <-]. unfold stat in *. rewrite key_put. unfold put. cbn [tree].
    rewrite key_parent in Hp.
    destruct (pathlib.parts p) as [|s0 ps]; [congruence|].
    destruct (key w p) as [|s k] eqn:Hk; [done|].
    apply resolve_set_node; [done | eauto].
Qed.

Lemma asdict_holds (w : world) (self : RunLog.t) (m : dict) :
  holds w self m → RunLog._asdict self w = (Ok m, w).
Proof.
  intros H. unfold RunLog._asdict, read_json. rewrite bind_run.
  by rewrite H.
Qed.

(** The mapping read from the log is the one the file holds, and reading
    changes nothing. *)
Lemma asdict_ok_inv (w w' : world) (self : RunLog.t) (m : dict) :
  RunLog._asdict self w = (Ok m, w') → w' = w ∧ holds w self m.
Proof.
  unfold RunLog._asdict, read_json, holds. rewrite bind_run.
  destruct (stat w (RunLog._path self)) as [[c|?]| |]; try done.
  destruct c; try done. by intros [= -> ->].
Qed.

Lemma dump_holds (w : world) (self : RunLog.t) (m m' : dict) :
  holds w self m →
  ∃ w', RunLog.dump self m' w = (Ok tt, w') ∧ holds w' self m'.
Proof.
  intros H. exists (put w (RunLog._path self) (Some (File (JObj m')))).
  unfold RunLog.dump, write_json. rewrite H. split; [done|].
  by eapply stat_put_file.
Qed.

Lemma dump_ok_inv (w w' : world) (self : RunLog.t) (m' : dict) :
  RunLog.dump self m' w = (Ok tt, w') → holds w' self m'.
Proof. apply write_json_ok. Qed.

(** ** append *)

Lemma append_unknown (w : world) (self : RunLog.t) (m : dict)
    (target key : string) (metadata : json) :
  holds w self m →
  m !! target = None →
  RunLog.append self target key metadata w =
    (Raise (LogKeyError "Cannot append to unknown run" (Some target)), w).
Proof.
  intros Hm Ht. unfold RunLog.append.
  rewrite (bind_ok _ _ _ _ _ (asdict_holds _ _ _ Hm)).
  by rewrite Ht.
Qed.

(** C8: for every log and every target that is not a key of it, [append]
    raises the "Cannot append to unknown run" error for that target, and
    the world it leaves is the world it started in: nothing is written on
    the error path, and the log file holds what it held. *)
Theorem append_unknown_target_leaves_log
    (w : world) (self : RunLog.t) (m : dict) (target key : string)
    (metadata : json) :
  holds w self m →
  m !! target = None →
  ∃ w', RunLog.append self target key metadata w =
          (Raise (LogKeyError "Cannot append to unknown run" (Some target)),
           w') ∧
        w' = w ∧ holds w' self m.
Proof. intros Hm Ht. exists w. split; [by eapply append_unknown | done]. Qed.

Lemma append_unknown_target_leaves_log_witness :
  ∃ w', RunLog.append unbranched "run1" "a" JNull (world_with_log ∅) =
          (Raise (LogKeyError "Cannot append to unknown run" (Some "run1")),
           w') ∧
        w' = world_with_log ∅ ∧ holds w' unbranched ∅.
Proof.
  apply (append_unknown_target_leaves_log _ _ ∅); [|done].
  vm_compute. reflexivity.
Defined.

(** C7, as stated, fails: on a log without the target the error raised is
    not an instance of [RunKeyError]. *)
Lemma append_unknown_target_not_RunKeyError :
  ∃ e, (RunLog.append unbranched "run1" "a" JNull (world_with_log ∅)).1
       = Raise e ∧ isinstance e CRunKeyError = false.
Proof. eexists. split; vm_compute; reflexivity. Qed.

(** C7, amended: on a target that is not a key [append] raises a
    [LogKeyError], which is a [KeyError] and not a [RunKeyError], and writes
    nothing; on a target whose record is a mapping it returns, and the log
    then binds the target to that record with [key] bound to [metadata],
    every other entry being as before. *)
Theorem append_spec
    (w : world) (self : RunLog.t) (m : dict) (target key : string)
    (metadata : json) :
  holds w self m →
  (m !! target = None →
   ∃ e, RunLog.append self target key metadata w = (Raise e, w) ∧
        class_of e = CLogKeyError ∧
        isinstance e CKeyError = true ∧
        isinstance e CRunKeyError = false) ∧
  (∀ r, m !! target = Some (JObj r) →
   ∃ w', RunLog.append self target key metadata w = (Ok self, w') ∧
         holds w' self (<[target := JObj (<[key := metadata]> r)]> m) ∧
         ∀ m', holds w' self m' →
               m' !! target = Some (JObj (<[key := metadata]> r)) ∧
               ∀ k, k ≠ target → m' !! k = m !! k).
Proof.
  intros Hm. split.
  - intros Ht. eexists. split.
    + by apply append_unknown with (m := m).
    + done.
  - intros r Hr. unfold RunLog.append.
    rewrite (bind_ok _ _ _ _ _ (asdict_holds _ _ _ Hm)), Hr.
    cbn [setitem]. rewrite bind_run, ret_run.
    destruct (dump_holds w self m
                (<[target := JObj (<[key := metadata]> r)]> m) Hm)
      as (w' & Hd & Hh).
    exists w'. rewrite bind_run, Hd, ret_run. split; [done|]. split; [done|].
    intros m' Hm'. unfold holds in *. rewrite Hh in Hm'.
    injection Hm' as <-. split.
    + by rewrite lookup_insert_eq.
    + intros k Hk. by rewrite lookup_insert_ne.
Qed.

Lemma append_spec_witness :
  ∃ w', RunLog.append unbranched "run1" "a" JNull
          (world_with_log {[ "run1" := JObj ∅ ]}) = (Ok unbranched, w') ∧
        holds w' unbranched
          (<["run1" := JObj (<["a" := JNull]> ∅)]> {[ "run1" := JObj ∅ ]}).
Proof.
  destruct (append_spec (world_with_log {[ "run1" := JObj ∅ ]}) unbranched
              {[ "run1" := JObj ∅ ]} "run1" "a" JNull) as [_ H].
  { vm_compute. reflexivity. }
  destruct (H ∅) as (w' & H1 & H2 & _).
  { vm_compute. reflexivity. }
  eauto.
Defined.

(** ** rm *)

(** Reading the log never changes the world. *)
Lemma asdict_world (self : RunLog.t) (w : world) :
  (RunLog._asdict self w).2 = w.
Proof.
  unfold RunLog._asdict, read_json. rewrite bind_run.
  destruct (stat w (RunLog._path self)) as [[c|?]| |]; try done.
  by destruct c.
Qed.

(** Without a [branch] keyword the branch test of [rm] always fails: the
    call raises whatever the targets are, and writes nothing. *)
Lemma rm_without_branch_raises (self : RunLog.t) (targets : list string)
    (w : world) :
  ∃ e, RunLog.rm self targets None w = (Raise e, w).
Proof.
  unfold RunLog.rm. rewrite bind_run.
  pose proof (asdict_world self w) as Hw.
  destruct (RunLog._asdict self w) as [[current|e] w0]; simpl in Hw; subst w0;
    [|eauto].
  rewrite bind_run.
  destruct (RunLog.first_unknown current targets) as [t|].
  - destruct (truthy t); [rewrite raise_run; eauto|].
    rewrite ret_run. cbn [RunLog.has_branch negb]. rewrite raise_run. eauto.
  - rewrite ret_run. cbn [RunLog.has_branch negb]. rewrite raise_run. eauto.
Qed.

Lemma first_unknown_known (current : dict) (targets : list string) :
  (∀ t, t ∈ targets → is_Some (current !! t)) →
  RunLog.first_unknown current targets = None.
Proof.
  intros H. unfold RunLog.first_unknown.
  destruct (List.find _ targets) as [t|] eqn:Hf; [|done].
  apply find_some in Hf as [Hin Hb].
  apply bool_decide_eq_true in Hb.
  apply list_elem_of_In, H in Hin. rewrite Hb in Hin. by destruct Hin.
Qed.

(** On known targets the error is the one about the branch [None]. *)
Lemma rm_known_targets_without_branch (w : world) (self : RunLog.t)
    (m : dict) (targets : list string) :
  holds w self m →
  (∀ t, t ∈ targets → is_Some (m !! t)) →
  RunLog.rm self targets None w =
    (Raise (LogKeyError "Cannot remove runs from unknown branch" None), w).
Proof.
  intros Hm Hk. unfold RunLog.rm.
  rewrite (bind_ok _ _ _ _ _ (asdict_holds _ _ _ Hm)).
  by rewrite first_unknown_known.
Qed.

(** C2: the code departs from the claim.  A call of [rm] without a branch
    never returns, whatever the log and the targets; on the log that holds
    the run [run1] and nothing else, removing [run1] raises the log key
    error about the branch [None] and the log is as before. *)
Theorem rm_without_branch_never_succeeds :
  (∀ (self : RunLog.t) (targets : list string) (w : world),
     ∃ e, RunLog.rm self targets None w = (Raise e, w)) ∧
  RunLog.rm unbranched ["run1"] None (world_with_log {[ "run1" := JObj ∅ ]}) =
    (Raise (LogKeyError "Cannot remove runs from unknown branch" None),
     world_with_log {[ "run1" := JObj ∅ ]}).
Proof.
  split; [apply rm_without_branch_raises|].
  apply rm_known_targets_without_branch with (m := {[ "run1" := JObj ∅ ]}).
  - vm_compute. reflexivity.
  - intros t Ht. apply list_elem_of_singleton in Ht as ->.
    rewrite lookup_singleton_eq. eauto.
Qed.

Lemma filter_not_in_lookup (targets : list string) (m : dict) (k : string) :
  filter (λ kv : string * json, kv.1 ∉ targets) m !! k =
    if decide (k ∈ targets) then None else m !! k.
Proof.
  rewrite map_lookup_filter. destruct (m !! k) as [x|]; simpl.
  - case_decide; case_guard; simpl in *; done.
  - by case_decide.
Qed.

(** What the loop of [rm] leaves when it returns: it changes no file, every
    target it met was a mapping, and each of them is back in the
    dictionary without the sub-record of the branch. *)
Lemma strip_ok_inv (targets : list string) (b : string)
    (current updated : dict) (w w' : world) (u : dict) :
  RunLog.strip targets b current updated w = (Ok u, w') →
  w' = w ∧
  (∀ k info, current !! k = Some info → k ∈ targets → ∃ o, info = JObj o) ∧
  (∀ k, u !! k = match current !! k with
                 | Some info => if decide (k ∈ targets)
                                then Some (stripped b info)
                                else updated !! k
                 | None => updated !! k
                 end).
Proof.
  unfold RunLog.strip. revert w w' u.
  apply (map_fold_weak_ind (λ (r : M dict) (m : dict),
    ∀ w w' u, r w = (Ok u, w') →
      w' = w ∧
      (∀ k info, m !! k = Some info → k ∈ targets → ∃ o, info = JObj o) ∧
      (∀ k, u !! k = match m !! k with
                     | Some info => if decide (k ∈ targets)
                                    then Some (stripped b info)
                                    else updated !! k
                     | None => updated !! k
                     end))).
  - intros w w' u. rewrite ret_run. intros [= <- <-].
    split; [done|]. split; [by intros ?? ?%lookup_empty_Some|].
    intros k. by rewrite lookup_empty.
  - intros i x m r Hi IH w w' u H.
    apply bind_ok_inv in H as (u0 & w1 & Hr & H).
    apply IH in Hr as (-> & Hobj & Hlk).
    case_bool_decide as Hin.
    + apply bind_ok_inv in H as (o & w2 & Ho & H).
      destruct x as [| | | | |ox]; try done.
      cbn [items] in Ho. rewrite ret_run in Ho. injection Ho as <- <-.
      rewrite ret_run in H. injection H as <- <-.
      split; [done|]. split.
      * intros k info Hk Hkin. destruct (decide (k = i)) as [->|Hne].
        -- rewrite lookup_insert_eq in Hk. injection Hk as <-. eauto.
        -- rewrite lookup_insert_ne in Hk by done. eauto.
      * intros k. destruct (decide (k = i)) as [->|Hne].
        -- rewrite !lookup_insert_eq. by rewrite decide_True.
        -- rewrite !lookup_insert_ne by done. apply Hlk.
    + rewrite ret_run in H. injection H as <- <-.
      split; [done|]. split.
      * intros k info Hk Hkin. destruct (decide (k = i)) as [->|Hne]; [done|].
        rewrite lookup_insert_ne in Hk by done. eauto.
      * intros k. destruct (decide (k = i)) as [->|Hne].
        -- rewrite lookup_insert_eq, decide_False by done.
           by rewrite Hlk, Hi.
        -- rewrite lookup_insert_ne by done. apply Hlk.
Qed.

(** C5, as stated, fails: with a branch the targets are put back.  Removing
    [run1] for the branch [a] returns, and [run1] is still a key of the
    log. *)
Lemma rm_with_branch_keeps_target :
  ∃ w' m', RunLog.rm branched ["run1"] (Some "a")
             (world_with_log two_branch_log) = (Ok branched, w') ∧
           holds w' branched m' ∧ is_Some (m' !! "run1").
Proof.
  eexists _, _. split; [vm_compute; reflexivity|].
  split; [vm_compute; reflexivity|].
  vm_compute. eauto.
Qed.

(** C5, amended: when [rm] returns, [branch] is one of the configured
    branches and the entries of the keys that are not targets are as
    before.  For a branch that is not the empty string every target that
    was a key is still a key: its record was a mapping and it is bound to
    that mapping without the sub-record of the branch.  Only for the empty
    string as branch are the targets gone from the top level. *)
Theorem rm_returns_spec
    (w w' : world) (self : RunLog.t) (m : dict) (targets : list string)
    (branch : option string) (r : RunLog.t) :
  holds w self m →
  RunLog.rm self targets branch w = (Ok r, w') →
  ∃ b m', branch = Some b ∧ b ∈ RunLog._branches self ∧
    holds w' self m' ∧
    (∀ k, k ∉ targets → m' !! k = m !! k) ∧
    (∀ t, t ∈ targets →
       if truthy b
       then m' !! t = stripped b <$> m !! t ∧
            (∀ info, m !! t = Some info → ∃ o, info = JObj o)
       else m' !! t = None).
Proof.
  intros Hm. unfold RunLog.rm.
  rewrite (bind_ok _ _ _ _ _ (asdict_holds _ _ _ Hm)).
  intros H. apply bind_ok_inv in H as ([] & w1 & Hchk & H).
  assert (w1 = w) as ->.
  { destruct (RunLog.first_unknown m targets) as [t|].
    - destruct (truthy t); [done|]. by injection Hchk.
    - by injection Hchk. }
  clear Hchk.
  destruct branch as [b|]; cbn [RunLog.has_branch negb] in H; [|done].
  case_bool_decide as Hb; cbn [negb] in H; [|done].
  apply bind_ok_inv in H as (u & w2 & Hu & Hd).
  apply bind_ok_inv in Hd as ([] & w3 & Hd & Hr).
  rewrite ret_run in Hr. injection Hr as <- <-.
  apply dump_ok_inv in Hd. exists b, u. split; [done|]. split; [done|].
  destruct (truthy b) eqn:Htb.
  - apply strip_ok_inv in Hu as (-> & Hobj & Hlk). split; [done|]. split.
    + intros k Hk. rewrite Hlk, filter_not_in_lookup.
      destruct (m !! k); by rewrite ?decide_False.
    + intros t Ht. split; [|eauto].
      rewrite Hlk, filter_not_in_lookup.
      destruct (m !! t); by rewrite ?decide_True.
  - rewrite ret_run in Hu. injection Hu as <- <-. split; [done|]. split.
    + intros k Hk. rewrite filter_not_in_lookup. by rewrite decide_False.
    + intros t Ht. rewrite filter_not_in_lookup. by rewrite decide_True.
Qed.

Lemma rm_returns_spec_witness :
  ∃ w', RunLog.rm branched ["run1"] (Some "a")
          (world_with_log two_branch_log) = (Ok branched, w') ∧
  ∃ b m', Some "a" = Some b ∧ b ∈ RunLog._branches branched ∧
    holds w' branched m' ∧
    (∀ k, k ∉ ["run1"] → m' !! k = two_branch_log !! k) ∧
    (∀ t, t ∈ ["run1"] →
       if truthy b
       then m' !! t = stripped b <$> two_branch_log !! t ∧
            (∀ info, two_branch_log !! t = Some info → ∃ o, info = JObj o)
       else m' !! t = None).
Proof.
  eexists. split; [vm_compute; reflexivity|].
  eapply (rm_returns_spec (world_with_log two_branch_log)).
  - vm_compute. reflexivity.
  - vm_compute. reflexivity.
Defined.

(** ** Paths as strings *)

Section pathlib_facts.
Import pathlib.

Lemma split_cons (s : string) : ∃ x xs, split s = x :: xs.
Proof.
  destruct s as [|c s]; simpl; [eauto|].
  destruct (Ascii.eqb c slash); [eauto|]. destruct (split s); eauto.
Qed.

(** A string without slashes is one piece. *)
Lemma split_no_slash (s : string) : has_slash s = false → split s = [s].
Proof.
  induction s as [|c s IH]; simpl; [done|].
  intros [Hc Hs]%orb_false_iff. rewrite Hc. by rewrite IH.
Qed.

Lemma split_app_slash (x rest : string) :
  has_slash x = false → split (x ++ "/" ++ rest) = x :: split rest.
Proof.
  induction x as [|c x IH]; simpl; [done|].
  intros [Hc Hs]%orb_false_iff. rewrite Hc. by rewrite IH.
Qed.

(** The pieces of a split are free of slashes. *)
Lemma split_pieces (s : string) :
  Forall (λ x, has_slash x = false) (split s).
Proof.
  induction s as [|c s IH]; simpl; [by repeat constructor|].
  destruct (Ascii.eqb c slash) eqn:Hc; [by constructor|].
  destruct (split s) as [|x xs]; [by repeat constructor; simpl; rewrite Hc|].
  inversion_clear IH. constructor; [|done]. simpl. by rewrite Hc.
Qed.

Lemma is_segment_spec (s : string) :
  is_segment s = true ↔ kept s = true ∧ has_slash s = false.
Proof.
  unfold is_segment. rewrite andb_true_iff, negb_true_iff. done.
Qed.

Lemma split_join (ps : list string) :
  Forall (λ s, is_segment s = true) ps → ps ≠ [] → split (join ps) = ps.
Proof.
  induction 1 as [|x ps Hx Hps IH]; [done|]. intros _.
  apply is_segment_spec in Hx as [_ Hx].
  destruct ps as [|y ps]; [by apply split_no_slash|].
  change (join (x :: y :: ps)) with (x ++ "/" ++ join (y :: ps)).
  rewrite split_app_slash by done. by rewrite IH.
Qed.

Lemma filter_kept_segments (ps : list string) :
  Forall (λ s, is_segment s = true) ps → List.filter kept ps = ps.
Proof.
  induction 1 as [|x ps Hx Hps IH]; [done|]. simpl.
  apply is_segment_spec in Hx as [-> _]. by rewrite IH.
Qed.

Lemma append_cons (c : Ascii.ascii) (s t : string) :
  String c s ++ t = String c (s ++ t).
Proof. reflexivity. Qed.

Lemma append_empty (s : string) : s ++ "" = s.
Proof.
  induction s as [|c s IH]; [done|]. by rewrite append_cons, IH.
Qed.

Lemma leading_slashes_segment (x rest : string) :
  is_segment x = true → leading_slashes (x ++ rest) = 0.
Proof.
  intros [Hk Hs]%is_segment_spec. destruct x as [|c x]; [done|].
  simpl in *. apply orb_false_iff in Hs as [-> _]. done.
Qed.

Lemma leading_slashes_join (ps : list string) :
  Forall (λ s, is_segment s = true) ps → leading_slashes (join ps) = 0.
Proof.
  destruct 1 as [|x ps Hx Hps]; [done|].
  destruct ps as [|y ps].
  - simpl. rewrite <- (append_empty x). by apply leading_slashes_segment.
  - change (join (x :: y :: ps)) with (x ++ "/" ++ join (y :: ps)).
    by apply leading_slashes_segment.
Qed.

Lemma parts_of_join (ps : list string) :
  Forall (λ s, is_segment s = true) ps →
  List.filter kept (split (join ps)) = ps.
Proof.
  intros H. destruct ps as [|x ps]; [done|].
  rewrite split_join by done. by apply filter_kept_segments.
Qed.

(** Printing a path and reading it back gives the path again. *)
Lemma parse_to_str (p : PurePath) : well_formed p → parse (to_str p) = p.
Proof.
  destruct p as [r ps]. intros [Hr Hps]. cbn [root parts] in *.
  pose proof (leading_slashes_join ps Hps) as Hl.
  pose proof (parts_of_join ps Hps) as Hp.
  unfold to_str, parse. cbn [root parts].
  rewrite !elem_of_cons, elem_of_nil in Hr.
  destruct Hr as [->|[->|[->|[]]]].
  - destruct ps as [|x ps]; [done|].
    change ("" ++ join (x :: ps)) with (join (x :: ps)). by rewrite Hl, Hp.
  - change ("/" ++ join ps) with (String slash (join ps)).
    cbn [leading_slashes split]. rewrite Ascii.eqb_refl, Hl.
    cbn [List.filter kept]. simpl String.eqb. cbn [negb andb]. by rewrite Hp.
  - change ("//" ++ join ps) with (String slash (String slash (join ps))).
    cbn [leading_slashes split]. rewrite Ascii.eqb_refl, Hl.
    cbn [List.filter kept]. simpl String.eqb. cbn [negb andb]. by rewrite Hp.
Qed.

(** Reading any string gives a path of segments. *)
Lemma parse_well_formed (s : string) : well_formed (parse s).
Proof.
  split.
  - unfold parse. cbn [root].
    destruct (leading_slashes s) as [|[|[|n]]]; set_solver.
  - unfold parse. cbn [parts]. apply Forall_forall. intros x Hx.
    apply list_elem_of_In, filter_In in Hx as [Hx Hk].
    apply is_segment_spec. split; [done|].
    pose proof (split_pieces s) as Hp. rewrite Forall_forall in Hp.
    apply Hp. by apply list_elem_of_In.
Qed.

Lemma parse_segment (b : string) :
  is_segment b = true → parse b = mk "" [b].
Proof.
  intros Hb. unfold parse.
  pose proof (leading_slashes_segment b "" Hb) as Hl.
  rewrite append_empty in Hl.
  rewrite Hl. apply is_segment_spec in Hb as [Hk Hs].
  rewrite split_no_slash by done. simpl. by rewrite Hk.
Qed.

Lemma joinpath_segment (p : PurePath) (b : string) :
  is_segment b = true → p // b = mk (root p) (parts p ++ [b]).
Proof. intros Hb. unfold joinpath. by rewrite parse_segment. Qed.

Lemma well_formed_parent (p : PurePath) :
  well_formed p → well_formed (parent p).
Proof.
  intros [Hr Hps]. split; [done|]. cbn [parent parts].
  destruct (parts p) as [|x ps] using rev_ind; [done|].
  rewrite removelast_last. by apply Forall_app in Hps as [? _].
Qed.

(** A path moved to the sibling [b] prints as a string which reads back
    with [b] as last segment and the same parent. *)
Lemma sibling_roundtrip (p : PurePath) (b : string) :
  well_formed p → is_segment b = true →
  let d' := to_str (parent p // b) in
  name (parse d') = b ∧ parent (parse d') = parent p.
Proof.
  intros Hp Hb d'. subst d'. rewrite joinpath_segment by done.
  rewrite parse_to_str.
  - unfold name, parent. cbn [root parts].
    rewrite last_last, removelast_last. done.
  - apply well_formed_parent in Hp as [Hr Hps]. split; [done|].
    cbn [parts]. apply Forall_app. split; [done|]. by constructor.
Qed.

End pathlib_facts.

(** ** mv *)

Lemma filter_ne_delete (source : string) (m : dict) :
  filter (λ kv : string * json, kv.1 ≠ source) m = delete source m.
Proof.
  apply map_eq. intros k. rewrite map_lookup_filter.
  destruct (decide (k = source)) as [->|Hne].
  - rewrite lookup_delete_eq. destruct (m !! source); simpl; [|done].
    by case_guard.
  - rewrite lookup_delete_ne by done. destruct (m !! k); simpl; [|done].
    by case_guard.
Qed.

(** Rewriting the directory of a record that has one is an update of that
    key alone. *)
Lemma redirect_insert (directory : PurePath) (r : dict) :
  is_Some (r !! "directory") →
  RunLog.redirect directory r =
    <["directory" := JStr (pathlib.to_str directory)]> r.
Proof.
  intros [v Hv]. apply map_eq. intros k. unfold RunLog.redirect.
  rewrite map_lookup_imap. destruct (decide (k = "directory")) as [->|Hne].
  - rewrite lookup_insert_eq, Hv. cbn [mbind option_bind].
    by rewrite bool_decide_eq_false_2 by auto.
  - rewrite lookup_insert_ne by done.
    destruct (r !! k); cbn [mbind option_bind]; [|done].
    by rewrite bool_decide_eq_true_2.
Qed.

(** C9: in a project without branches, renaming a run [a] whose record
    holds a directory to a name [b] that is one path segment and not yet a
    key returns; the log then has no key [a], and binds [b] to the record
    of [a] in which only the directory changed: its last segment is [b] and
    its parent is the parent of the former directory. *)
Theorem mv_unbranched_spec
    (w : world) (self : RunLog.t) (m r : dict) (a b d : string) :
  RunLog._branches self = [] →
  holds w self m →
  m !! a = Some (JObj r) →
  r !! "directory" = Some (JStr d) →
  m !! b = None →
  is_segment b = true →
  ∃ w' d',
    RunLog.mv self a b w = (Ok self, w') ∧
    holds w' self (<[b := JObj (<["directory" := JStr d']> r)]> (delete a m)) ∧
    (<[b := JObj (<["directory" := JStr d']> r)]> (delete a m)) !! a = None ∧
    pathlib.name (pathlib.parse d') = b ∧
    pathlib.parent (pathlib.parse d') = pathlib.parent (pathlib.parse d).
Proof.
  intros Hbr Hm Ha Hd Hb Hseg.
  set (d' := pathlib.to_str (pathlib.parent (pathlib.parse d) // b)).
  destruct (dump_holds w self m
              (<[b := JObj (<["directory" := JStr d']> r)]> (delete a m)) Hm)
    as (w' & Hdump & Hh).
  exists w', d'. split; [|split; [done|split]].
  - unfold RunLog.mv.
    rewrite (bind_ok _ _ _ _ _ (asdict_holds _ _ _ Hm)), Ha, Hbr.
    unfold RunLog.moved. cbn [getitem]. rewrite Hd.
    rewrite !bind_run, !ret_run. cbn [Path]. rewrite !bind_run, !ret_run.
    cbn [items]. rewrite !bind_run, !ret_run.
    rewrite filter_ne_delete, redirect_insert by eauto.
    by rewrite (bind_ok _ _ _ _ _ Hdump).
  - assert (a ≠ b) by congruence.
    rewrite lookup_insert_ne by done. apply lookup_delete_eq.
  - apply sibling_roundtrip; [apply parse_well_formed | done].
Qed.

Lemma mv_unbranched_spec_witness :
  ∃ w' d',
    RunLog.mv unbranched "run1" "run2" (world_with_log one_run_log)
      = (Ok unbranched, w') ∧
    holds w' unbranched
      (<["run2" := JObj (<["directory" := JStr d']> run1_record)]>
         (delete "run1" one_run_log)) ∧
    (<["run2" := JObj (<["directory" := JStr d']> run1_record)]>
         (delete "run1" one_run_log)) !! "run1" = None ∧
    pathlib.name (pathlib.parse d') = "run2" ∧
    pathlib.parent (pathlib.parse d') =
      pathlib.parent (pathlib.parse "/p/runs/run1").
Proof.
  apply (mv_unbranched_spec _ unbranched _ _ "run1" "run2" "/p/runs/run1").
  - reflexivity.
  - vm_compute. reflexivity.
  - vm_compute. reflexivity.
  - vm_compute. reflexivity.
  - vm_compute. reflexivity.
  - vm_compute. reflexivity.
Defined.

(** ** Making directories *)

(** A new empty directory at a free place hides no directory. *)
Lemma resolve_set_node_dir (p q : list string) (n : node) (m : gmap string node) :
  resolve p n = NoEnt →
  resolve q n = Found (Dir m) →
  ∃ m', resolve q (set_node p (Some (Dir ∅)) n) = Found (Dir m').
Proof.
  revert q n m. induction p as [|s p IH]; intros q n m Hp Hq; [done|].
  destruct n as [c|m0]; [done|]. cbn [set_node].
  destruct q as [|t q]; [simpl; eauto|].
  cbn [resolve] in *. destruct (decide (t = s)) as [->|Hne].
  - rewrite lookup_partial_alter_eq.
    destruct (m0 !! s) as [c|] eqn:Hs; [|done].
    destruct p as [|s' p]; [done|]. simpl fmap. by eapply IH.
  - rewrite lookup_partial_alter_ne by done.
    destruct (m0 !! t) as [c|]; [|done]. eauto.
Qed.

(** Nor does it make anything appear at another place. *)
Lemma resolve_set_node_noent (p q : list string) (n : node) :
  q ≠ p →
  resolve q n = NoEnt →
  resolve q (set_node p (Some (Dir ∅)) n) = NoEnt.
Proof.
  revert q n. induction p as [|s p IH]; intros q n Hne Hq.
  - destruct q as [|t q]; [done|]. simpl. by rewrite lookup_empty.
  - destruct n as [c|m0]; [done|]. cbn [set_node].
    destruct q as [|t q]; [done|].
    cbn [resolve] in *. destruct (decide (t = s)) as [->|Hts].
    + rewrite lookup_partial_alter_eq.
      destruct p as [|s' p].
      * destruct q as [|t' q]; [done|]. simpl. by rewrite lookup_empty.
      * destruct (m0 !! s) as [c|] eqn:Hs; [|done]. simpl fmap.
        apply IH; [congruence | done].
    + rewrite lookup_partial_alter_ne by done.
      by destruct (m0 !! t).
Qed.

Lemma mkdir_ok_inv (p : PurePath) (w w' : world) :
  mkdir p w = (Ok tt, w') →
  stat w p = NoEnt ∧ dir_at w (pathlib.parent p) ∧
  w' = put w p (Some (Dir ∅)).
Proof.
  unfold mkdir. destruct (stat w p) eqn:Hs; try done.
  destruct (stat w (pathlib.parent p)) as [[?|mp]| |] eqn:Hp; try done.
  intros [= <-]. unfold dir_at. eauto.
Qed.

(** Whatever [os.mkdir] does, it changes the world only when it returns. *)
Lemma mkdir_raise_inv (p : PurePath) (w w' : world) (e : exn) :
  mkdir p w = (Raise e, w') → w' = w.
Proof.
  unfold mkdir. destruct (stat w p) eqn:Hs; try by intros [= _ <-].
  destruct (stat w (pathlib.parent p)) as [[?|mp]| |]; try done;
    by intros [= _ <-].
Qed.

Lemma put_dir_preserves (w : world) (p q : PurePath) :
  stat w p = NoEnt → dir_at w q → dir_at (put w p (Some (Dir ∅))) q.
Proof.
  intros Hp [m Hq]. unfold dir_at, stat in *. rewrite key_put.
  unfold put. cbn [tree]. by eapply resolve_set_node_dir.
Qed.

Lemma put_dir_at (w : world) (p : PurePath) :
  stat w p = NoEnt → dir_at w (pathlib.parent p) →
  dir_at (put w p (Some (Dir ∅))) p.
Proof.
  intros Hp [m Hq]. exists ∅. unfold stat in *. rewrite key_put.
  unfold put. cbn [tree]. rewrite key_parent in Hq.
  destruct (pathlib.parts p) as [|s ps]; [congruence|].
  destruct (key w p) as [|s' k] eqn:Hk; [done|].
  apply resolve_set_node; [done | eauto].
Qed.

Lemma preserves_ret {A} (a : A) : preserves_dirs (mret a : M A).
Proof. by intros w q. Qed.

Lemma preserves_raise {A} (e : exn) : preserves_dirs (@raise A e).
Proof. by intros w q. Qed.

Lemma preserves_bind {A B} (m : M A) (f : A → M B) :
  preserves_dirs m → (∀ a, preserves_dirs (f a)) → preserves_dirs (m ≫= f).
Proof.
  intros Hm Hf w q Hq. rewrite bind_run. specialize (Hm w q Hq).
  destruct (m w) as [[a|e] w']; simpl in *; [by apply Hf | done].
Qed.

Lemma preserves_for_each {A B} (f : A → M B) (l : list A) :
  (∀ x, preserves_dirs (f x)) → preserves_dirs (for_each f l).
Proof.
  intros Hf. induction l as [|x l IH]; simpl.
  - apply preserves_ret.
  - apply preserves_bind; [apply Hf | by intros _].
Qed.

Lemma preserves_mkdir (p : PurePath) : preserves_dirs (mkdir p).
Proof.
  intros w q Hq. destruct (mkdir p w) as [[[]|e] w'] eqn:H; simpl.
  - apply mkdir_ok_inv in H as (Hp & _ & ->). by apply put_dir_preserves.
  - by apply mkdir_raise_inv in H as ->.
Qed.

Lemma preserves_mkdir_once (p : PurePath) (exist_ok : bool) :
  preserves_dirs (mkdir_once p exist_ok).
Proof.
  intros w q Hq. unfold mkdir_once.
  pose proof (preserves_mkdir p w q Hq) as H.
  destruct (mkdir p w) as [[[]|e] w']; simpl in *; [done|].
  unfold is_dir.
  destruct e; try done;
    destruct (stat w' p) as [[?|?]| |]; destruct exist_ok; done.
Qed.

Lemma preserves_mkdir_rev (rt : string) (rp : list string) (exist_ok : bool) :
  preserves_dirs (mkdir_rev rt rp exist_ok).
Proof.
  revert exist_ok. induction rp as [|s rp IH]; intros exist_ok w q Hq.
  - cbn [mkdir_rev].
    pose proof (preserves_mkdir (pathlib.mk rt (rev [])) w q Hq) as H.
    destruct (mkdir _ w) as [[[]|e] w']; simpl in *; [done|].
    unfold is_dir.
    destruct e; try done;
      destruct (stat w' _) as [[?|?]| |]; destruct exist_ok; done.
  - cbn [mkdir_rev].
    pose proof (preserves_mkdir (pathlib.mk rt (rev (s :: rp))) w q Hq) as H.
    destruct (mkdir _ w) as [[[]|e] w']; simpl in H; [done|].
    destruct e;
      try (unfold is_dir;
           destruct (stat w' _) as [[?|?]| |]; destruct exist_ok; done).
    apply (preserves_bind (mkdir_rev rt rp true)
             (λ _, mkdir_once (pathlib.mk rt (rev (s :: rp))) exist_ok));
      [apply IH | intros _; apply preserves_mkdir_once | done].
Qed.

Lemma preserves_mkdir_parents (p : PurePath) (exist_ok : bool) :
  preserves_dirs (mkdir_parents p exist_ok).
Proof. apply preserves_mkdir_rev. Qed.

Lemma mkdir_once_ok_dir (p : PurePath) (exist_ok : bool) (w w' : world) :
  mkdir_once p exist_ok w = (Ok tt, w') → dir_at w' p.
Proof.
  unfold mkdir_once. destruct (mkdir p w) as [[[]|e] w1] eqn:H.
  - intros [= <-]. apply mkdir_ok_inv in H as (Hp & Hd & ->).
    by apply put_dir_at.
  - unfold is_dir, dir_at.
    destruct e; try done;
      destruct (stat w1 p) as [[?|?]| |] eqn:Hs; destruct exist_ok; try done;
      intros [= <-]; eauto.
Qed.

Lemma mkdir_rev_ok_dir (rt : string) (rp : list string) (exist_ok : bool)
    (w w' : world) :
  mkdir_rev rt rp exist_ok w = (Ok tt, w') →
  dir_at w' (pathlib.mk rt (rev rp)).
Proof.
  destruct rp as [|s rp]; cbn [mkdir_rev];
    destruct (mkdir _ w) as [[[]|e] w1] eqn:H;
    try (intros [= <-]; apply mkdir_ok_inv in H as (Hp & Hd & ->);
         by apply put_dir_at).
  - unfold is_dir, dir_at.
    destruct e; try done;
      destruct (stat w1 _) as [[?|?]| |] eqn:Hs; destruct exist_ok; try done;
      intros [= <-]; eauto.
  - destruct e;
      try (unfold is_dir, dir_at;
           destruct (stat w1 _) as [[?|?]| |] eqn:Hs; destruct exist_ok;
           try done; intros [= <-]; eauto).
    intros Hb. apply bind_ok_inv in Hb as ([] & w2 & _ & Hb).
    by apply mkdir_once_ok_dir in Hb.
Qed.

Lemma mkdir_parents_ok_dir (p : PurePath) (exist_ok : bool) (w w' : world) :
  mkdir_parents p exist_ok w = (Ok tt, w') → dir_at w' p.
Proof.
  intros H. apply mkdir_rev_ok_dir in H. rewrite rev_involutive in H.
  by destruct p.
Qed.

(** When the loop that makes the directories returns, each of them is a
    directory. *)
Lemma make_all_ok (paths : list PurePath) (w w' : world) :
  for_each (λ path, mkdir_parents path false) paths w = (Ok tt, w') →
  Forall (dir_at w') paths.
Proof.
  revert w. induction paths as [|p paths IH]; intros w H; [done|].
  simpl in H. apply bind_ok_inv in H as ([] & w1 & Hp & H).
  constructor; [|by eapply IH].
  apply mkdir_parents_ok_dir in Hp.
  pose proof (preserves_for_each (λ path, mkdir_parents path false) paths
                (λ x, preserves_mkdir_parents x false) w1 p Hp) as Hq.
  by rewrite H in Hq.
Qed.

(** The check of [_make_paths]: it writes nothing; it returns when no path
    is present and raises for the first path that is. *)
Lemma make_paths_check_absent (paths : list PurePath) (w : world) :
  Forall (λ p, ¬ present w p) paths →
  Project._make_paths_check paths w =
    (Ok (λ path, mkdir_parents path false), w).
Proof.
  intros H. unfold Project._make_paths_check.
  assert (for_each (λ path, ex ← exists_ path;
            if (ex : bool)
            then raise (PathOperationError "already exists"
                          (pathlib.to_str path))
            else mret tt) paths w = (Ok tt, w)) as Hloop.
  { induction H as [|p paths Hp _ IH]; [done|]. simpl.
    rewrite bind_run, bind_run. unfold exists_ at 1.
    unfold present in Hp. destruct (stat w p) as [n| |]; [by destruct Hp; eauto| |];
      by rewrite ret_run, IH. }
  by rewrite (bind_ok _ _ _ _ _ Hloop).
Qed.

Lemma make_paths_check_present (paths : list PurePath) (w : world) :
  Exists (present w) paths →
  ∃ p, p ∈ paths ∧ present w p ∧
       Project._make_paths_check paths w =
         (Raise (PathOperationError "already exists" (pathlib.to_str p)), w).
Proof.
  intros H. unfold Project._make_paths_check.
  induction paths as [|p paths IH]; [by apply Exists_nil in H|].
  destruct (decide (present w p)) as [Hp|Hp].
  - exists p. split; [by left|]. split; [done|].
    simpl. rewrite !bind_run. unfold exists_ at 1.
    destruct Hp as [n Hn]. by rewrite Hn.
  - apply Exists_cons in H as [H|H]; [done|].
    destruct (IH H) as (p' & Hin & Hp' & Hr).
    exists p'. split; [by right|]. split; [done|].
    simpl. rewrite !bind_run. unfold exists_ at 1.
    unfold present in Hp.
    rewrite bind_run in Hr.
    destruct (stat w p) as [n| |]; [by destruct Hp; eauto| |];
      rewrite ret_run; cbn beta iota;
      destruct (for_each _ paths w) as [[[]|e] w1]; try done.
Qed.

Lemma make_paths_check_ok_inv (paths : list PurePath) (w w' : world)
    (action : PurePath → M unit) :
  Project._make_paths_check paths w = (Ok action, w') →
  w' = w ∧ action = (λ path, mkdir_parents path false) ∧
  Forall (λ p, ¬ present w p) paths.
Proof.
  intros H. destruct (decide (Exists (present w) paths)) as [Hex|Hex].
  - apply make_paths_check_present in Hex as (p & _ & _ & Hr). congruence.
  - apply not_Exists_Forall in Hex; [|intros p; apply _].
    rewrite make_paths_check_absent in H by done. by injection H as <- <-.
Qed.

Lemma resolve_app (k : list string) (s : string) (n : node)
    (m : gmap string node) :
  resolve k n = Found (Dir m) →
  resolve (k ++ [s])%list n = match m !! s with
                         | Some c => Found c
                         | None => NoEnt
                         end.
Proof.
  revert n. induction k as [|t k IH]; intros n H.
  - simpl in *. injection H as ->. simpl. by destruct (m !! s).
  - destruct n as [c|m0]; [done|]. simpl in *.
    destruct (m0 !! t) as [c|]; [|done]. by apply IH.
Qed.

Lemma key_joinpath_segment (w : world) (d : PurePath) (name : string) :
  is_segment name = true → key w (d // name) = (key w d ++ [name])%list.
Proof.
  intros H. rewrite joinpath_segment by done. unfold key.
  cbn [pathlib.root pathlib.parts]. destruct (pathlib.root d); [|done].
  by rewrite app_assoc.
Qed.

Lemma parent_joinpath_segment (d : PurePath) (name : string) :
  is_segment name = true → pathlib.parent (d // name) = d.
Proof.
  intros H. rewrite joinpath_segment by done. unfold pathlib.parent.
  cbn [pathlib.root pathlib.parts]. rewrite removelast_last. by destruct d.
Qed.

(** Below a directory a name is either present or simply missing. *)
Lemma absent_below_dir (w : world) (d : PurePath) (name : string) :
  is_segment name = true → dir_at w d → ¬ present w (d // name) →
  stat w (d // name) = NoEnt.
Proof.
  intros Hn [m Hd] Hp. unfold present, stat in *.
  rewrite key_joinpath_segment in * by done.
  rewrite (resolve_app _ _ _ _ Hd) in *.
  destruct (m !! name); [by destruct Hp; eauto | done].
Qed.

(** With its parent in place a directory is made at once. *)
Lemma mkdir_parents_direct (p : PurePath) (exist_ok : bool) (w : world) :
  stat w p = NoEnt → dir_at w (pathlib.parent p) →
  mkdir_parents p exist_ok w = (Ok tt, put w p (Some (Dir ∅))).
Proof.
  intros Hp [m Hd]. unfold mkdir_parents.
  assert (mkdir p w = (Ok tt, put w p (Some (Dir ∅)))) as Hmk.
  { unfold mkdir. by rewrite Hp, Hd. }
  destruct p as [rt ps]. cbn [pathlib.root pathlib.parts].
  destruct (rev ps) as [|s rp] eqn:Hr; cbn [mkdir_rev];
    rewrite <- Hr, rev_involutive, Hmk; done.
Qed.

Lemma make_all_ready (name : string) (rundirs : list PurePath) (w : world) :
  is_segment name = true →
  ready w name rundirs →
  ∃ w', for_each (λ path, mkdir_parents path false)
          ((λ rundir, rundir // name) <$> rundirs) w = (Ok tt, w').
Proof.
  intros Hn. revert w.
  induction rundirs as [|d ds IH]; intros w (Hd & Hnd & Ha); [by eexists|].
  apply Forall_cons in Hd as [Hd Hds]. apply Forall_cons in Ha as [Ha Has].
  rewrite fmap_cons in Hnd. apply NoDup_cons in Hnd as [Hnin Hnd].
  cbn [fmap list_fmap for_each].
  assert (mkdir_parents (d // name) false w =
            (Ok tt, put w (d // name) (Some (Dir ∅)))) as Hmk.
  { apply mkdir_parents_direct; [done|].
    by rewrite parent_joinpath_segment. }
  rewrite (bind_ok _ _ _ _ _ Hmk). apply IH. split; [|split].
  - eapply Forall_impl; [exact Hds|]. intros q Hq.
    by apply put_dir_preserves.
  - erewrite list_fmap_ext; [exact Hnd|]. intros ???. apply key_put.
  - apply Forall_forall. intros q Hq. unfold stat. rewrite key_put.
    unfold put. cbn [tree]. apply resolve_set_node_noent.
    + rewrite !key_joinpath_segment by done. intros Heq.
      apply app_inj_tail in Heq as [Heq _]. apply Hnin.
      rewrite <- Heq. by apply list_elem_of_fmap_2.
    + rewrite Forall_forall in Has. by apply Has.
Qed.

Lemma dir_at_parent (w : world) (p : PurePath) :
  dir_at w p → dir_at w (pathlib.parent p).
Proof.
  intros [m H]. unfold dir_at, stat in *. rewrite key_parent.
  destruct (pathlib.parts p) as [|? ?]; [eauto|].
  destruct (key w p) as [|s0 k] eqn:Hk; [simpl; eauto|].
  eapply resolve_parent; [done | exact H].
Qed.

(** C10: the paths [_make_paths] works on are the run directories joined
    with the name.  If one of them is present the call raises the path
    operation error for one that is present and the world is as before: no
    directory is made, also not for the paths that were free.  If the call
    returns, none of them was present, and afterwards each of them and its
    parent is a directory.  And it does return when the name is one
    segment, the run directories are in place and distinct, and none of the
    paths is present. *)
Theorem make_paths_all_or_nothing
    (self : Project.t) (name : string) (subset : list string) (w : world) :
  let rundirs := Project._get_rundirs self subset in
  let paths := (λ rundir, rundir // name) <$> rundirs in
  (Exists (present w) paths →
   ∃ p, p ∈ paths ∧ present w p ∧
        Project._make_paths self name subset w =
          (Raise (PathOperationError "already exists" (pathlib.to_str p)),
           w)) ∧
  (∀ ps w', Project._make_paths self name subset w = (Ok ps, w') →
     ps = paths ∧
     Forall (λ p, ¬ present w p) paths ∧
     Forall (λ p, dir_at w' p ∧ dir_at w' (pathlib.parent p)) paths) ∧
  (is_segment name = true →
   Forall (dir_at w) rundirs →
   NoDup (key w <$> rundirs) →
   Forall (λ p, ¬ present w p) paths →
   ∃ w', Project._make_paths self name subset w = (Ok paths, w')).
Proof.
  intros rundirs paths. unfold Project._make_paths.
  fold rundirs. fold paths. split; [|split].
  - intros Hex.
    apply make_paths_check_present in Hex as (p & Hin & Hp & Hr).
    exists p. split; [done|]. split; [done|].
    by rewrite (bind_raise _ _ _ _ _ Hr).
  - intros ps w' H.
    apply bind_ok_inv in H as (action & w1 & Hc & H).
    apply make_paths_check_ok_inv in Hc as (-> & -> & Habs).
    apply bind_ok_inv in H as ([] & w2 & Hl & H).
    rewrite ret_run in H. injection H as <- <-.
    split; [done|]. split; [done|].
    apply make_all_ok in Hl. eapply Forall_impl; [exact Hl|].
    intros p Hp. split; [done | by apply dir_at_parent].
  - intros Hn Hd Hnd Habs.
    rewrite (bind_ok _ _ _ _ _ (make_paths_check_absent _ _ Habs)).
    destruct (make_all_ready name rundirs w Hn) as [w' Hw'].
    { split; [done|]. split; [done|].
      apply Forall_forall. intros d Hin. apply absent_below_dir; [done| |].
      - rewrite Forall_forall in Hd. by apply Hd.
      - rewrite Forall_forall in Habs. apply Habs.
        subst paths. by apply (list_elem_of_fmap_2 (λ rundir, rundir // name)). }
    exists w'. by rewrite (bind_ok _ _ _ _ _ Hw').
Qed.

(** In the project with the branches [a] and [b], where [run1] is already
    in the branch [b], making [run1] fails and makes nothing, and making
    [run2] makes it in both branches. *)
Lemma make_paths_all_or_nothing_witness :
  (∃ p, p ∈ (λ rundir, rundir // "run1")
               <$> Project._get_rundirs demo_project [] ∧
        present (demo_world ∅ ∅ {[ "run1" := Dir ∅ ]}) p ∧
        Project._make_paths demo_project "run1" []
          (demo_world ∅ ∅ {[ "run1" := Dir ∅ ]}) =
          (Raise (PathOperationError "already exists" (pathlib.to_str p)),
           demo_world ∅ ∅ {[ "run1" := Dir ∅ ]})) ∧
  (∃ w', Project._make_paths demo_project "run2" []
           (demo_world ∅ ∅ {[ "run1" := Dir ∅ ]}) =
           (Ok ((λ rundir, rundir // "run2")
                  <$> Project._get_rundirs demo_project []), w')).
Proof.
  split.
  - apply (make_paths_all_or_nothing demo_project "run1" []
             (demo_world ∅ ∅ {[ "run1" := Dir ∅ ]})).
    apply Exists_cons_tl, Exists_cons_hd. eexists. vm_compute. reflexivity.
  - apply (make_paths_all_or_nothing demo_project "run2" []
             (demo_world ∅ ∅ {[ "run1" := Dir ∅ ]})).
    + reflexivity.
    + repeat constructor; eexists; vm_compute; reflexivity.
    + vm_compute. repeat constructor; rewrite ?elem_of_cons, ?elem_of_nil;
        intros H; repeat destruct H as [H|H]; done.
    + repeat constructor; intros [n Hn]; vm_compute in Hn; done.
Defined.

(** ** Opening a project *)

Lemma fullpath_run (p : PurePath) (w : world) :
  fullpath p w = (Ok (abspath w p), w).
Proof. reflexivity. Qed.

(** Whatever its file held, a log that was constructed holds the common
    attributes and nothing else. *)
Lemma RunLog_init_ok_inv (path : PurePath) (branches : option (list string))
    (attrs : dict) (w w' : world) (self : RunLog.t) :
  RunLog.__init__ path branches attrs w = (Ok self, w') →
  self = RunLog.mk (abspath w path) (default [] branches) ∧
  holds w' self attrs.
Proof.
  unfold RunLog.__init__. rewrite (bind_ok _ _ _ _ _ (fullpath_run _ _)).
  intros H. apply bind_ok_inv in H as ([] & w1 & Hd & H).
  rewrite ret_run in H. injection H as <- <-.
  split; [done|]. by apply dump_ok_inv in Hd.
Qed.

Lemma RunLog_init_existing (path : PurePath) (branches : option (list string))
    (attrs : dict) (w : world) (c : json) :
  stat w (abspath w path) = Found (File c) →
  ∃ self w', RunLog.__init__ path branches attrs w = (Ok self, w') ∧
             holds w' self attrs.
Proof.
  intros Hc. unfold RunLog.__init__.
  rewrite (bind_ok _ _ _ _ _ (fullpath_run _ _)).
  set (self := {| RunLog._path := abspath w path;
                  RunLog._branches := default [] branches |}).
  assert (RunLog.dump self attrs w =
            (Ok tt, put w (abspath w path) (Some (File (JObj attrs))))) as Hd.
  { unfold RunLog.dump, write_json. cbn [RunLog._path self]. by rewrite Hc. }
  exists self, (put w (abspath w path) (Some (File (JObj attrs)))).
  rewrite (bind_ok _ _ _ _ _ Hd). split; [done|].
  by apply dump_ok_inv in Hd.
Qed.

(** A project that was constructed has a log that holds the configured
    names of the configuration and output files, and nothing else. *)
Lemma Project_init_ok_inv (rt : string) (kw : _ProjectInit.kwargs)
    (w w' : world) (p : Project.t) :
  Project.__init__ rt kw w = (Ok p, w') →
  ∃ w0, Project._init_attrs rt kw w = (Ok (Project._attrs p), w0) ∧
        holds w' (Project.log p) (common (Project._attrs p)).
Proof.
  unfold Project.__init__. intros H.
  apply bind_ok_inv in H as (attrs & w0 & Ha & H).
  apply bind_ok_inv in H as (path & w1 & _ & H).
  apply bind_ok_inv in H as ([] & w2 & _ & H).
  apply bind_ok_inv in H as (logname & w3 & _ & H).
  apply bind_ok_inv in H as (lg & w4 & Hl & H).
  rewrite ret_run in H. injection H as <- <-.
  apply RunLog_init_ok_inv in Hl as [_ Hl]. eauto.
Qed.

Lemma common_lookup (attrs : _ProjectInit.t) (k : string) :
  k ≠ "config" → k ≠ "output" → common attrs !! k = None.
Proof.
  intros H1 H2. unfold common.
  rewrite lookup_insert_ne, lookup_singleton_ne; done.
Qed.

(** A directory that is in place is accepted by [mkdir] with [exist_ok]. *)
Lemma mkdir_parents_existing (p : PurePath) (w : world) :
  dir_at w p → mkdir_parents p true w = (Ok tt, w).
Proof.
  intros [m Hm]. unfold mkdir_parents.
  assert (mkdir p w = (Raise (FileExistsError (pathlib.to_str p)), w)) as Hmk.
  { unfold mkdir. by rewrite Hm. }
  destruct p as [r ps]. cbn [pathlib.root pathlib.parts].
  destruct (rev ps) as [|s rp] eqn:Hr; cbn [mkdir_rev];
    rewrite <- Hr, rev_involutive, Hmk; unfold is_dir; by rewrite Hm.
Qed.

Lemma mkdir_all_existing (ds : list PurePath) (w : world) :
  Forall (dir_at w) ds →
  for_each (λ directory, mkdir_parents directory true) ds w = (Ok tt, w).
Proof.
  induction 1 as [|d ds Hd _ IH]; [done|]. simpl.
  by rewrite (bind_ok _ _ _ _ _ (mkdir_parents_existing _ _ Hd)).
Qed.

(** Opening a project that the registry knows, with its run directories
    and its log file in place, returns, and the log then holds the common
    attributes only. *)
Lemma Project_reopen (rt : string) (w : world) (reg : dict) (entry c : json)
    (attrs : _ProjectInit.t) (logname : string) :
  let path := abspath w (pathlib.parse rt) in
  let root := abspath w (pathlib.parse (_ProjectInit.a_root attrs)) in
  present w path →
  stat w Project.database = Found (File (JObj reg)) →
  reg !! pathlib.to_str path = Some entry →
  _ProjectInit.of_json entry w = (Ok attrs, w) →
  Forall (dir_at w) (rundirs_of attrs root) →
  _ProjectInit.logname attrs w = (Ok logname, w) →
  stat w (abspath w (root // logname)) = Found (File c) →
  ∃ p w', Project.__init__ rt _ProjectInit.no_kwargs w = (Ok p, w') ∧
          Project._attrs p = attrs ∧
          holds w' (Project.log p) (common attrs).
Proof.
  intros path root [n Hn] Hdb Hreg Hentry Hdirs Hln Hlog.
  assert (Project._init_attrs rt _ProjectInit.no_kwargs w = (Ok attrs, w))
    as Hattrs.
  { unfold Project._init_attrs.
    rewrite (bind_ok _ _ _ _ _ (fullpath_run _ _)). fold path.
    assert (exists_ path w = (Ok true, w)) as Hex.
    { unfold exists_. by rewrite Hn. }
    rewrite (bind_ok _ _ _ _ _ Hex).
    change (_ProjectInit.given _ProjectInit.no_kwargs) with false.
    cbn [andb].
    rewrite (bind_ok _ _ _ _ _ Hex).
    assert (read_json Project.database w = (Ok (JObj reg), w)) as Hrd.
    { unfold read_json. by rewrite Hdb. }
    rewrite (bind_ok _ _ _ _ _ Hrd). cbn [as_dict].
    rewrite bind_run, ret_run. by rewrite Hreg. }
  destruct (RunLog_init_existing (root // logname)
              (Some (_ProjectInit.branches attrs)) (common attrs) w c Hlog)
    as (lg & w' & Hlg & Hh).
  exists {| Project._attrs := attrs; Project.root := root; Project._log := lg;
            Project._directories := rundirs_of attrs root |}, w'.
  split; [|done]. unfold Project.__init__.
  rewrite (bind_ok _ _ _ _ _ Hattrs).
  unfold _ProjectInit.path. rewrite (bind_ok _ _ _ _ _ (fullpath_run _ _)).
  fold root. fold (rundirs_of attrs root).
  rewrite (bind_ok _ _ _ _ _ (mkdir_all_existing _ _ Hdirs)).
  rewrite (bind_ok _ _ _ _ _ Hln).
  fold (common attrs). by rewrite (bind_ok _ _ _ _ _ Hlg).
Qed.

(** C1: whenever the construction of a log returns, its file holds the
    common attributes that were supplied and nothing else; on a file that
    is there it does return, whatever the file held.  So opening again a
    project that the registry knows, whose run directories and log file
    are in place, returns with a log that holds the common attributes; and
    whenever opening a project without keywords returns, every key of the
    log other than [config] and [output], and so every run that was
    recorded, is gone. *)
Theorem reopening_erases_runs :
  (∀ (path : PurePath) (branches : option (list string)) (attrs : dict)
     (w : world),
     (∀ self w', RunLog.__init__ path branches attrs w = (Ok self, w') →
                 holds w' self attrs) ∧
     (∀ c, stat w (abspath w path) = Found (File c) →
           ∃ self w', RunLog.__init__ path branches attrs w = (Ok self, w') ∧
                      holds w' self attrs)) ∧
  (∀ (rt : string) (w : world) (reg : dict) (entry c : json)
     (attrs : _ProjectInit.t) (logname : string),
     let path := abspath w (pathlib.parse rt) in
     let root := abspath w (pathlib.parse (_ProjectInit.a_root attrs)) in
     present w path →
     stat w Project.database = Found (File (JObj reg)) →
     reg !! pathlib.to_str path = Some entry →
     _ProjectInit.of_json entry w = (Ok attrs, w) →
     Forall (dir_at w) (rundirs_of attrs root) →
     _ProjectInit.logname attrs w = (Ok logname, w) →
     stat w (abspath w (root // logname)) = Found (File c) →
     ∃ p w', Project.__init__ rt _ProjectInit.no_kwargs w = (Ok p, w') ∧
             Project._attrs p = attrs ∧
             holds w' (Project.log p) (common attrs)) ∧
  (∀ (rt : string) (w w' : world) (p : Project.t) (m' : dict),
     Project.__init__ rt _ProjectInit.no_kwargs w = (Ok p, w') →
     holds w' (Project.log p) m' →
     m' = common (Project._attrs p) ∧
     ∀ k, k ≠ "config" → k ≠ "output" → m' !! k = None).
Proof.
  split; [|split].
  - intros path branches attrs w. split.
    + intros self w' H. by apply RunLog_init_ok_inv in H as [_ H].
    + intros c Hc. by eapply RunLog_init_existing.
  - intros. by eapply Project_reopen.
  - intros rt w w' p m' H Hm'.
    apply Project_init_ok_inv in H as (w0 & _ & Hh). unfold holds in *.
    rewrite Hh in Hm'. injection Hm' as <-. split; [done|].
    apply common_lookup.
Qed.

(** The project [/p] on disk records [run1]; once it is opened again its
    log holds the common attributes, and [run1] is not among them. *)
Lemma reopening_erases_runs_witness :
  holds plain_world unbranched plain_log ∧
  is_Some (plain_log !! "run1") ∧
  ∃ p w', Project.__init__ "/p" _ProjectInit.no_kwargs plain_world
            = (Ok p, w') ∧
          Project._attrs p = plain_attrs ∧
          holds w' (Project.log p) (common plain_attrs) ∧
          common plain_attrs !! "run1" = None.
Proof.
  split; [vm_compute; reflexivity|]. split; [vm_compute; eauto|].
  destruct reopening_erases_runs as (_ & H & _).
  destruct (H "/p" plain_world
              {[ "/p" := _ProjectInit.to_json plain_attrs ]}
              (_ProjectInit.to_json plain_attrs) (JObj plain_log)
              plain_attrs "runs.json") as (p & w' & H1 & H2 & H3).
  - eexists. vm_compute. reflexivity.
  - vm_compute. reflexivity.
  - vm_compute. reflexivity.
  - vm_compute. reflexivity.
  - repeat constructor. eexists. vm_compute. reflexivity.
  - vm_compute. reflexivity.
  - vm_compute. reflexivity.
  - exists p, w'. repeat split; done.
Defined.

(** ** Creating a project *)

(** On a root that is not there the attributes come from the keywords. *)
Lemma init_attrs_fresh (rt : string) (kw : _ProjectInit.kwargs)
    (w w0 : world) (attrs : _ProjectInit.t) :
  ¬ present w (abspath w (pathlib.parse rt)) →
  Project._init_attrs rt kw w = (Ok attrs, w0) →
  attrs = _ProjectInit.__init__
            (pathlib.to_str (abspath w (pathlib.parse rt))) kw.
Proof.
  intros Hp. unfold Project._init_attrs.
  rewrite (bind_ok _ _ _ _ _ (fullpath_run _ _)).
  assert (exists_ (abspath w (pathlib.parse rt)) w = (Ok false, w)) as Hex.
  { unfold exists_, present in *.
    destruct (stat w _) as [n| |]; [destruct Hp; eauto|done|done]. }
  rewrite (bind_ok _ _ _ _ _ Hex). cbn [andb].
  rewrite (bind_ok _ _ _ _ _ Hex).
  intros H. apply bind_ok_inv in H as ([] & w1 & _ & H).
  apply bind_ok_inv in H as ([] & w2 & _ & H).
  rewrite ret_run in H. by injection H as <- <-.
Qed.

(** C6, as stated, fails: the log of the project created at [/p] on an
    empty disk has the key [config]. *)
Lemma first_log_is_not_empty :
  ∃ p w' m, Project.__init__ "/p" _ProjectInit.no_kwargs empty_world
              = (Ok p, w') ∧
            holds w' (Project.log p) m ∧
            m !! "config" = Some (JStr "eprem.cfg").
Proof.
  eexists _, _, _. split; [vm_compute; reflexivity|].
  split; vm_compute; reflexivity.
Qed.

(** C6, amended: right after a project is created on a root that was not
    there, its attributes are those of the keywords, and its log file is
    there and holds the two common attributes, [config] bound to the name
    of the configuration file and [output] bound to the name of the output
    file, and no other key. *)
Theorem first_log_holds_common
    (rt : string) (kw : _ProjectInit.kwargs) (w w' : world) (p : Project.t) :
  ¬ present w (abspath w (pathlib.parse rt)) →
  Project.__init__ rt kw w = (Ok p, w') →
  let attrs := Project._attrs p in
  attrs = _ProjectInit.__init__
            (pathlib.to_str (abspath w (pathlib.parse rt))) kw ∧
  ∃ m, holds w' (Project.log p) m ∧
       m !! "config" = Some (JStr (_ProjectInit.config attrs)) ∧
       m !! "output" = Some (JStr (_ProjectInit.output attrs)) ∧
       ∀ k, k ≠ "config" → k ≠ "output" → m !! k = None.
Proof.
  intros Hp H attrs.
  apply Project_init_ok_inv in H as (w0 & Ha & Hh).
  split; [by eapply init_attrs_fresh|].
  exists (common attrs). split; [done|]. split; [|split].
  - unfold common. by rewrite lookup_insert_eq.
  - unfold common. rewrite lookup_insert_ne by done.
    by rewrite lookup_singleton_eq.
  - apply common_lookup.
Qed.

Lemma first_log_holds_common_witness :
  ∃ p w', Project.__init__ "/p" _ProjectInit.no_kwargs empty_world
            = (Ok p, w') ∧
  ∃ m, holds w' (Project.log p) m ∧
       m !! "config" = Some (JStr (_ProjectInit.config (Project._attrs p))) ∧
       m !! "output" = Some (JStr (_ProjectInit.output (Project._attrs p))) ∧
       ∀ k, k ≠ "config" → k ≠ "output" → m !! k = None.
Proof.
  eexists _, _. split; [vm_compute; reflexivity|].
  eapply (first_log_holds_common "/p" _ProjectInit.no_kwargs empty_world).
  - intros [n Hn]. vm_compute in Hn. done.
  - vm_compute. reflexivity.
Defined.

(** ** Renaming and removing runs of a project *)

(** [Project.mv] hands three arguments to a method that takes two. *)
Lemma call_mv_three (self : RunLog.t) (a b c : string) (w : world) :
  RunLog.call_mv self [a; b; c] w =
    (Raise (TypeError "mv() takes 3 positional arguments"), w).
Proof. reflexivity. Qed.

Lemma rename_paths_ok_inv (self : Project.t) (src dst : string)
    (subset : list string) (w w' : world) (ps : list (PurePath * PurePath)) :
  Project._rename_paths self src dst subset w = (Ok ps, w') →
  ps = (λ rundir, (rundir // src, rundir // dst))
         <$> Project._get_rundirs self subset.
Proof.
  unfold Project._rename_paths. intros H.
  apply bind_ok_inv in H as (action & w1 & _ & H).
  apply bind_ok_inv in H as ([] & w2 & _ & H).
  rewrite ret_run in H. by injection H as <- <-.
Qed.

(** Once the directories are renamed, [mv] raises before the log is
    read: the world is the one the renaming left. *)
Lemma mv_after_rename (self : Project.t) (source target : string)
    (subset : list string) (w w1 : world) (pair : PurePath * PurePath)
    (pairs : list (PurePath * PurePath)) :
  Project._rename_paths self source target subset w = (Ok (pair :: pairs), w1) →
  Project.mv self source target subset w =
    (Raise (TypeError "mv() takes 3 positional arguments"), w1).
Proof.
  intros H. unfold Project.mv. rewrite (bind_ok _ _ _ _ _ H).
  cbn [fmap list_fmap for_each]. by rewrite bind_run, call_mv_three.
Qed.

(** C4: the code departs from the claim.  [Project.mv] raises unless no run
    directory is selected at all, so it never returns after a renaming.
    In the project with the branches [a] and [b] where [run1] was run in
    both, renaming [run1] to [run2] raises a [TypeError]; by then the
    directories are renamed, and the log is untouched: it still has the key
    [run1] and no key [run2]. *)
Theorem mv_never_updates_log :
  (∀ (self : Project.t) (source target : string) (subset : list string)
     (w : world),
     (∃ e w', Project.mv self source target subset w = (Raise e, w')) ∨
     Project._get_rundirs self subset = []) ∧
  (∃ w', Project.mv demo_project "run1" "run2" [] demo_world_run1 =
           (Raise (TypeError "mv() takes 3 positional arguments"), w') ∧
         dir_at w' (pathlib.parse "/p/a/runs/run2") ∧
         dir_at w' (pathlib.parse "/p/b/runs/run2") ∧
         ¬ present w' (pathlib.parse "/p/a/runs/run1") ∧
         ¬ present w' (pathlib.parse "/p/b/runs/run1") ∧
         holds w' (Project.log demo_project) two_branch_log ∧
         is_Some (two_branch_log !! "run1") ∧
         two_branch_log !! "run2" = None).
Proof.
  split.
  - intros self source target subset w.
    destruct (Project._rename_paths self source target subset w)
      as [[[|pair pairs]|e] w1] eqn:H.
    + right. apply rename_paths_ok_inv in H. symmetry in H.
      by apply fmap_nil_inv in H.
    + left. eexists _, _. by eapply mv_after_rename.
    + left. exists e, w1. unfold Project.mv. by rewrite (bind_raise _ _ _ _ _ H).
  - eexists. split; [vm_compute; reflexivity|].
    repeat split; try (eexists; vm_compute; reflexivity);
      try (intros [n Hn]; vm_compute in Hn; done).
Qed.

(** Once directories are removed, [rm] raises: the call of the log's [rm]
    has no branch keyword. *)
Lemma rm_after_remove (fnmatch : string → string → bool) (self : Project.t)
    (run : string) (subset : list string) (w w1 : world) (path : PurePath)
    (paths : list PurePath) :
  Project._remove_paths fnmatch self run subset w = (Ok (path :: paths), w1) →
  ∃ e, Project.rm fnmatch self run subset w = (Raise e, w1).
Proof.
  intros H. unfold Project.rm. rewrite (bind_ok _ _ _ _ _ H).
  cbn [fmap list_fmap]. apply for_each_raises.
  intros w0. apply rm_without_branch_raises.
Qed.

(** C3: the code departs from the claim.  [Project.rm] raises unless the
    pattern matched nothing, so it never returns after a removal.  In the
    project with the branches [a] and [b] where [run1] was run in both,
    removing [run1] raises a log key error about the run [a]; by then the
    directories are deleted, and the log is untouched: it still has the key
    [run1]. *)
Theorem rm_never_updates_log :
  (∀ (fnmatch : string → string → bool) (self : Project.t) (run : string)
     (subset : list string) (w : world),
     (∃ e w', Project.rm fnmatch self run subset w = (Raise e, w')) ∨
     (∃ w', Project._remove_paths fnmatch self run subset w = (Ok [], w'))) ∧
  (∃ w', Project.rm literal_match demo_project "run1" [] demo_world_run1 =
           (Raise (LogKeyError "Cannot remove unknown run" (Some "a")), w') ∧
         ¬ present w' (pathlib.parse "/p/a/runs/run1") ∧
         ¬ present w' (pathlib.parse "/p/b/runs/run1") ∧
         holds w' (Project.log demo_project) two_branch_log ∧
         is_Some (two_branch_log !! "run1")).
Proof.
  split.
  - intros fnmatch self run subset w.
    destruct (Project._remove_paths fnmatch self run subset w)
      as [[[|path paths]|e] w1] eqn:H.
    + right. eauto.
    + left. destruct (rm_after_remove _ _ _ _ _ _ _ _ H) as [e He]. eauto.
    + left. exists e, w1. unfold Project.rm. by rewrite (bind_raise _ _ _ _ _ H).
  - eexists. split; [vm_compute; reflexivity|].
    split; [intros [n Hn]; vm_compute in Hn; done|].
    split; [intros [n Hn]; vm_compute in Hn; done|].
    split; [vm_compute; reflexivity|].
    vm_compute. eauto.
Qed.

(** * Further properties of the run log *)

(** ** Computations that leave no trace *)

Lemma quiet_ret {A} (a : A) : quiet (mret a : M A).
Proof. by intros w. Qed.

Lemma quiet_raise {A} (e : exn) : quiet (@raise A e).
Proof. by intros w. Qed.

Lemma quiet_bind {A B} (m : M A) (f : A → M B) :
  quiet m → (∀ a, quiet (f a)) → quiet (m ≫= f).
Proof.
  intros Hm Hf w. rewrite bind_run. specialize (Hm w).
  destruct (m w) as [[a|e] w1]; simpl in *; subst; [apply Hf | done].
Qed.















(** ** create, lookup and length *)

Lemma getitem_holds (w : world) (self : RunLog.t) (m : dict) (k : string) :
  holds w self m →
  RunLog.__getitem__ self k w =
    match m !! k with
    | Some v => (Ok v, w)
    | None => (Raise (LogKeyError "Unknown run" (Some k)), w)
    end.
Proof.
  intros Hm. unfold RunLog.__getitem__.
  rewrite (bind_ok _ _ _ _ _ (asdict_holds _ _ _ Hm)).
  by destruct (m !! k).
Qed.

Lemma len_holds (w : world) (self : RunLog.t) (m : dict) :
  holds w self m → RunLog.__len__ self w = (Ok (size m), w).
Proof.
  intros Hm. unfold RunLog.__len__.
  by rewrite (bind_ok _ _ _ _ _ (asdict_holds _ _ _ Hm)).
Qed.

Lemma create_holds (w : world) (self : RunLog.t) (m : dict) (key : string)
    (source : option dict) :
  holds w self m →
  ∃ w', RunLog.create self key source w = (Ok self, w') ∧
        holds w' self (<[key := JObj (default ∅ source)]> m).
Proof.
  intros Hm. unfold RunLog.create.
  rewrite (bind_ok _ _ _ _ _ (asdict_holds _ _ _ Hm)).
  destruct (dump_holds w self m
              (<[key := JObj (default ∅ source)]> m) Hm) as (w' & Hd & Hh).
  exists w'. split; [|done].
  destruct source as [d|]; cbn [default].
  - by rewrite (bind_ok _ _ _ _ _ Hd).
  - rewrite insert_insert_eq. by rewrite (bind_ok _ _ _ _ _ Hd).
Qed.

(** X1: on a log that can be read, [create] always returns.  It binds the
    key to an empty record, or to the mapping given as source, in place of
    whatever record the key had, and keeps every other entry; a lookup of
    the key right after it returns that record, and the log has one
    entry more exactly when the key was new. *)
Theorem create_then_lookup
    (w : world) (self : RunLog.t) (m : dict) (key : string)
    (source : option dict) :
  holds w self m →
  ∃ w',
    RunLog.create self key source w = (Ok self, w') ∧
    holds w' self (<[key := JObj (default ∅ source)]> m) ∧
    RunLog.__getitem__ self key w' = (Ok (JObj (default ∅ source)), w') ∧
    (∀ k, k ≠ key →
       RunLog.__getitem__ self k w' =
       match m !! k with
       | Some v => (Ok v, w')
       | None => (Raise (LogKeyError "Unknown run" (Some k)), w')
       end) ∧
    RunLog.__len__ self w' =
      (Ok (if decide (is_Some (m !! key)) then size m else S (size m)), w').
Proof.
  intros Hm. destruct (create_holds w self m key source Hm) as (w' & Hc & Hh).
  exists w'. split; [done|]. split; [done|]. split; [|split].
  - rewrite (getitem_holds _ _ _ _ Hh). by rewrite lookup_insert_eq.
  - intros k Hk. rewrite (getitem_holds _ _ _ _ Hh).
    by rewrite lookup_insert_ne.
  - rewrite (len_holds _ _ _ Hh). do 2 f_equal.
    case_decide as Hin.
    + by apply map_size_insert_Some.
    + apply map_size_insert_None. by apply eq_None_not_Some.
Qed.

Lemma create_then_lookup_witness :
  ∃ w',
    RunLog.create unbranched "run2" None (world_with_log one_run_log)
      = (Ok unbranched, w') ∧
    holds w' unbranched (<["run2" := JObj (default ∅ None)]> one_run_log) ∧
    RunLog.__getitem__ unbranched "run2" w' = (Ok (JObj (default ∅ None)), w') ∧
    (∀ k, k ≠ "run2" →
       RunLog.__getitem__ unbranched k w' =
       match one_run_log !! k with
       | Some v => (Ok v, w')
       | None => (Raise (LogKeyError "Unknown run" (Some k)), w')
       end) ∧
    RunLog.__len__ unbranched w' =
      (Ok (if decide (is_Some (one_run_log !! "run2"))
           then size one_run_log else S (size one_run_log)), w').
Proof.
  apply (create_then_lookup (world_with_log one_run_log) unbranched).
  vm_compute. reflexivity.
Defined.

(** ** Renaming in the log *)

(** X3: renaming a run that is not a key of the log raises the "Cannot
    rename unknown run" error for it, with or without branches, and the
    world is as before. *)
Theorem mv_unknown_source
    (w : world) (self : RunLog.t) (m : dict) (source target : string) :
  holds w self m →
  m !! source = None →
  RunLog.mv self source target w =
    (Raise (LogKeyError "Cannot rename unknown run" (Some source)), w).
Proof.
  intros Hm Hs. unfold RunLog.mv.
  rewrite (bind_ok _ _ _ _ _ (asdict_holds _ _ _ Hm)). by rewrite Hs.
Qed.

Lemma mv_unknown_source_witness :
  RunLog.mv branched "run9" "run2" (world_with_log two_branch_log) =
    (Raise (LogKeyError "Cannot rename unknown run" (Some "run9")),
     world_with_log two_branch_log).
Proof.
  apply (mv_unknown_source _ _ two_branch_log); vm_compute; reflexivity.
Defined.

(** What [moved] returns on a record with a directory. *)
Lemma moved_run (r : dict) (d target : string) (w : world) :
  r !! "directory" = Some (JStr d) →
  RunLog.moved (JObj r) target w =
    (Ok (JObj (<["directory" :=
                   JStr (pathlib.to_str
                           (pathlib.parent (pathlib.parse d) // target))]> r)),
     w).
Proof.
  intros Hd. unfold RunLog.moved. cbn [getitem]. rewrite Hd.
  rewrite !bind_run, !ret_run. cbn [Path]. rewrite !bind_run, !ret_run.
  cbn [items]. rewrite !bind_run, !ret_run.
  by rewrite redirect_insert by eauto.
Qed.

(** X4: in a project without branches, renaming a run onto the name of
    another run returns: the record that name had is lost, replaced by the
    record of the renamed run with its directory moved, every other entry
    is kept, and the log has one entry fewer. *)
Theorem mv_onto_existing_run
    (w : world) (self : RunLog.t) (m r : dict) (a b d : string) (old : json) :
  RunLog._branches self = [] →
  holds w self m →
  m !! a = Some (JObj r) →
  r !! "directory" = Some (JStr d) →
  m !! b = Some old →
  a ≠ b →
  ∃ w' m',
    RunLog.mv self a b w = (Ok self, w') ∧
    holds w' self m' ∧
    m' !! b =
      Some (JObj (<["directory" :=
                     JStr (pathlib.to_str
                             (pathlib.parent (pathlib.parse d) // b))]> r)) ∧
    m' !! a = None ∧
    (∀ k, k ≠ a → k ≠ b → m' !! k = m !! k) ∧
    RunLog.__len__ self w' = (Ok (size m - 1), w').
Proof.
  intros Hbr Hm Ha Hd Hb Hab.
  set (new := JObj (<["directory" :=
                      JStr (pathlib.to_str
                              (pathlib.parent (pathlib.parse d) // b))]> r)).
  destruct (dump_holds w self m (<[b := new]> (delete a m)) Hm)
    as (w' & Hdump & Hh).
  exists w', (<[b := new]> (delete a m)).
  split; [|split; [done|split; [|split; [|split]]]].
  - unfold RunLog.mv.
    rewrite (bind_ok _ _ _ _ _ (asdict_holds _ _ _ Hm)), Ha, Hbr.
    rewrite (bind_ok _ _ _ _ _ (moved_run r d b w Hd)).
    rewrite filter_ne_delete. by rewrite (bind_ok _ _ _ _ _ Hdump).
  - by rewrite lookup_insert_eq.
  - by rewrite lookup_insert_ne, lookup_delete_eq.
  - intros k Hka Hkb. by rewrite lookup_insert_ne, lookup_delete_ne.
  - rewrite (len_holds _ _ _ Hh). do 2 f_equal.
    rewrite map_size_insert_Some
      by (rewrite lookup_delete_ne by done; eauto).
    rewrite map_size_delete, Ha. simpl. lia.
Qed.

Lemma mv_onto_existing_run_witness :
  ∃ w' m',
    RunLog.mv unbranched "run1" "config" (world_with_log plain_log)
      = (Ok unbranched, w') ∧
    holds w' unbranched m' ∧
    m' !! "config" =
      Some (JObj (<["directory" :=
                     JStr (pathlib.to_str
                             (pathlib.parent (pathlib.parse "/p/runs/run1")
                              // "config"))]> run1_record)) ∧
    m' !! "run1" = None ∧
    (∀ k, k ≠ "run1" → k ≠ "config" → m' !! k = plain_log !! k) ∧
    RunLog.__len__ unbranched w' = (Ok (size plain_log - 1), w').
Proof.
  apply (mv_onto_existing_run _ unbranched plain_log run1_record
           "run1" "config" "/p/runs/run1" (JStr "eprem.cfg"));
    try (vm_compute; reflexivity). done.
Defined.

(** The loop of [mv] over the branches, started from a dictionary. *)
Lemma mv_loop_raise (run : json) (target : string) (bs : list string)
    (acc : M dict) (e : exn) (w : world) :
  acc w = (Raise e, w) →
  foldl (λ acc branch,
           new ← acc;
           old ← getitem run branch;
           rec ← RunLog.moved old target;
           mret (<[branch := rec]> new)) acc bs w = (Raise e, w).
Proof.
  revert acc. induction bs as [|x bs IH]; intros acc Hacc; [done|].
  simpl. apply IH. by rewrite (bind_raise _ _ _ _ _ Hacc).
Qed.

Lemma mv_loop_ok (r : dict) (target : string) (bs : list string)
    (acc : M dict) (n0 : dict) (w : world) :
  acc w = (Ok n0, w) →
  (∀ br, br ∈ bs → has_branch_record r br) →
  ∃ n,
    foldl (λ acc branch,
             new ← acc;
             old ← getitem (JObj r) branch;
             rec ← RunLog.moved old target;
             mret (<[branch := rec]> new)) acc bs w = (Ok n, w) ∧
    (∀ k, k ∉ bs → n !! k = n0 !! k) ∧
    (∀ br rb d, br ∈ bs → r !! br = Some (JObj rb) →
                rb !! "directory" = Some (JStr d) →
                n !! br = Some (moved_to target rb d)).
Proof.
  revert acc n0. induction bs as [|x bs IH]; intros acc n0 Hacc Hgood.
  - exists n0. split; [done|]. split; [done|]. by intros ??? ?%elem_of_nil.
  - destruct (Hgood x) as (rx & dx & Hrx & Hdx); [by left|].
    simpl.
    destruct (IH (new ← acc;
                  old ← getitem (JObj r) x;
                  rec ← RunLog.moved old target;
                  mret (<[x := rec]> new))
                (<[x := moved_to target rx dx]> n0))
      as (n & Hn & Hout & Hin).
    { rewrite (bind_ok _ _ _ _ _ Hacc). cbn [getitem]. rewrite Hrx.
      rewrite bind_run, ret_run.
      by rewrite (bind_ok _ _ _ _ _ (moved_run rx dx target w Hdx)). }
    { intros br Hbr. apply Hgood. by right. }
    exists n. split; [done|]. split.
    + intros k Hk. apply not_elem_of_cons in Hk as [Hkx Hk].
      by rewrite Hout, lookup_insert_ne.
    + intros br rb d Hbr Hrb Hd.
      destruct (decide (br ∈ bs)) as [Hbs|Hbs]; [by eapply Hin|].
      apply elem_of_cons in Hbr as [->|Hbr]; [|done].
      rewrite Hout by done. rewrite lookup_insert_eq.
      rewrite Hrx in Hrb. injection Hrb as <-.
      rewrite Hdx in Hd. by injection Hd as <-.
Qed.

(** X5: in a project with branches, renaming a run whose record has a
    sub-record with a directory for every configured branch returns.  The
    new record has exactly the configured branches as keys, so any other
    key of the old record is dropped, and binds each branch to its
    sub-record with the directory moved to the new name; the old name is
    gone. *)
Theorem mv_branched_spec
    (w : world) (self : RunLog.t) (m r : dict) (a b : string) :
  RunLog._branches self ≠ [] →
  holds w self m →
  m !! a = Some (JObj r) →
  (∀ br, br ∈ RunLog._branches self → has_branch_record r br) →
  ∃ w' new,
    RunLog.mv self a b w = (Ok self, w') ∧
    holds w' self (<[b := JObj new]> (delete a m)) ∧
    (∀ k, k ∉ RunLog._branches self → new !! k = None) ∧
    (∀ br rb d, br ∈ RunLog._branches self →
                r !! br = Some (JObj rb) →
                rb !! "directory" = Some (JStr d) →
                new !! br = Some (moved_to b rb d)).
Proof.
  intros Hbr Hm Ha Hgood.
  destruct (mv_loop_ok r b (RunLog._branches self) (mret ∅) ∅ w)
    as (new & Hloop & Hout & Hin); [done | done |].
  destruct (dump_holds w self m (<[b := JObj new]> (delete a m)) Hm)
    as (w' & Hdump & Hh).
  exists w', new. split; [|split; [done|split; [|done]]].
  - unfold RunLog.mv.
    rewrite (bind_ok _ _ _ _ _ (asdict_holds _ _ _ Hm)), Ha.
    destruct (RunLog._branches self) as [|x bs] eqn:Hbs; [done|].
    rewrite (bind_ok _ _ _ _ _ Hloop), filter_ne_delete.
    by rewrite (bind_ok _ _ _ _ _ Hdump).
  - intros k Hk. rewrite Hout by done. apply lookup_empty.
Qed.

Lemma mv_branched_spec_witness :
  ∃ w' new,
    RunLog.mv branched "run1" "run2" (world_with_log two_branch_log)
      = (Ok branched, w') ∧
    holds w' branched (<["run2" := JObj new]> (delete "run1" two_branch_log)) ∧
    (∀ k, k ∉ RunLog._branches branched → new !! k = None) ∧
    (∀ br rb d, br ∈ RunLog._branches branched →
                two_branch_record !! br = Some (JObj rb) →
                rb !! "directory" = Some (JStr d) →
                new !! br = Some (moved_to "run2" rb d)).
Proof.
  apply (mv_branched_spec (world_with_log two_branch_log) branched
           two_branch_log two_branch_record "run1" "run2").
  - done.
  - vm_compute. reflexivity.
  - vm_compute. reflexivity.
  - intros br Hbr. cbn [RunLog._branches branched] in Hbr.
    rewrite !elem_of_cons, elem_of_nil in Hbr.
    destruct Hbr as [->|[->|[]]]; eexists _, _; split; vm_compute; reflexivity.
Defined.

Lemma mv_loop_missing (r : dict) (target : string) (bs : list string)
    (acc : M dict) (n0 : dict) (w : world) :
  acc w = (Ok n0, w) →
  (∀ br, br ∈ bs → r !! br = None ∨ has_branch_record r br) →
  (∃ br, br ∈ bs ∧ r !! br = None) →
  ∃ br, br ∈ bs ∧ r !! br = None ∧
    foldl (λ acc branch,
             new ← acc;
             old ← getitem (JObj r) branch;
             rec ← RunLog.moved old target;
             mret (<[branch := rec]> new)) acc bs w =
      (Raise (KeyError br), w).
Proof.
  revert acc n0. induction bs as [|x bs IH]; intros acc n0 Hacc Hall Hex.
  - destruct Hex as (br & Hbr & _). by apply elem_of_nil in Hbr.
  - simpl. destruct (Hall x) as [Hx|(rx & dx & Hrx & Hdx)]; [by left| |].
    + exists x. split; [by left|]. split; [done|].
      apply (mv_loop_raise (JObj r) target bs _ (KeyError x) w).
      rewrite (bind_ok _ _ _ _ _ Hacc).
      cbn [getitem]. by rewrite Hx.
    + destruct (IH (new ← acc;
                    old ← getitem (JObj r) x;
                    rec ← RunLog.moved old target;
                    mret (<[x := rec]> new))
                  (<[x := moved_to target rx dx]> n0))
        as (br & Hbr & Hnone & Hr).
      { rewrite (bind_ok _ _ _ _ _ Hacc). cbn [getitem]. rewrite Hrx.
        rewrite bind_run, ret_run.
        by rewrite (bind_ok _ _ _ _ _ (moved_run rx dx target w Hdx)). }
      { intros br Hbr. apply Hall. by right. }
      { destruct Hex as (br & Hbr & Hnone).
        apply elem_of_cons in Hbr as [->|Hbr]; [congruence|]. eauto. }
      exists br. split; [by right|]. done.
Qed.

(** X6: in a project with branches, a run whose record lacks the
    sub-record of a configured branch, as after a run in a subset of the
    branches, cannot be renamed: [mv] raises a plain [KeyError] for the
    first such branch, and the log is as before. *)
Theorem mv_branched_missing_branch
    (w : world) (self : RunLog.t) (m r : dict) (a b : string) :
  holds w self m →
  m !! a = Some (JObj r) →
  (∀ br, br ∈ RunLog._branches self →
         r !! br = None ∨ has_branch_record r br) →
  (∃ br, br ∈ RunLog._branches self ∧ r !! br = None) →
  ∃ br, br ∈ RunLog._branches self ∧ r !! br = None ∧
        RunLog.mv self a b w = (Raise (KeyError br), w) ∧
        isinstance (KeyError br) CLogKeyError = false.
Proof.
  intros Hm Ha Hall Hex.
  destruct (mv_loop_missing r b (RunLog._branches self) (mret ∅) ∅ w)
    as (br & Hbr & Hnone & Hloop); [done | done | done |].
  exists br. split; [done|]. split; [done|]. split; [|done].
  unfold RunLog.mv.
  rewrite (bind_ok _ _ _ _ _ (asdict_holds _ _ _ Hm)), Ha.
  destruct (RunLog._branches self) as [|x bs] eqn:Hbs;
    [by apply elem_of_nil in Hbr|].
  by rewrite (bind_raise _ _ _ _ _ Hloop).
Qed.

Lemma mv_branched_missing_branch_witness :
  ∃ br, br ∈ RunLog._branches branched ∧ only_a_record !! br = None ∧
        RunLog.mv branched "run1" "run2"
          (world_with_log {[ "run1" := JObj only_a_record ]})
          = (Raise (KeyError br),
             world_with_log {[ "run1" := JObj only_a_record ]}) ∧
        isinstance (KeyError br) CLogKeyError = false.
Proof.
  apply (mv_branched_missing_branch _ branched
           {[ "run1" := JObj only_a_record ]} only_a_record "run1" "run2").
  - vm_compute. reflexivity.
  - vm_compute. reflexivity.
  - intros br Hbr. cbn [RunLog._branches branched] in Hbr.
    rewrite !elem_of_cons, elem_of_nil in Hbr.
    destruct Hbr as [->|[->|[]]].
    + right. eexists _, _. split; vm_compute; reflexivity.
    + left. vm_compute. reflexivity.
  - exists "b". split; [set_solver|]. vm_compute. reflexivity.
Defined.

(** ** Removing from the log *)

Lemma first_unknown_split (m : dict) (known rest : list string) (t : string) :
  (∀ x, x ∈ known → is_Some (m !! x)) →
  m !! t = None →
  RunLog.first_unknown m (known ++ t :: rest) = Some t.
Proof.
  intros Hk Ht. unfold RunLog.first_unknown.
  induction known as [|x known IH]; simpl.
  - by rewrite bool_decide_eq_true_2.
  - destruct (Hk x) as [v Hv]; [by left|].
    rewrite bool_decide_eq_false_2 by congruence.
    apply IH. intros y Hy. apply Hk. by right.
Qed.

Lemma dump_raises_os (self : RunLog.t) (u : dict) (w w' : world) (e : exn) :
  RunLog.dump self u w = (Raise e, w') → isinstance e COSError = true.
Proof.
  unfold RunLog.dump, write_json.
  destruct (stat w _) as [[?|?]| |]; try done; try by intros [= <- _].
  destruct (stat w _) as [[?|?]| |]; try done; by intros [= <- _].
Qed.

Lemma strip_raises_attribute (targets : list string) (b : string)
    (current updated : dict) (w w' : world) (e : exn) :
  RunLog.strip targets b current updated w = (Raise e, w') →
  class_of e = CAttributeError.
Proof.
  unfold RunLog.strip. revert w w' e.
  apply (map_fold_weak_ind (λ (r : M dict) (_ : dict),
           ∀ w w' e, r w = (Raise e, w') → class_of e = CAttributeError)).
  - done.
  - intros i y m0 r _ IH w w' e. rewrite bind_run.
    destruct (r w) as [[u|e0] w2] eqn:Hr.
    + case_bool_decide; [|done]. destruct y; try done; by intros [= <- _].
    + intros [= <- _]. by eapply IH.
Qed.

(** X7: [rm] checks its targets as a batch before it removes anything.
    When the first target that is not a key of the log is a non-empty
    string, [rm] raises the "Cannot remove unknown run" error for it,
    whatever the branch, and the log is as before.  When that first
    unknown target is the empty string, the error is never raised, also
    not for the unknown targets that follow it. *)
Theorem rm_unknown_target
    (w : world) (self : RunLog.t) (m : dict) (known rest : list string)
    (t : string) (branch : option string) :
  holds w self m →
  (∀ x, x ∈ known → is_Some (m !! x)) →
  m !! t = None →
  (t ≠ "" →
   RunLog.rm self (known ++ t :: rest) branch w =
     (Raise (LogKeyError "Cannot remove unknown run" (Some t)), w)) ∧
  (t = "" →
   ∀ x w', RunLog.rm self (known ++ t :: rest) branch w ≠
             (Raise (LogKeyError "Cannot remove unknown run" x), w')).
Proof.
  intros Hm Hk Ht. unfold RunLog.rm.
  rewrite (bind_ok _ _ _ _ _ (asdict_holds _ _ _ Hm)).
  rewrite (first_unknown_split m known rest t Hk Ht). split.
  - intros Hne. assert (truthy t = true) as ->; [|done].
    unfold truthy. apply negb_true_iff. by apply String.eqb_neq.
  - intros -> x w'. change (truthy "") with false. cbv iota.
    rewrite bind_run, ret_run.
    destruct (negb (RunLog.has_branch self branch)); [done|].
    rewrite bind_run.
    destruct (match branch with
              | Some b => if truthy b then RunLog.strip _ b m _ else mret _
              | None => mret _
              end w) as [[u|e] w1] eqn:Hs.
    + rewrite bind_run.
      destruct (RunLog.dump self u w1) as [[[]|e] w2] eqn:Hd; [done|].
      intros [= -> _]. by apply dump_raises_os in Hd.
    + intros [= -> _].
      destruct branch as [b|]; [destruct (truthy b)|]; try done.
      by apply strip_raises_attribute in Hs.
Qed.

Lemma rm_unknown_target_witness :
  RunLog.rm branched (["run1"] ++ "run9" :: ["run8"]) (Some "a")
    (world_with_log two_branch_log) =
    (Raise (LogKeyError "Cannot remove unknown run" (Some "run9")),
     world_with_log two_branch_log).
Proof.
  apply (rm_unknown_target (world_with_log two_branch_log) branched
           two_branch_log ["run1"] ["run8"] "run9" (Some "a")).
  - vm_compute. reflexivity.
  - intros x Hx. apply list_elem_of_singleton in Hx as ->. vm_compute. eauto.
  - vm_compute. reflexivity.
  - done.
Defined.

(** ** Entries that are not records *)

Lemma strip_bad_target (targets : list string) (b : string)
    (current updated : dict) (w : world) :
  (∃ k x, current !! k = Some x ∧ k ∈ targets ∧ is_obj x = false) →
  RunLog.strip targets b current updated w =
    (Raise (AttributeError "object has no attribute 'items'"), w).
Proof.
  unfold RunLog.strip. revert w.
  apply (map_fold_weak_ind (λ (r : M dict) (m : dict),
    ∀ w,
      ((∃ u, r w = (Ok u, w)) ∨
       r w = (Raise (AttributeError "object has no attribute 'items'"), w)) ∧
      ((∃ k x, m !! k = Some x ∧ k ∈ targets ∧ is_obj x = false) →
       r w = (Raise (AttributeError "object has no attribute 'items'"), w)))).
  - intros w. split; [left; by eexists|].
    intros (k & x & Hk & _). by rewrite lookup_empty in Hk.
  - intros i y m r Hi IH w. destruct (IH w) as [Hr Hbad].
    rewrite bind_run. split.
    + destruct Hr as [[u ->]| ->]; [|by right].
      case_bool_decide; [|left; by eexists].
      destruct y; try (by right). left. by eexists.
    + intros (k & x & Hk & Hin & Hx).
      destruct (decide (k = i)) as [->|Hne].
      * rewrite lookup_insert_eq in Hk. injection Hk as ->.
        destruct Hr as [[u ->]| ->]; [|done].
        rewrite bool_decide_eq_true_2 by done. by destruct x.
      * rewrite lookup_insert_ne in Hk by done. rewrite Hbad; [done|].
        eauto 10.
Qed.

(** X8: an entry of the log whose value is not a mapping, as the common
    attributes [config] and [output] that every project log holds, is
    not a run the log can work on.  Appending to it and, without branches,
    renaming it raise a [TypeError]; removing it for a configured branch
    raises an [AttributeError]; none of these is a log key error, and each
    time the log is as before. *)
Theorem non_record_entries
    (w : world) (self : RunLog.t) (m : dict) (k : string) (x : json) :
  holds w self m →
  m !! k = Some x →
  is_obj x = false →
  (∀ key metadata,
     ∃ msg, RunLog.append self k key metadata w = (Raise (TypeError msg), w)) ∧
  (∀ target,
     RunLog._branches self = [] →
     ∃ msg, RunLog.mv self k target w = (Raise (TypeError msg), w)) ∧
  (∀ targets b,
     (∀ t, t ∈ targets → is_Some (m !! t)) →
     k ∈ targets →
     b ∈ RunLog._branches self →
     b ≠ "" →
     ∃ msg, RunLog.rm self targets (Some b) w =
              (Raise (AttributeError msg), w)).
Proof.
  intros Hm Hk Hx. split; [|split].
  - intros key metadata. unfold RunLog.append.
    rewrite (bind_ok _ _ _ _ _ (asdict_holds _ _ _ Hm)), Hk.
    destruct x; try done; by eexists.
  - intros target Hbr. unfold RunLog.mv.
    rewrite (bind_ok _ _ _ _ _ (asdict_holds _ _ _ Hm)), Hk, Hbr.
    destruct x; try done; by eexists.
  - intros targets b Hknown Hin Hb Hne. unfold RunLog.rm.
    rewrite (bind_ok _ _ _ _ _ (asdict_holds _ _ _ Hm)).
    rewrite first_unknown_known by done. rewrite bind_run, ret_run.
    cbn [RunLog.has_branch]. rewrite bool_decide_eq_true_2 by done.
    cbn [negb]. assert (truthy b = true) as ->.
    { unfold truthy. apply negb_true_iff. by apply String.eqb_neq. }
    rewrite bind_run. rewrite strip_bad_target; [by eexists|]. eauto 10.
Qed.

Lemma non_record_entries_witness :
  (∃ msg, RunLog.append unbranched "config" "a" JNull
            (world_with_log plain_log) =
            (Raise (TypeError msg), world_with_log plain_log)) ∧
  (∃ msg, RunLog.mv unbranched "config" "run2" (world_with_log plain_log) =
            (Raise (TypeError msg), world_with_log plain_log)) ∧
  (∃ msg, RunLog.rm branched ["config"] (Some "a")
            (world_with_log plain_log) =
            (Raise (AttributeError msg), world_with_log plain_log)).
Proof.
  destruct (non_record_entries (world_with_log plain_log) unbranched
              plain_log "config" (JStr "eprem.cfg")) as (H1 & H2 & _);
    try (vm_compute; reflexivity).
  destruct (non_record_entries (world_with_log plain_log) branched
              plain_log "config" (JStr "eprem.cfg")) as (_ & _ & H3);
    try (vm_compute; reflexivity).
  split; [apply H1|]. split; [by apply H2|]. apply H3.
  - intros t Ht. apply list_elem_of_singleton in Ht as ->. vm_compute. eauto.
  - set_solver.
  - set_solver.
  - done.
Defined.

(** * Further properties of the directory tree *)

(** A change at [p] is not seen at a place that is neither at nor below
    [p], unless a directory is there. *)
Lemma resolve_set_node_frame (p q : list string) (v : option node) (n : node) :
  ¬ p `prefix_of` q →
  (∀ m, resolve q n ≠ Found (Dir m)) →
  resolve q (set_node p v n) = resolve q n.
Proof.
  revert q n. induction p as [|s p IH]; intros q n Hpre Hq.
  - destruct Hpre. apply prefix_nil.
  - destruct n as [c|m0]; [done|]. cbn [set_node].
    destruct q as [|t q]; [by destruct (Hq m0)|]. cbn [resolve] in *.
    destruct (decide (t = s)) as [->|Hts].
    + rewrite lookup_partial_alter_eq.
      assert (¬ p `prefix_of` q) as Hpre'.
      { intros H. apply Hpre. by apply prefix_cons. }
      destruct p as [|s' p]; [destruct Hpre'; apply prefix_nil|].
      destruct (m0 !! s) as [c|]; [|done]. simpl fmap. by apply IH.
    + by rewrite lookup_partial_alter_ne.
Qed.

(** And a directory there stays a directory. *)
Lemma resolve_set_node_keeps_dir (p q : list string) (v : option node)
    (n : node) (m : gmap string node) :
  ¬ p `prefix_of` q →
  resolve q n = Found (Dir m) →
  ∃ m', resolve q (set_node p v n) = Found (Dir m').
Proof.
  revert q n. induction p as [|s p IH]; intros q n Hpre Hq.
  - destruct Hpre. apply prefix_nil.
  - destruct n as [c|m0]; [by destruct q|]. cbn [set_node].
    destruct q as [|t q]; [simpl; eauto|]. cbn [resolve] in *.
    destruct (decide (t = s)) as [->|Hts].
    + rewrite lookup_partial_alter_eq.
      assert (¬ p `prefix_of` q) as Hpre'.
      { intros H. apply Hpre. by apply prefix_cons. }
      destruct p as [|s' p]; [destruct Hpre'; apply prefix_nil|].
      destruct (m0 !! s) as [c|]; [|done]. simpl fmap. by apply IH.
    + rewrite lookup_partial_alter_ne by done. eauto.
Qed.

(** Below the place where a node is put one finds what is below the
    node. *)
Lemma resolve_set_node_below (p r : list string) (x : node) (n : node) :
  p ≠ [] →
  (∃ m, resolve (removelast p) n = Found (Dir m)) →
  resolve (p ++ r) (set_node p (Some x) n) = resolve r x.
Proof.
  revert n. induction p as [|s p IH]; intros n Hne [m Hm]; [done|].
  destruct p as [|s' p].
  - simpl in *. injection Hm as ->. simpl.
    by rewrite lookup_partial_alter_eq.
  - change (removelast (s :: s' :: p)) with (s :: removelast (s' :: p)) in Hm.
    cbn [resolve] in Hm. destruct n as [c|m0]; [done|].
    destruct (m0 !! s) as [c|] eqn:Hs; [|done].
    rewrite <- (app_comm_cons (s' :: p) r s).
    cbn [set_node resolve]. rewrite lookup_partial_alter_eq, Hs. simpl fmap.
    cbv iota. apply IH; [done | eauto].
Qed.

(** At and below the place where an entry is removed there is nothing. *)
Lemma resolve_set_node_removed (p r : list string) (n : node) :
  p ≠ [] →
  (∃ m, resolve (removelast p) n = Found (Dir m)) →
  resolve (p ++ r) (set_node p None n) = NoEnt.
Proof.
  revert n. induction p as [|s p IH]; intros n Hne [m Hm]; [done|].
  destruct p as [|s' p].
  - simpl in *. injection Hm as ->. simpl.
    by rewrite lookup_partial_alter_eq.
  - change (removelast (s :: s' :: p)) with (s :: removelast (s' :: p)) in Hm.
    cbn [resolve] in Hm. destruct n as [c|m0]; [done|].
    destruct (m0 !! s) as [c|] eqn:Hs; [|done].
    rewrite <- (app_comm_cons (s' :: p) r s).
    cbn [set_node resolve]. rewrite lookup_partial_alter_eq, Hs. simpl fmap.
    cbv iota. apply IH; [done | eauto].
Qed.

(** What resolves has prefixes that resolve, to directories when they are
    proper. *)
Lemma resolve_prefix_dir (p r : list string) (n x : node) :
  r ≠ [] → resolve (p ++ r) n = Found x → ∃ m, resolve p n = Found (Dir m).
Proof.
  revert n. induction p as [|s p IH]; intros n Hr H.
  - destruct r as [|t r]; [done|]. destruct n as [c|m]; [done|].
    simpl. eauto.
  - simpl in *. destruct n as [c|m]; [done|].
    destruct (m !! s) as [c|]; [|done]. by eapply IH.
Qed.

Lemma resolve_noent_below (p r : list string) (n : node) :
  resolve p n = NoEnt → resolve (p ++ r) n = NoEnt.
Proof.
  revert n. induction p as [|s p IH]; intros n H; [done|].
  simpl in *. destruct n as [c|m]; [done|].
  destruct (m !! s) as [c|]; [|done]. by apply IH.
Qed.

(** A place that is free is not at or above anything that is there. *)
Lemma noent_not_prefix (p q : list string) (n x : node) :
  resolve p n = NoEnt → resolve q n = Found x → ¬ p `prefix_of` q.
Proof.
  intros Hp Hq [r ->]. by rewrite (resolve_noent_below p r n Hp) in Hq.
Qed.

(** ** Worlds that grow *)

Lemma grows_refl (w : world) : grows w w.
Proof. by repeat split. Qed.

Lemma grows_trans (w1 w2 w3 : world) :
  grows w1 w2 → grows w2 w3 → grows w1 w3.
Proof.
  intros (Hc1 & Hf1 & Hd1) (Hc2 & Hf2 & Hd2). split; [congruence|].
  split; eauto.
Qed.

Lemma put_new_grows (w : world) (p : PurePath) (v : node) :
  stat w p = NoEnt → grows w (put w p (Some v)).
Proof.
  intros Hp. split; [done|]. split.
  - intros q x Hq. unfold stat in *. rewrite key_put. unfold put.
    cbn [tree]. rewrite resolve_set_node_frame; [done| |].
    + by eapply noent_not_prefix.
    + intros m. by rewrite Hq.
  - intros q [m Hq]. unfold dir_at, stat in *. rewrite key_put. unfold put.
    cbn [tree]. eapply resolve_set_node_keeps_dir; [|done].
    by eapply noent_not_prefix.
Qed.

Lemma growing_ret {A} (a : A) : growing (mret a : M A).
Proof. intros w. apply grows_refl. Qed.

Lemma growing_raise {A} (e : exn) : growing (@raise A e).
Proof. intros w. apply grows_refl. Qed.

Lemma growing_quiet {A} (c : M A) : quiet c → growing c.
Proof. intros H w. rewrite H. apply grows_refl. Qed.

Lemma growing_bind {A B} (m : M A) (f : A → M B) :
  growing m → (∀ a, growing (f a)) → growing (m ≫= f).
Proof.
  intros Hm Hf w. rewrite bind_run. specialize (Hm w).
  destruct (m w) as [[a|e] w1]; simpl in *; [|done].
  eapply grows_trans; [done | apply Hf].
Qed.

Lemma growing_for_each {A B} (f : A → M B) (l : list A) :
  (∀ x, growing (f x)) → growing (for_each f l).
Proof.
  intros Hf. induction l as [|x l IH]; simpl.
  - apply growing_ret.
  - apply growing_bind; [apply Hf | by intros _].
Qed.

Lemma growing_mkdir (p : PurePath) : growing (mkdir p).
Proof.
  intros w. destruct (mkdir p w) as [[[]|e] w'] eqn:H; simpl.
  - apply mkdir_ok_inv in H as (Hp & _ & ->). by apply put_new_grows.
  - apply mkdir_raise_inv in H as ->. apply grows_refl.
Qed.

Lemma growing_mkdir_once (p : PurePath) (exist_ok : bool) :
  growing (mkdir_once p exist_ok).
Proof.
  intros w. unfold mkdir_once. pose proof (growing_mkdir p w) as H.
  destruct (mkdir p w) as [[[]|e] w']; simpl in *; [done|].
  unfold is_dir.
  destruct e; try done;
    destruct (stat w' p) as [[?|?]| |]; destruct exist_ok; done.
Qed.

Lemma growing_mkdir_rev (rt : string) (rp : list string) (exist_ok : bool) :
  growing (mkdir_rev rt rp exist_ok).
Proof.
  revert exist_ok. induction rp as [|s rp IH]; intros exist_ok w.
  - cbn [mkdir_rev].
    pose proof (growing_mkdir (pathlib.mk rt (rev [])) w) as H.
    destruct (mkdir _ w) as [[[]|e] w']; simpl in *; [done|].
    unfold is_dir.
    destruct e; try done;
      destruct (stat w' _) as [[?|?]| |]; destruct exist_ok; done.
  - cbn [mkdir_rev].
    pose proof (growing_mkdir (pathlib.mk rt (rev (s :: rp))) w) as H.
    destruct (mkdir _ w) as [[[]|e] w']; simpl in H; [done|].
    destruct e;
      try (unfold is_dir;
           destruct (stat w' _) as [[?|?]| |]; destruct exist_ok; done).
    eapply grows_trans; [exact H|].
    apply (growing_bind (mkdir_rev rt rp true)
             (λ _, mkdir_once (pathlib.mk rt (rev (s :: rp))) exist_ok));
      [apply IH | intros _; apply growing_mkdir_once].
Qed.

Lemma growing_mkdir_parents (p : PurePath) (exist_ok : bool) :
  growing (mkdir_parents p exist_ok).
Proof. apply growing_mkdir_rev. Qed.

(** Writing a file keeps the working directory, the directories and the
    other files. *)
Lemma write_json_keeps (p : PurePath) (c : json) (w w' : world) (e : outcome unit) :
  write_json p c w = (e, w') →
  cwd w' = cwd w ∧
  (∀ q, dir_at w q → dir_at w' q) ∧
  (∀ q x, stat w q = Found (File x) → key w q ≠ key w p →
          stat w' q = Found (File x)).
Proof.
  unfold write_json.
  assert (∀ x0, (stat w p = Found (File x0) ∨
                 stat w p = NoEnt) →
          cwd (put w p (Some (File c))) = cwd w ∧
          (∀ q, dir_at w q → dir_at (put w p (Some (File c))) q) ∧
          (∀ q x, stat w q = Found (File x) → key w q ≠ key w p →
                  stat (put w p (Some (File c))) q = Found (File x))) as Hput.
  { intros x0 Hp. split; [done|]. split.
    - intros q [m Hq]. unfold dir_at, stat in *. rewrite key_put.
      unfold put. cbn [tree]. eapply resolve_set_node_keeps_dir; [|done].
      intros [r Hr]. rewrite Hr in Hq. destruct r as [|t r].
      + rewrite app_nil_r in Hq. destruct Hp as [Hp|Hp]; congruence.
      + apply resolve_prefix_dir in Hq as [m' Hm']; [|done].
        destruct Hp as [Hp|Hp]; congruence.
    - intros q x Hq Hne. unfold stat in *. rewrite key_put. unfold put.
      cbn [tree]. rewrite resolve_set_node_frame; [done| |].
      + intros [r Hr]. rewrite Hr in Hq, Hne. destruct r as [|t r].
        * by rewrite app_nil_r in Hne.
        * apply resolve_prefix_dir in Hq as [m' Hm']; [|done].
          destruct Hp as [Hp|Hp]; congruence.
      + intros m. by rewrite Hq. }
  destruct (stat w p) as [[x0|m0]| |] eqn:Hs.
  - intros [= _ <-]. apply (Hput x0). by left.
  - by intros [= _ <-].
  - destruct (stat w (pathlib.parent p)) as [[?|?]| |];
      intros [= _ <-]; try done. apply (Hput JNull). by right.
  - by intros [= _ <-].
Qed.

(** * Further properties of projects *)

(** ** What the helpers leave alone *)

Lemma quiet_exists (p : PurePath) : quiet (exists_ p).
Proof. by intros w. Qed.

Lemma quiet_is_dir (p : PurePath) : quiet (is_dir p).
Proof. by intros w. Qed.

Lemma quiet_fullpath (p : PurePath) : quiet (fullpath p).
Proof. by intros w. Qed.

Lemma quiet_read_json (p : PurePath) : quiet (read_json p).
Proof. intros w. unfold read_json. by destruct (stat w p) as [[?|?]| |]. Qed.

Lemma quiet_as_dict (c : json) : quiet (as_dict c).
Proof. destruct c; try apply quiet_raise. apply quiet_ret. Qed.

Lemma quiet_fmap {A B} (f : A → B) (m : M A) : quiet m → quiet (f <$> m).
Proof.
  intros H. apply quiet_bind; [done|]. intros a. apply quiet_ret.
Qed.

Lemma quiet_as_str (v : json) : quiet (_ProjectInit.as_str v).
Proof. destruct v; try apply quiet_raise. apply quiet_ret. Qed.

Lemma quiet_mapM {A B} (f : A → M B) (l : list A) :
  (∀ a, quiet (f a)) → quiet (mapM f l).
Proof.
  intros Hf. induction l as [|a l IH]; simpl; [apply quiet_ret|].
  apply quiet_bind; [apply Hf|]. intros b.
  apply quiet_bind; [apply IH|]. intros bs. apply quiet_ret.
Qed.

Lemma quiet_kw_str (m : dict) (k : string) : quiet (_ProjectInit.kw_str m k).
Proof.
  unfold _ProjectInit.kw_str. destruct (m !! k) as [v|]; [|apply quiet_ret].
  destruct (_ProjectInit.falsy v); [apply quiet_ret|].
  apply quiet_fmap, quiet_as_str.
Qed.

Lemma quiet_kw_strs (m : dict) (k : string) :
  quiet (_ProjectInit.kw_strs m k).
Proof.
  unfold _ProjectInit.kw_strs. destruct (m !! k) as [v|]; [|apply quiet_ret].
  destruct v; try (destruct (_ProjectInit.falsy _);
                   [apply quiet_ret | apply quiet_raise]).
  - apply quiet_ret.
  - apply quiet_fmap, quiet_mapM, quiet_as_str.
Qed.

Lemma quiet_of_json (entry : json) : quiet (_ProjectInit.of_json entry).
Proof.
  destruct entry as [| | | | |m]; try apply quiet_raise. simpl.
  destruct (m !! "root") as [r|]; [|apply quiet_raise].
  apply quiet_bind; [apply quiet_as_str|]. intros rt.
  apply quiet_bind; [apply quiet_kw_strs|]. intros bs.
  do 4 (apply quiet_bind; [apply quiet_kw_str|]; intros ?).
  apply quiet_ret.
Qed.

Lemma quiet_logname (attrs : _ProjectInit.t) :
  quiet (_ProjectInit.logname attrs).
Proof.
  unfold _ProjectInit.logname.
  destruct (pathlib.with_suffix _ _); [apply quiet_ret | apply quiet_raise].
Qed.

Lemma keeps_cwd_quiet {A} (c : M A) : quiet c → keeps_cwd c.
Proof. intros H w. by rewrite H. Qed.

Lemma keeps_cwd_growing {A} (c : M A) : growing c → keeps_cwd c.
Proof. intros H w. by destruct (H w). Qed.

Lemma keeps_cwd_bind {A B} (m : M A) (f : A → M B) :
  keeps_cwd m → (∀ a, keeps_cwd (f a)) → keeps_cwd (m ≫= f).
Proof.
  intros Hm Hf w. rewrite bind_run. specialize (Hm w).
  destruct (m w) as [[a|e] w1]; simpl in *; [|done].
  by rewrite Hf.
Qed.

Lemma keeps_cwd_write_json (p : PurePath) (c : json) :
  keeps_cwd (write_json p c).
Proof.
  intros w. destruct (write_json p c w) as [e w'] eqn:H.
  by apply write_json_keeps in H as [? _].
Qed.

(** Paths are made absolute from the working directory alone. *)
Lemma key_cwd (w w' : world) (p : PurePath) :
  cwd w' = cwd w → key w' p = key w p.
Proof. intros H. unfold key. by rewrite H. Qed.

Lemma abspath_cwd (w w' : world) (p : PurePath) :
  cwd w' = cwd w → abspath w' p = abspath w p.
Proof. intros H. unfold abspath. by rewrite (key_cwd w w'). Qed.

(** ** Opening a root that is there *)

(** X9: opening a root that is there never makes or changes anything when
    it fails.  With any keyword it raises [ProjectExistsError]; without
    keywords it raises [FileNotFoundError] when the working directory has
    no registry, and a plain [KeyError] for the root when the registry has
    no entry for it.  Each time the world is as before. *)
Theorem open_existing_root_errors (rt : string) (w : world) :
  let path := abspath w (pathlib.parse rt) in
  present w path →
  (∀ kw, _ProjectInit.given kw = true →
     Project.__init__ rt kw w =
       (Raise (ProjectExistsError (pathlib.to_str path)), w)) ∧
  (stat w Project.database = NoEnt →
     Project.__init__ rt _ProjectInit.no_kwargs w =
       (Raise (FileNotFoundError (pathlib.to_str Project.database)), w)) ∧
  (∀ reg, stat w Project.database = Found (File (JObj reg)) →
     reg !! pathlib.to_str path = None →
     Project.__init__ rt _ProjectInit.no_kwargs w =
       (Raise (KeyError (pathlib.to_str path)), w)).
Proof.
  intros path [n Hn].
  assert (exists_ path w = (Ok true, w)) as Hex.
  { unfold exists_. by rewrite Hn. }
  split; [|split].
  - intros kw Hkw. unfold Project.__init__. apply bind_raise.
    unfold Project._init_attrs.
    rewrite (bind_ok _ _ _ _ _ (fullpath_run _ _)). fold path.
    rewrite (bind_ok _ _ _ _ _ Hex). by rewrite Hkw.
  - intros Hdb. unfold Project.__init__. apply bind_raise.
    unfold Project._init_attrs.
    rewrite (bind_ok _ _ _ _ _ (fullpath_run _ _)). fold path.
    rewrite (bind_ok _ _ _ _ _ Hex).
    change (_ProjectInit.given _ProjectInit.no_kwargs) with false.
    cbn [andb]. rewrite (bind_ok _ _ _ _ _ Hex).
    apply bind_raise. unfold read_json. by rewrite Hdb.
  - intros reg Hdb Hreg. unfold Project.__init__. apply bind_raise.
    unfold Project._init_attrs.
    rewrite (bind_ok _ _ _ _ _ (fullpath_run _ _)). fold path.
    rewrite (bind_ok _ _ _ _ _ Hex).
    change (_ProjectInit.given _ProjectInit.no_kwargs) with false.
    cbn [andb]. rewrite (bind_ok _ _ _ _ _ Hex).
    assert (read_json Project.database w = (Ok (JObj reg), w)) as Hrd.
    { unfold read_json. by rewrite Hdb. }
    rewrite (bind_ok _ _ _ _ _ Hrd). cbn [as_dict].
    rewrite bind_run, ret_run. by rewrite Hreg.
Qed.

Lemma open_existing_root_errors_witness :
  Project.__init__ "/p"
    (_ProjectInit.Kwargs (Some ["a"; "b"]) None None None None) plain_world =
    (Raise (ProjectExistsError "/p"), plain_world).
Proof.
  destruct (open_existing_root_errors "/p" plain_world) as (H & _ & _).
  - eexists. vm_compute. reflexivity.
  - apply H. reflexivity.
Defined.

(** ** The attributes of a project *)

Lemma str_or_truthy (v : option string) (dflt : string) :
  truthy dflt = true → truthy (_ProjectInit.str_or v dflt) = true.
Proof.
  intros Hd. unfold _ProjectInit.str_or.
  destruct v as [s|]; [|done]. by destruct (truthy s) eqn:Hs.
Qed.

Lemma str_or_same (s dflt : string) :
  truthy s = true → _ProjectInit.str_or (Some s) dflt = s.
Proof. intros Hs. unfold _ProjectInit.str_or. by rewrite Hs. Qed.

Lemma kw_str_truthy (m : dict) (k s : string) (w : world) :
  m !! k = Some (JStr s) → truthy s = true →
  _ProjectInit.kw_str m k w = (Ok (Some s), w).
Proof.
  intros Hk Hs. unfold _ProjectInit.kw_str. rewrite Hk.
  by destruct s.
Qed.

Lemma mapM_as_str (l : list string) (w : world) :
  mapM _ProjectInit.as_str (JStr <$> l) w = (Ok l, w).
Proof.
  induction l as [|s l IH]; [done|]. rewrite fmap_cons. cbn [mapM].
  rewrite bind_run. cbn [_ProjectInit.as_str]. rewrite ret_run.
  by rewrite (bind_ok _ _ _ _ _ IH).
Qed.

Lemma of_json_to_json (rt : string) (kw : _ProjectInit.kwargs) (w : world) :
  _ProjectInit.of_json (_ProjectInit.to_json (_ProjectInit.__init__ rt kw)) w
  = (Ok (_ProjectInit.__init__ rt kw), w).
Proof.
  unfold _ProjectInit.to_json, _ProjectInit.of_json.
  set (attrs := _ProjectInit.__init__ rt kw).
  set (m := <["branches" := _]> _).
  assert (m !! "root" = Some (JStr (_ProjectInit.a_root attrs))) as Hroot.
  { subst m. by rewrite !lookup_insert_ne, lookup_insert_eq by done. }
  assert (m !! "branches" =
            Some (JArr (JStr <$> _ProjectInit.a_branches attrs))) as Hbs.
  { subst m. by rewrite lookup_insert_eq. }
  assert (m !! "config" = Some (JStr (_ProjectInit.a_config attrs))) as Hcfg.
  { subst m. by rewrite !lookup_insert_ne, lookup_insert_eq by done. }
  assert (m !! "output" = Some (JStr (_ProjectInit.a_output attrs))) as Hout.
  { subst m. by rewrite !lookup_insert_ne, lookup_insert_eq by done. }
  assert (m !! "rundir" = Some (JStr (_ProjectInit.a_rundir attrs))) as Hrd.
  { subst m. by rewrite !lookup_insert_ne, lookup_insert_eq by done. }
  assert (m !! "logstem" = Some (JStr (_ProjectInit.a_logstem attrs))) as Hls.
  { subst m. by rewrite !lookup_insert_ne, lookup_insert_eq by done. }
  rewrite Hroot. cbn [_ProjectInit.as_str]. rewrite bind_run, ret_run.
  assert (_ProjectInit.kw_strs m "branches" w =
            (Ok (Some (_ProjectInit.a_branches attrs)), w)) as Hkb.
  { unfold _ProjectInit.kw_strs. rewrite Hbs.
    unfold fmap at 1, M_fmap. by rewrite bind_run, mapM_as_str. }
  rewrite (bind_ok _ _ _ _ _ Hkb).
  assert (truthy (_ProjectInit.a_config attrs) = true) as Tc
    by exact (str_or_truthy (_ProjectInit.kw_config kw) "eprem.cfg" eq_refl).
  assert (truthy (_ProjectInit.a_output attrs) = true) as To
    by exact (str_or_truthy (_ProjectInit.kw_output kw) "eprem.log" eq_refl).
  assert (truthy (_ProjectInit.a_rundir attrs) = true) as Tr
    by exact (str_or_truthy (_ProjectInit.kw_rundir kw) "runs" eq_refl).
  assert (truthy (_ProjectInit.a_logstem attrs) = true) as Tl
    by exact (str_or_truthy (_ProjectInit.kw_logstem kw) "runs" eq_refl).
  rewrite (bind_ok _ _ _ _ _ (kw_str_truthy m "config" _ w Hcfg Tc)).
  rewrite (bind_ok _ _ _ _ _ (kw_str_truthy m "output" _ w Hout To)).
  rewrite (bind_ok _ _ _ _ _ (kw_str_truthy m "rundir" _ w Hrd Tr)).
  rewrite (bind_ok _ _ _ _ _ (kw_str_truthy m "logstem" _ w Hls Tl)).
  rewrite ret_run. do 2 f_equal.
  unfold _ProjectInit.__init__ at 1. cbn [_ProjectInit.kw_branches
    _ProjectInit.kw_config _ProjectInit.kw_output _ProjectInit.kw_rundir
    _ProjectInit.kw_logstem default].
  rewrite !str_or_same by done. by destruct attrs.
Qed.

(** X10: the entry that creation writes to the registry reads back as the
    attributes it was written from, whatever the root and the keywords
    were: a project that is opened again from its entry has the identity
    it was created with. *)
Theorem registry_entry_round_trip
    (rt : string) (kw : _ProjectInit.kwargs) (w : world) :
  _ProjectInit.of_json (_ProjectInit.to_json (_ProjectInit.__init__ rt kw)) w
  = (Ok (_ProjectInit.__init__ rt kw), w).
Proof. apply of_json_to_json. Qed.

Lemma has_slash_app (s t : string) :
  has_slash (s ++ t) = has_slash s || has_slash t.
Proof.
  induction s as [|c s IH]; [done|].
  rewrite append_cons. simpl. by rewrite IH, orb_assoc.
Qed.

Lemma has_slash_substring (n : nat) (s : string) :
  has_slash s = false → has_slash (String.substring 0 n s) = false.
Proof.
  revert n. induction s as [|c s IH]; intros n H; [by destruct n|].
  simpl in H. apply orb_false_iff in H as [Hc Hs].
  destruct n as [|n]; [done|]. simpl. rewrite Hc. by apply IH.
Qed.

Lemma has_slash_stem (nm : string) :
  has_slash nm = false → has_slash (pathlib.stem_of nm) = false.
Proof.
  intros H. unfold pathlib.stem_of.
  destruct (pathlib.rfind_dot nm) as [i|]; [|done].
  case_bool_decide; [|done]. by apply has_slash_substring.
Qed.

(** The last segment of a path that was read from a string is a segment
    or the empty string. *)
Lemma name_parse_no_slash (s : string) :
  has_slash (pathlib.name (pathlib.parse s)) = false.
Proof.
  destruct (parse_well_formed s) as [_ Hps]. unfold pathlib.name.
  destruct (pathlib.parts (pathlib.parse s)) as [|x ps] using rev_ind;
    [done|].
  rewrite last_last. apply Forall_app in Hps as [_ Hx].
  rewrite Forall_singleton in Hx. by apply is_segment_spec in Hx as [_ ?].
Qed.

Lemma length_append (s t : string) :
  String.length (s ++ t) = String.length s + String.length t.
Proof.
  induction s as [|c s IH]; [done|].
  rewrite append_cons. simpl. by rewrite IH.
Qed.

(** X11: the configured names are used as plain file names.  The name of
    the log, when it can be formed, is one path segment, so that the log
    file lies directly in the root it is joined to, whatever directories
    the configured stem names; and the name of the output file never holds
    a slash, so it cannot name a place below or beside the run directory
    by a path. *)
Theorem configured_names_are_plain (attrs : _ProjectInit.t) :
  (∀ w w' logname,
     _ProjectInit.logname attrs w = (Ok logname, w') →
     is_segment logname = true ∧
     ∀ p, pathlib.parent (p // logname) = p ∧
          pathlib.name (p // logname) = logname) ∧
  has_slash (_ProjectInit.output attrs) = false.
Proof.
  split; [|apply name_parse_no_slash].
  intros w w' logname. unfold _ProjectInit.logname, pathlib.with_suffix.
  pose proof (name_parse_no_slash (_ProjectInit.logstem attrs)) as Hns.
  destruct (pathlib.name (pathlib.parse (_ProjectInit.logstem attrs)))
    as [|c nm] eqn:Hname; [done|].
  rewrite ret_run. intros [= Hl _].
  unfold pathlib.name in Hl. cbn [pathlib.parts] in Hl.
  rewrite last_last in Hl. subst logname.
  set (stem := pathlib.stem_of (String c nm)).
  assert (is_segment (stem ++ ".json") = true) as Hseg.
  { apply is_segment_spec. split.
    - unfold pathlib.kept. apply andb_true_iff.
      split; apply negb_true_iff, String.eqb_neq; intros Heq;
        apply (f_equal String.length) in Heq;
        rewrite length_append in Heq; simpl in Heq; lia.
    - rewrite has_slash_app. apply orb_false_iff. split; [|done].
      by apply has_slash_stem. }
  split; [done|]. intros p. split.
  - by apply parent_joinpath_segment.
  - rewrite joinpath_segment by done. unfold pathlib.name.
    cbn [pathlib.parts]. by rewrite last_last.
Qed.

Lemma configured_names_are_plain_witness :
  is_segment "runs.json" = true ∧
  ∀ p, pathlib.parent (p // "runs.json") = p ∧
       pathlib.name (p // "runs.json") = "runs.json".
Proof.
  destruct (configured_names_are_plain
              (_ProjectInit.__init__ "/p"
                 (_ProjectInit.Kwargs None None None None (Some "../x/runs.txt"))))
    as [H _].
  apply (H empty_world empty_world). vm_compute. reflexivity.
Defined.

(** ** What creation leaves behind *)

Lemma mkdir_all_ok (ds : list PurePath) (exist_ok : bool) (w w' : world) :
  for_each (λ d, mkdir_parents d exist_ok) ds w = (Ok tt, w') →
  Forall (dir_at w') ds.
Proof.
  revert w. induction ds as [|d ds IH]; intros w H; [done|].
  simpl in H. apply bind_ok_inv in H as ([] & w1 & Hd & H).
  constructor; [|by eapply IH].
  apply mkdir_parents_ok_dir in Hd.
  pose proof (growing_for_each (λ d, mkdir_parents d exist_ok) ds
                (λ x, growing_mkdir_parents x exist_ok) w1) as Hq.
  rewrite H in Hq. destruct Hq as (_ & _ & Hq). by apply Hq.
Qed.

Lemma logname_pure (attrs : _ProjectInit.t) (w w' w0 : world) (l : string) :
  _ProjectInit.logname attrs w = (Ok l, w') →
  _ProjectInit.logname attrs w0 = (Ok l, w0).
Proof.
  unfold _ProjectInit.logname. destruct (pathlib.with_suffix _ _); [|done].
  rewrite !ret_run. by intros [= -> _].
Qed.

Lemma RunLog_init_write (path : PurePath) (branches : option (list string))
    (attrs : dict) (w w' : world) (self : RunLog.t) :
  RunLog.__init__ path branches attrs w = (Ok self, w') →
  write_json (abspath w path) (JObj attrs) w = (Ok tt, w').
Proof.
  unfold RunLog.__init__. rewrite (bind_ok _ _ _ _ _ (fullpath_run _ _)).
  intros H. apply bind_ok_inv in H as ([] & w1 & Hd & H).
  rewrite ret_run in H. by injection H as _ <-.
Qed.

Lemma init_attrs_fresh_inv (rt : string) (kw : _ProjectInit.kwargs)
    (w w0 : world) (attrs : _ProjectInit.t) :
  let path := abspath w (pathlib.parse rt) in
  let init := _ProjectInit.__init__ (pathlib.to_str path) kw in
  ¬ present w path →
  Project._init_attrs rt kw w = (Ok attrs, w0) →
  attrs = init ∧
  ∃ wa, mkdir_parents path false w = (Ok tt, wa) ∧
        write_json Project.database
          (JObj {[ pathlib.to_str path := _ProjectInit.to_json init ]}) wa
          = (Ok tt, w0).
Proof.
  intros path init Hp. unfold Project._init_attrs.
  rewrite (bind_ok _ _ _ _ _ (fullpath_run _ _)). fold path.
  assert (exists_ path w = (Ok false, w)) as Hex.
  { unfold exists_, present in *.
    destruct (stat w _) as [n| |]; [destruct Hp; eauto|done|done]. }
  rewrite (bind_ok _ _ _ _ _ Hex). cbn [andb].
  rewrite (bind_ok _ _ _ _ _ Hex).
  intros H. apply bind_ok_inv in H as ([] & wa & Hmk & H).
  apply bind_ok_inv in H as ([] & wb & Hwr & H).
  rewrite ret_run in H. injection H as <- <-. eauto.
Qed.

(** Everything a creation that returned has set up. *)
Lemma fresh_init_inv (rt : string) (kw : _ProjectInit.kwargs)
    (w w1 : world) (p : Project.t) :
  let path := abspath w (pathlib.parse rt) in
  let attrs := _ProjectInit.__init__ (pathlib.to_str path) kw in
  ¬ present w path →
  Project.__init__ rt kw w = (Ok p, w1) →
  ∃ logname,
    _ProjectInit.logname attrs w1 = (Ok logname, w1) ∧
    p = {| Project._attrs := attrs;
           Project.root := abspath w (pathlib.parse (pathlib.to_str path));
           Project._log :=
             RunLog.mk
               (abspath w (abspath w (pathlib.parse (pathlib.to_str path))
                           // logname))
               (_ProjectInit.branches attrs);
           Project._directories :=
             rundirs_of attrs
               (abspath w (pathlib.parse (pathlib.to_str path))) |} ∧
    cwd w1 = cwd w ∧
    dir_at w1 path ∧
    Forall (dir_at w1) (Project._directories p) ∧
    holds w1 (Project._log p) (common attrs) ∧
    ∃ reg, stat w1 Project.database = Found (File (JObj reg)) ∧
           (reg = {[ pathlib.to_str path := _ProjectInit.to_json attrs ]} ∨
            reg = common attrs) ∧
           (key w Project.database ≠ key w (RunLog._path (Project._log p)) →
            reg = {[ pathlib.to_str path := _ProjectInit.to_json attrs ]}).
Proof.
  intros path attrs Hp H. unfold Project.__init__ in H.
  apply bind_ok_inv in H as (attrs' & w0 & Ha & H).
  apply init_attrs_fresh_inv in Ha as (-> & wa & Hmk & Hwr); [|done].
  fold path in Hmk, Hwr, H. fold attrs in Hwr, H.
  unfold _ProjectInit.path in H.
  rewrite (bind_ok _ _ _ _ _ (fullpath_run _ _)) in H.
  apply bind_ok_inv in H as ([] & w2 & Hdirs & H).
  apply bind_ok_inv in H as (logname & w3 & Hln & H).
  pose proof (quiet_logname attrs w2) as Hq. rewrite Hln in Hq.
  simpl in Hq. subst w3.
  apply bind_ok_inv in H as (lg & w4 & Hlg & H).
  rewrite ret_run in H. injection H as <- <-.
  (* the worlds in between *)
  pose proof (growing_mkdir_parents path false w) as Hg1.
  rewrite Hmk in Hg1. cbn [snd] in Hg1. destruct Hg1 as (Hc1 & Hf1 & Hd1).
  pose proof (mkdir_parents_ok_dir _ _ _ _ Hmk) as Hpath_a.
  pose proof (write_json_ok _ _ _ _ Hwr) as Hdb0.
  apply write_json_keeps in Hwr as (Hc2 & Hd2 & Hf2).
  match type of Hdirs with
  | for_each ?f ?l w0 = _ =>
      pose proof (growing_for_each f l
                    (λ x, growing_mkdir_parents x true) w0) as Hg3
  end.
  rewrite Hdirs in Hg3. cbn [snd] in Hg3. destruct Hg3 as (Hc3 & Hf3 & Hd3).
  pose proof (mkdir_all_ok _ _ _ _ Hdirs) as Hall.
  pose proof (RunLog_init_ok_inv _ _ _ _ _ _ Hlg) as [Hlgv Hholds].
  apply RunLog_init_write in Hlg.
  pose proof (write_json_ok _ _ _ _ Hlg) as Hlog4.
  apply write_json_keeps in Hlg as (Hc4 & Hd4 & Hf4).
  assert (cwd w0 = cwd w) as Hcw0 by congruence.
  assert (cwd w2 = cwd w) as Hcw2 by congruence.
  rewrite (abspath_cwd w w0) in * by done.
  rewrite (abspath_cwd w w2) in Hlgv, Hlog4, Hf4 by done.
  exists logname. split; [by eapply logname_pure|].
  split; [by rewrite Hlgv|]. split; [congruence|].
  split; [by apply Hd4, Hd3, Hd2|].
  split; [eapply Forall_impl; [exact Hall|]; intros; by apply Hd4|].
  split; [done|].
  cbn [Project._log]. subst lg. cbn [RunLog._path default].
  set (lp := abspath w (abspath w (pathlib.parse (pathlib.to_str path))
                        // logname)) in *.
  apply Hf3 in Hdb0.
  destruct (decide (key w2 Project.database = key w2 lp)) as [Heq|Hne].
  - exists (common attrs). split; [|split; [by right|]].
    + unfold stat in *. rewrite (key_cwd w2 w4) by done.
      rewrite Heq. by rewrite (key_cwd w2 w4) in Hlog4 by done.
    + intros Hne. destruct Hne. by rewrite !(key_cwd w w2) in Heq by done.
  - exists {[ pathlib.to_str path := _ProjectInit.to_json attrs ]}.
    split; [by apply Hf4|]. split; [by left | done].
Qed.

(** ** Creating and opening again *)

Lemma to_str_absolute (ps : list string) :
  ∃ s, pathlib.to_str (pathlib.mk "/" ps) = String pathlib.slash s.
Proof. by eexists. Qed.

Lemma reopen_unregistered (rt : string) (w : world) (reg : dict) :
  let path := abspath w (pathlib.parse rt) in
  present w path →
  stat w Project.database = Found (File (JObj reg)) →
  reg !! pathlib.to_str path = None →
  Project.__init__ rt _ProjectInit.no_kwargs w =
    (Raise (KeyError (pathlib.to_str path)), w).
Proof.
  intros path [n Hn] Hdb Hreg.
  assert (exists_ path w = (Ok true, w)) as Hex.
  { unfold exists_. by rewrite Hn. }
  unfold Project.__init__. apply bind_raise. unfold Project._init_attrs.
  rewrite (bind_ok _ _ _ _ _ (fullpath_run _ _)). fold path.
  rewrite (bind_ok _ _ _ _ _ Hex).
  change (_ProjectInit.given _ProjectInit.no_kwargs) with false.
  cbn [andb]. rewrite (bind_ok _ _ _ _ _ Hex).
  assert (read_json Project.database w = (Ok (JObj reg), w)) as Hrd.
  { unfold read_json. by rewrite Hdb. }
  rewrite (bind_ok _ _ _ _ _ Hrd). cbn [as_dict].
  rewrite bind_run, ret_run. by rewrite Hreg.
Qed.

(** X12: the registry holds one project.  Creating a project writes a
    registry with the entry of that project alone, so that afterwards any
    other root that is on disk, such as a project created before, cannot be
    opened: opening it without keywords raises a [KeyError] for its path
    and changes nothing. *)
Theorem creation_forgets_other_projects
    (rtA rtB : string) (kw : _ProjectInit.kwargs) (w w1 : world)
    (p : Project.t) :
  let pathA := abspath w (pathlib.parse rtA) in
  let pathB := abspath w (pathlib.parse rtB) in
  ¬ present w pathB →
  Project.__init__ rtB kw w = (Ok p, w1) →
  present w1 pathA →
  pathlib.to_str pathA ≠ pathlib.to_str pathB →
  Project.__init__ rtA _ProjectInit.no_kwargs w1 =
    (Raise (KeyError (pathlib.to_str pathA)), w1).
Proof.
  intros pathA pathB HB Hinit HA Hne.
  apply fresh_init_inv in Hinit
    as (logname & _ & _ & Hcwd & _ & _ & _ & reg & Hreg & Hcases & _);
    [|done].
  fold pathB in Hcases.
  assert (abspath w1 (pathlib.parse rtA) = pathA) as HpA
    by by apply abspath_cwd.
  pose proof (reopen_unregistered rtA w1 reg) as H. cbv zeta in H.
  rewrite HpA in H. apply H; [done | done |].
  destruct Hcases as [-> | ->].
  - by apply lookup_singleton_ne.
  - destruct (to_str_absolute (collapse (key w (pathlib.parse rtA))))
      as [s Hs].
    unfold pathA, abspath. rewrite Hs. apply common_lookup; done.
Qed.

(** After [/p] and then [/q] are created on an empty disk, [/p] cannot be
    opened. *)
Lemma creation_forgets_other_projects_witness :
  ∃ p w0 q w1,
    Project.__init__ "/p" _ProjectInit.no_kwargs empty_world = (Ok p, w0) ∧
    Project.__init__ "/q" _ProjectInit.no_kwargs w0 = (Ok q, w1) ∧
    Project.__init__ "/p" _ProjectInit.no_kwargs w1 =
      (Raise (KeyError "/p"), w1).
Proof.
  eexists _, _, _, _. split; [vm_compute; reflexivity|].
  split; [vm_compute; reflexivity|].
  eapply (creation_forgets_other_projects "/p" "/q" _ProjectInit.no_kwargs
            (Project.__init__ "/p" _ProjectInit.no_kwargs empty_world).2).
  - intros [n Hn]. vm_compute in Hn. done.
  - vm_compute. reflexivity.
  - eexists. vm_compute. reflexivity.
  - done.
Defined.

Lemma Project_reopen_value (rt : string) (w : world) (reg : dict)
    (entry c : json) (attrs : _ProjectInit.t) (logname : string) :
  let path := abspath w (pathlib.parse rt) in
  let root := abspath w (pathlib.parse (_ProjectInit.a_root attrs)) in
  present w path →
  stat w Project.database = Found (File (JObj reg)) →
  reg !! pathlib.to_str path = Some entry →
  _ProjectInit.of_json entry w = (Ok attrs, w) →
  Forall (dir_at w) (rundirs_of attrs root) →
  _ProjectInit.logname attrs w = (Ok logname, w) →
  stat w (abspath w (root // logname)) = Found (File c) →
  ∃ w', Project.__init__ rt _ProjectInit.no_kwargs w =
          (Ok {| Project._attrs := attrs;
                 Project.root := root;
                 Project._log :=
                   RunLog.mk (abspath w (root // logname))
                     (_ProjectInit.branches attrs);
                 Project._directories := rundirs_of attrs root |}, w') ∧
        holds w' (RunLog.mk (abspath w (root // logname))
                    (_ProjectInit.branches attrs)) (common attrs).
Proof.
  intros path root [n Hn] Hdb Hreg Hentry Hdirs Hln Hlog.
  assert (Project._init_attrs rt _ProjectInit.no_kwargs w = (Ok attrs, w))
    as Hattrs.
  { unfold Project._init_attrs.
    rewrite (bind_ok _ _ _ _ _ (fullpath_run _ _)). fold path.
    assert (exists_ path w = (Ok true, w)) as Hex.
    { unfold exists_. by rewrite Hn. }
    rewrite (bind_ok _ _ _ _ _ Hex).
    change (_ProjectInit.given _ProjectInit.no_kwargs) with false.
    cbn [andb]. rewrite (bind_ok _ _ _ _ _ Hex).
    assert (read_json Project.database w = (Ok (JObj reg), w)) as Hrd.
    { unfold read_json. by rewrite Hdb. }
    rewrite (bind_ok _ _ _ _ _ Hrd). cbn [as_dict].
    rewrite bind_run, ret_run. by rewrite Hreg. }
  set (lg := RunLog.mk (abspath w (root // logname))
               (_ProjectInit.branches attrs)).
  assert (RunLog.dump lg (common attrs) w =
            (Ok tt, put w (abspath w (root // logname))
                      (Some (File (JObj (common attrs)))))) as Hd.
  { unfold RunLog.dump, write_json. cbn [RunLog._path lg]. by rewrite Hlog. }
  assert (RunLog.__init__ (root // logname)
            (Some (_ProjectInit.branches attrs)) (common attrs) w =
            (Ok lg, put w (abspath w (root // logname))
                      (Some (File (JObj (common attrs)))))) as Hlg.
  { unfold RunLog.__init__. rewrite (bind_ok _ _ _ _ _ (fullpath_run _ _)).
    cbn [default]. fold lg. by rewrite (bind_ok _ _ _ _ _ Hd). }
  exists (put w (abspath w (root // logname))
            (Some (File (JObj (common attrs))))).
  split; [|by apply dump_ok_inv in Hd].
  unfold Project.__init__. rewrite (bind_ok _ _ _ _ _ Hattrs).
  unfold _ProjectInit.path. rewrite (bind_ok _ _ _ _ _ (fullpath_run _ _)).
  fold root. fold (rundirs_of attrs root).
  rewrite (bind_ok _ _ _ _ _ (mkdir_all_existing _ _ Hdirs)).
  rewrite (bind_ok _ _ _ _ _ Hln). fold (common attrs).
  by rewrite (bind_ok _ _ _ _ _ Hlg).
Qed.

(** X13: a project that was just created can be opened again, unless its
    log file is the registry itself: opening its root without keywords
    returns the very project that creation returned, with the same
    attributes, root, run directories and log; and, as always, the log then
    holds the common attributes only. *)
Theorem create_then_reopen
    (rt : string) (kw : _ProjectInit.kwargs) (w w1 : world) (p : Project.t) :
  ¬ present w (abspath w (pathlib.parse rt)) →
  Project.__init__ rt kw w = (Ok p, w1) →
  key w Project.database ≠ key w (RunLog._path (Project.log p)) →
  ∃ w2, Project.__init__ rt _ProjectInit.no_kwargs w1 = (Ok p, w2) ∧
        holds w2 (Project.log p) (common (Project._attrs p)).
Proof.
  intros Hfresh Hinit Hne.
  apply fresh_init_inv in Hinit
    as (logname & Hln & Hp & Hcwd & Hpath & Hdirs & Hholds & reg & Hreg
        & _ & Hsingle); [|done].
  specialize (Hsingle Hne). subst reg.
  set (path := abspath w (pathlib.parse rt)) in *.
  set (attrs := _ProjectInit.__init__ (pathlib.to_str path) kw) in *.
  assert (_ProjectInit.a_root attrs = pathlib.to_str path) as Hroot by done.
  destruct (Project_reopen_value rt w1
              {[ pathlib.to_str path := _ProjectInit.to_json attrs ]}
              (_ProjectInit.to_json attrs) (JObj (common attrs)) attrs logname)
    as (w2 & Hopen & Hh).
  - rewrite (abspath_cwd w w1) by done. destruct Hpath as [m Hm]. by eexists.
  - done.
  - rewrite (abspath_cwd w w1) by done. fold path. apply lookup_singleton_eq.
  - apply of_json_to_json.
  - rewrite (abspath_cwd w w1), Hroot by done. by rewrite Hp in Hdirs.
  - done.
  - rewrite !(abspath_cwd w w1), Hroot by done. rewrite Hp in Hholds.
    exact Hholds.
  - exists w2. rewrite !(abspath_cwd w w1), Hroot in Hopen, Hh by done.
    rewrite Hp. split; [exact Hopen | exact Hh].
Qed.

Lemma create_then_reopen_witness :
  ∃ w2,
    Project.__init__ "/p" _ProjectInit.no_kwargs
      (Project.__init__ "/p"
         (_ProjectInit.Kwargs (Some ["a"; "b"]) None None None None)
         empty_world).2
      = (Ok demo_project, w2) ∧
    holds w2 (Project.log demo_project)
      (common (Project._attrs demo_project)).
Proof.
  apply (create_then_reopen "/p"
           (_ProjectInit.Kwargs (Some ["a"; "b"]) None None None None)
           empty_world).
  - intros [n Hn]. vm_compute in Hn. done.
  - vm_compute. reflexivity.
  - vm_compute. done.
Defined.

(** ** Selecting run directories *)

Lemma joinpath_empty (p : PurePath) : p // "" = p.
Proof.
  unfold pathlib.joinpath. simpl. rewrite app_nil_r. by destruct p.
Qed.

Lemma branch_of_rundir (root : PurePath) (b rundir : string) :
  is_segment b = true → is_segment rundir = true →
  pathlib.name (pathlib.parent (root // b // rundir)) = b.
Proof.
  intros Hb Hr. rewrite parent_joinpath_segment by done.
  rewrite joinpath_segment by done. unfold pathlib.name.
  cbn [pathlib.parts]. by rewrite last_last.
Qed.

Lemma filter_rundirs (root : PurePath) (rundir : string)
    (subset bs : list string) :
  is_segment rundir = true →
  Forall (λ b, is_segment b = true) bs →
  List.filter
    (λ d, bool_decide (pathlib.name (pathlib.parent d) ∈ subset))
    ((λ b, root // b // rundir) <$> bs) =
  (λ b, root // b // rundir) <$> filter (λ b, b ∈ subset) bs.
Proof.
  intros Hr. induction 1 as [|b bs Hb _ IH]; [done|].
  rewrite fmap_cons. cbn [List.filter].
  rewrite branch_of_rundir by done. rewrite filter_cons.
  case_bool_decide as Hin.
  - rewrite decide_True by done. by rewrite fmap_cons, IH.
  - by rewrite decide_False by done.
Qed.

(** X14: with no subset the operations of a project work on all its run
    directories.  In a project with branches, where the branches and the
    run-directory name are single segments, a subset selects exactly the
    run directories of the branches it names, in the order of the
    branches; names that are no branch select nothing.  In a project
    without branches a subset selects the one run directory only if it
    names the directory of the project root. *)
Theorem get_rundirs_selects
    (self : Project.t) (attrs : _ProjectInit.t) (root : PurePath)
    (subset : list string) :
  Project._directories self = rundirs_of attrs root →
  is_segment (_ProjectInit.rundir attrs) = true →
  Forall (λ b, is_segment b = true) (_ProjectInit.branches attrs) →
  Project._get_rundirs self [] = Project._directories self ∧
  (subset ≠ [] → _ProjectInit.branches attrs ≠ [] →
   Project._get_rundirs self subset =
     (λ b, root // b // _ProjectInit.rundir attrs)
       <$> filter (λ b, b ∈ subset) (_ProjectInit.branches attrs)) ∧
  (subset ≠ [] → _ProjectInit.branches attrs = [] →
   Project._get_rundirs self subset =
     if decide (pathlib.name root ∈ subset)
     then Project._directories self else []).
Proof.
  intros Hdirs Hr Hbs. split; [done|]. split.
  - intros Hs Hne. unfold Project._get_rundirs, Project.directories.
    destruct subset as [|s subset]; [done|]. rewrite Hdirs.
    unfold rundirs_of, Project.branches_or_blank.
    destruct (_ProjectInit.branches attrs) as [|b bs] eqn:Hb; [done|].
    by apply filter_rundirs.
  - intros Hs He. unfold Project._get_rundirs, Project.directories.
    destruct subset as [|s subset]; [done|]. rewrite Hdirs.
    unfold rundirs_of, Project.branches_or_blank. rewrite He.
    cbn [fmap list_fmap List.filter]. rewrite joinpath_empty.
    rewrite parent_joinpath_segment by done.
    case_bool_decide; by case_decide.
Qed.

Lemma get_rundirs_selects_witness :
  Project._get_rundirs demo_project [] = Project._directories demo_project ∧
  Project._get_rundirs demo_project ["b"; "c"] =
    (λ b, pathlib.parse "/p" // b // _ProjectInit.rundir demo_attrs)
      <$> filter (λ b, b ∈ ["b"; "c"]) (_ProjectInit.branches demo_attrs).
Proof.
  destruct (get_rundirs_selects demo_project demo_attrs (pathlib.parse "/p")
              ["b"; "c"]) as (H1 & H2 & _).
  - reflexivity.
  - reflexivity.
  - by repeat constructor.
  - split; [exact H1|]. by apply H2.
Defined.

(** * Further properties of the run directories *)

Import pathlib.

(** ** Places that are apart *)

Lemma apart_sym (a b : list string) : apart a b → apart b a.
Proof. by intros [? ?]. Qed.

Lemma apart_app (a b x y : list string) :
  apart a b → apart (a ++ x)%list (b ++ y)%list.
Proof.
  intros [Hab Hba]. split; intros H.
  - destruct (prefix_weak_total a b (b ++ y)%list) as [?|?]; try done.
    + etrans; [|exact H]. by apply prefix_app_r.
    + by apply prefix_app_r.
  - destruct (prefix_weak_total a b (a ++ x)%list) as [?|?]; try done.
    + by apply prefix_app_r.
    + etrans; [|exact H]. by apply prefix_app_r.
Qed.

Lemma apart_siblings (d : list string) (s t : string) :
  s ≠ t → apart (d ++ [s])%list (d ++ [t])%list.
Proof.
  intros Hst. split; intros H; apply prefix_app_inv in H;
    apply prefix_cons_inv_1 in H; congruence.
Qed.

Lemma apart_not_nil (a b : list string) : apart a b → a ≠ [].
Proof. intros [H _] ->. apply H, prefix_nil. Qed.

Lemma apart_removelast (a b : list string) :
  apart a b → ¬ a `prefix_of` removelast b.
Proof.
  intros [H _] Hp. apply H. etrans; [exact Hp|].
  destruct b as [|x b] using rev_ind; [done|].
  rewrite removelast_last. by apply prefix_app_r.
Qed.

(** A change at [p] is not seen at a place apart from [p]. *)
Lemma resolve_set_node_apart (p q : list string) (v : option node) (n : node) :
  apart p q → resolve q (set_node p v n) = resolve q n.
Proof.
  revert q n. induction p as [|s p IH]; intros q n [Hpq Hqp].
  - destruct Hpq. apply prefix_nil.
  - destruct n as [c|m0]; [done|]. cbn [set_node].
    destruct q as [|t q]; [destruct Hqp; apply prefix_nil|].
    cbn [resolve]. destruct (decide (t = s)) as [->|Hts].
    + rewrite lookup_partial_alter_eq.
      assert (apart p q) as Hap.
      { split; intros H; [apply Hpq | apply Hqp]; by apply prefix_cons. }
      destruct p as [|s' p]; [destruct Hap as [Hap _]; destruct Hap; apply prefix_nil|].
      destruct (m0 !! s) as [c|]; [|done]. simpl fmap. by apply IH.
    + by rewrite lookup_partial_alter_ne.
Qed.

(** What is missing stays missing when an entry is removed. *)
Lemma resolve_remove_noent (p q : list string) (n : node) :
  resolve q n = NoEnt → resolve q (set_node p None n) = NoEnt.
Proof.
  revert q n. induction p as [|s p IH]; intros q n H; [done|].
  destruct n as [c|m0]; [done|]. cbn [set_node].
  destruct q as [|t q]; [done|]. cbn [resolve] in *.
  destruct (decide (t = s)) as [->|Hts].
  - rewrite lookup_partial_alter_eq.
    destruct (m0 !! s) as [c|]; destruct p as [|s' p]; try done.
    simpl fmap. by apply IH.
  - by rewrite lookup_partial_alter_ne.
Qed.

Lemma shrinks_refl (ks : list (list string)) (w : world) : shrinks ks w w.
Proof. split; [done|]. intros q. by repeat split. Qed.

Lemma shrinks_cons (k : list string) (ks : list (list string))
    (w w1 w' : world) :
  shrinks [k] w w1 → shrinks ks w1 w' → shrinks (k :: ks) w w'.
Proof.
  intros [Hc1 H1] [Hc2 H2]. split; [congruence|]. intros q.
  destruct (H1 q) as (Hn1 & Hf1 & Ha1). destruct (H2 q) as (Hn2 & Hf2 & Ha2).
  rewrite (key_cwd w w1 q Hc1) in Hf2, Ha2.
  split; [auto|]. split.
  - intros Hks. apply Forall_cons in Hks as [Hk Hks].
    destruct Hf1 as [Hfile1 Hdir1]; [by apply Forall_singleton|].
    destruct (Hf2 Hks) as [Hfile2 Hdir2]. split; auto.
  - intros Hks. apply Forall_cons in Hks as [Hk Hks].
    rewrite (Ha2 Hks). by apply Ha1, Forall_singleton.
Qed.

(** Removing the entry at [p] shrinks the world by that place. *)
Lemma put_none_shrinks (w : world) (p : PurePath) :
  shrinks [key w p] w (put w p None).
Proof.
  split; [done|]. intros q. unfold stat, dir_at, stat.
  rewrite !key_put. cbn [put tree]. split.
  - apply resolve_remove_noent.
  - split.
    + intros Hk. rewrite Forall_singleton in Hk. split.
      * intros x Hx. rewrite resolve_set_node_frame; [done..|].
        intros m. by rewrite Hx.
      * intros [m Hm]. by eapply resolve_set_node_keeps_dir.
    + intros Hk. rewrite Forall_singleton in Hk.
      by apply resolve_set_node_apart.
Qed.

Lemma keys_put (w : world) (p : PurePath) (v : option node)
    (ps : list PurePath) :
  key (put w p v) <$> ps = key w <$> ps.
Proof.
  induction ps as [|q ps IH]; [done|].
  cbn [fmap list_fmap]. rewrite key_put. by f_equal.
Qed.

(** ** Removing directories *)

(** Directories that are apart from one another can be removed one after
    the other: the loop returns, none of them is left, and the world has
    shrunk by them alone. *)
Lemma rmtree_all (paths : list PurePath) (w : world) :
  ForallOrdPairs apart (key w <$> paths) →
  Forall (dir_at w) paths →
  Forall (λ p, key w p ≠ []) paths →
  ∃ w', for_each rmtree paths w = (Ok tt, w') ∧
        Forall (λ p, stat w' p = NoEnt) paths ∧
        shrinks (key w <$> paths) w w'.
Proof.
  revert w. induction paths as [|p ps IH]; intros w Hap Hdirs Hne.
  - exists w. split; [done|]. split; [done|]. apply shrinks_refl.
  - cbn [fmap list_fmap] in Hap. inversion Hap as [|? ? Hp Hps]; subst.
    apply Forall_cons in Hdirs as [[m Hm] Hdirs].
    apply Forall_cons in Hne as [Hk Hne].
    assert (rmtree p w = (Ok tt, put w p None)) as Hrm.
    { unfold rmtree. rewrite Hm. by destruct (key w p). }
    pose proof (put_none_shrinks w p) as Hsh.
    set (w1 := put w p None) in *.
    assert (∀ q, key w1 q = key w q) as Hkey by (intros q; apply key_put).
    destruct (IH w1) as (w' & Hloop & Hgone & Hsh').
    { unfold w1. by rewrite keys_put. }
    { rewrite Forall_forall in Hdirs. apply Forall_forall. intros q Hq.
      destruct Hsh as [_ Hsh]. destruct (Hsh q) as (_ & Hf & _).
      apply Hf; [|by apply Hdirs].
      apply Forall_singleton. rewrite Forall_forall in Hp.
      apply (Hp (key w q)). by apply list_elem_of_fmap_2. }
    { eapply Forall_impl; [exact Hne|]. intros q. cbn beta. by rewrite Hkey. }
    exists w'. split; [|split].
    + cbn [for_each]. rewrite bind_run, Hrm. exact Hloop.
    + apply Forall_cons. split; [|done].
      destruct Hsh' as [_ Hsh']. apply (Hsh' p).
      unfold w1, stat. rewrite key_put. cbn [put tree].
      destruct (resolve_parent (key w p) (tree w) (Dir m) Hk Hm) as [m' Hm'].
      rewrite <- (app_nil_r (key w p)) at 1.
      apply resolve_set_node_removed; eauto.
    + cbn [fmap list_fmap]. eapply shrinks_cons; [exact Hsh|].
      unfold w1 in Hsh'. by rewrite keys_put in Hsh'.
Qed.

Lemma apart_pairs_app (l1 l2 : list (list string)) :
  ForallOrdPairs apart l1 → ForallOrdPairs apart l2 →
  (∀ a b, a ∈ l1 → b ∈ l2 → apart a b) →
  ForallOrdPairs apart (l1 ++ l2)%list.
Proof.
  intros H1 H2 H. induction l1 as [|a l1 IH]; [done|].
  inversion H1 as [|? ? Ha Hl1]; subst.
  rewrite <- app_comm_cons. constructor.
  - apply Forall_app. split; [done|].
    apply Forall_forall. intros b Hb. apply H; [by left | done].
  - apply IH; [done|]. intros a' b Ha' Hb. apply H; [by right | done].
Qed.

(** In a list of places that are pairwise apart, two members are the same
    place or apart. *)
Lemma apart_pairs_elem (l : list (list string)) (a b : list string) :
  ForallOrdPairs apart l → a ∈ l → b ∈ l → a = b ∨ apart a b.
Proof.
  intros H. induction H as [|x l Hx Hl IH]; intros Ha Hb.
  - by apply elem_of_nil in Ha.
  - rewrite Forall_forall in Hx.
    apply elem_of_cons in Ha as [->|Ha]; apply elem_of_cons in Hb as [->|Hb].
    + by left.
    + right. by apply Hx.
    + right. by apply apart_sym, Hx.
    + by apply IH.
Qed.

Lemma siblings_apart (d : list string) (ks : list string) :
  NoDup ks → ForallOrdPairs apart ((λ k, d ++ [k])%list <$> ks).
Proof.
  induction 1 as [|k ks Hk Hks IH]; [constructor|].
  cbn [fmap list_fmap]. constructor; [|done].
  apply Forall_fmap, Forall_forall. intros k' Hk'. cbn.
  apply apart_siblings. by intros ->.
Qed.

(** ** Listing a directory *)

Lemma key_child (w : world) (d : PurePath) (k : string) :
  key w (mk (root d) (parts d ++ [k])) = (key w d ++ [k])%list.
Proof.
  unfold key. cbn [root parts]. destruct (root d); [|done].
  by rewrite app_assoc.
Qed.

Lemma glob_run (fnmatch : string → string → bool) (d : PurePath)
    (pattern : string) (w : world) :
  pattern ≠ "" →
  glob fnmatch d pattern w = (Ok (globbed fnmatch w pattern d), w).
Proof.
  intros Hp. unfold globbed, glob. destruct pattern as [|c s]; [done|].
  by destruct (stat w d) as [[?|?]| |].
Qed.

Lemma filter_fst_notin {V} (g : string * V → bool) (l : list (string * V))
    (k : string) :
  k ∉ l.*1 → k ∉ (List.filter g l).*1.
Proof.
  induction l as [|a l IH]; [done|]. cbn [fmap list_fmap List.filter].
  intros H. apply not_elem_of_cons in H as [Hne H].
  destruct (g a); [|by apply IH]. cbn [fmap list_fmap].
  apply not_elem_of_cons. split; [done | by apply IH].
Qed.

Lemma filter_fst_NoDup {V} (g : string * V → bool) (l : list (string * V)) :
  NoDup l.*1 → NoDup (List.filter g l).*1.
Proof.
  induction l as [|a l IH]; [done|]. cbn [fmap list_fmap List.filter].
  intros H. apply NoDup_cons in H as [Ha H].
  destruct (g a); [|by apply IH]. cbn [fmap list_fmap].
  apply NoDup_cons. split; [by apply filter_fst_notin | by apply IH].
Qed.

(** What [glob] yields are the entries of the directory whose names
    match. *)
Lemma elem_of_globbed (fnmatch : string → string → bool) (w : world)
    (pattern : string) (d p : PurePath) :
  p ∈ globbed fnmatch w pattern d ↔
  pattern ≠ "" ∧
  ∃ m k x, stat w d = Found (Dir m) ∧ m !! k = Some x ∧
           fnmatch k pattern = true ∧ p = mk (root d) (parts d ++ [k]).
Proof.
  unfold globbed, glob. destruct pattern as [|c s].
  { split; [by intros H%elem_of_nil | by intros [? _]]. }
  destruct (stat w d) as [[?|m]| |];
    try (split; [by intros H%elem_of_nil | by intros (_ & ? & ? & ? & ? & _)]).
  rewrite list_elem_of_fmap. split.
  - intros ([k x] & -> & Hin). split; [done|].
    apply list_elem_of_In, filter_In in Hin as [Hin Hm].
    apply list_elem_of_In, elem_of_map_to_list in Hin. by exists m, k, x.
  - intros (_ & m' & k & x & [= <-] & Hk & Hm & ->).
    exists (k, x). split; [done|].
    apply list_elem_of_In, filter_In. split; [|done].
    by apply list_elem_of_In, elem_of_map_to_list.
Qed.

Lemma globbed_keys (fnmatch : string → string → bool) (w : world)
    (pattern : string) (d : PurePath) :
  ∃ ks, NoDup ks ∧
        key w <$> globbed fnmatch w pattern d
        = (λ k, key w d ++ [k])%list <$> ks.
Proof.
  unfold globbed, glob. destruct pattern as [|c s].
  { exists []. split; [constructor | done]. }
  destruct (stat w d) as [[?|m]| |];
    try (exists []; split; [constructor | done]).
  exists (List.filter (λ kv, fnmatch kv.1 (String c s)) (map_to_list m)).*1.
  split; [apply filter_fst_NoDup, NoDup_fst_map_to_list|].
  rewrite <- !list_fmap_compose. apply list_fmap_ext.
  intros i [k x] _. cbn. apply key_child.
Qed.

Lemma globbed_apart (fnmatch : string → string → bool) (w : world)
    (pattern : string) (d : PurePath) :
  ForallOrdPairs apart (key w <$> globbed fnmatch w pattern d).
Proof.
  destruct (globbed_keys fnmatch w pattern d) as (ks & Hks & ->).
  by apply siblings_apart.
Qed.

(** The listing of all selected run directories. *)
Lemma glob_all_run (fnmatch : string → string → bool) (name : string)
    (rundirs : list PurePath) (w : world) :
  name ≠ "" →
  mapM (λ rundir, glob fnmatch rundir name) rundirs w =
    (Ok (globbed fnmatch w name <$> rundirs), w).
Proof.
  intros Hn. induction rundirs as [|d ds IH]; [done|].
  cbn [mapM]. rewrite (bind_ok _ _ _ _ _ (glob_run fnmatch d name w Hn)).
  by rewrite (bind_ok _ _ _ _ _ IH).
Qed.

Lemma glob_all_empty_pattern (fnmatch : string → string → bool)
    (d : PurePath) (ds : list PurePath) (w : world) :
  mapM (λ rundir, glob fnmatch rundir "") (d :: ds) w =
    (Raise (ValueError "Unacceptable pattern"), w).
Proof. reflexivity. Qed.

Lemma elem_of_glob_all (fnmatch : string → string → bool) (w : world)
    (name : string) (rundirs : list PurePath) (p : PurePath) :
  p ∈ listing fnmatch w name rundirs ↔
  ∃ d, d ∈ rundirs ∧ p ∈ globbed fnmatch w name d.
Proof.
  unfold listing. induction rundirs as [|d ds IH].
  - split; [by intros H%elem_of_nil | by intros (? & H%elem_of_nil & _)].
  - cbn [fmap list_fmap List.concat]. rewrite elem_of_app, IH. split.
    + intros [H|(d' & Hd' & H)]; [exists d | exists d'];
        (split; [|done]); [by left | by right].
    + intros (d' & [->|Hd']%elem_of_cons & H); [by left | right; eauto].
Qed.

Lemma glob_all_apart (fnmatch : string → string → bool) (w : world)
    (name : string) (rundirs : list PurePath) :
  ForallOrdPairs apart (key w <$> rundirs) →
  ForallOrdPairs apart (key w <$> listing fnmatch w name rundirs).
Proof.
  induction rundirs as [|d ds IH]; [constructor|].
  unfold listing in *. cbn [fmap list_fmap List.concat]. intros H.
  inversion H as [|? ? Hd Hds]; subst. rewrite fmap_app.
  apply apart_pairs_app; [apply globbed_apart | by apply IH |].
  intros a b Ha Hb.
  apply list_elem_of_fmap in Ha as (p & -> & Hp).
  apply list_elem_of_fmap in Hb as (q & -> & Hq).
  apply elem_of_globbed in Hp as (_ & m & k & x & _ & _ & _ & ->).
  apply elem_of_glob_all in Hq as (d' & Hd' & Hq).
  apply elem_of_globbed in Hq as (_ & m' & k' & x' & _ & _ & _ & ->).
  rewrite !key_child. apply apart_app.
  rewrite Forall_forall in Hd. apply Hd. by apply list_elem_of_fmap_2.
Qed.

(** What [glob] yields is there. *)
Lemma child_stat (w : world) (d : PurePath) (m : gmap string node) (k : string) :
  stat w d = Found (Dir m) →
  stat w (mk (root d) (parts d ++ [k])) =
    match m !! k with Some c => Found c | None => NoEnt end.
Proof.
  intros H. unfold stat in *. rewrite key_child. by apply resolve_app.
Qed.

(** ** The check before a removal *)

Lemma remove_check_cons (p : PurePath) (paths : list PurePath) (w : world) :
  Project._remove_paths_check (p :: paths) w =
    match stat w p with
    | Found (Dir _) => Project._remove_paths_check paths w
    | Found (File _) =>
        (Raise (PathOperationError "not a directory" (to_str p)), w)
    | _ => (Raise (PathOperationError "does not exist" (to_str p)), w)
    end.
Proof.
  unfold Project._remove_paths_check. cbn [for_each].
  unfold mbind, M_bind, mret, M_ret, exists_, is_dir, raise. cbv beta.
  destruct (stat w p) as [[c|m]| |] eqn:Hs; cbn [negb]; cbv beta iota;
    rewrite ?Hs; reflexivity.
Qed.

Lemma remove_check_dirs (paths : list PurePath) (w : world) :
  Forall (dir_at w) paths →
  Project._remove_paths_check paths w = (Ok (λ path, rmtree path), w).
Proof.
  induction 1 as [|p paths [m Hm] _ IH]; [done|].
  by rewrite remove_check_cons, Hm.
Qed.

(** The check raises for the first path that is not a directory, and
    leaves the world alone. *)
Lemma remove_check_raise_inv (paths : list PurePath) (w w' : world)
    (e : exn) :
  Project._remove_paths_check paths w = (Raise e, w') →
  w' = w ∧
  ∃ p, p ∈ paths ∧
       ((¬ present w p ∧
         e = PathOperationError "does not exist" (to_str p)) ∨
        (present w p ∧ ¬ dir_at w p ∧
         e = PathOperationError "not a directory" (to_str p))).
Proof.
  induction paths as [|p paths IH]; [by intros [= ]|].
  rewrite remove_check_cons. unfold present, dir_at.
  destruct (stat w p) as [[c|m]| |] eqn:Hs.
  - intros [= <- <-]. split; [done|]. exists p. split; [by left|].
    right. split; [eauto|]. split; [intros [? ?]; congruence | done].
  - intros H. destruct (IH H) as (-> & p' & Hin & H'). split; [done|].
    exists p'. split; [by right | done].
  - intros [= <- <-]. split; [done|]. exists p. split; [by left|].
    left. split; [intros [? ?]; congruence | done].
  - intros [= <- <-]. split; [done|]. exists p. split; [by left|].
    left. split; [intros [? ?]; congruence | done].
Qed.

Lemma remove_check_not_dir (paths : list PurePath) (w : world) :
  Exists (λ p, ¬ dir_at w p) paths →
  ∃ e, Project._remove_paths_check paths w = (Raise e, w).
Proof.
  induction paths as [|p paths IH]; intros H; [by apply Exists_nil in H|].
  rewrite remove_check_cons.
  destruct (stat w p) as [[c|m]| |] eqn:Hs; eauto.
  apply Exists_cons in H as [H|H]; [|by apply IH].
  destruct H. unfold dir_at. eauto.
Qed.

Lemma for_each_raise_inv {A B} (f : A → M B) (l : list A) (w w' : world)
    (e : exn) :
  for_each f l w = (Raise e, w') →
  ∃ x w0, x ∈ l ∧ f x w0 = (Raise e, w').
Proof.
  revert w. induction l as [|x l IH]; intros w H; [done|].
  cbn [for_each] in H. rewrite bind_run in H.
  destruct (f x w) as [[b|e0] w1] eqn:Hx.
  - destruct (IH _ H) as (y & w0 & Hy & Hf). exists y, w0.
    split; [by right | done].
  - injection H as <- <-. exists x, w. split; [by left | done].
Qed.

Lemma rmtree_raises (p : PurePath) (w w' : world) (e : exn) :
  rmtree p w = (Raise e, w') → class_of e ≠ CPathOperationError.
Proof.
  unfold rmtree. destruct (stat w p) as [[c|m]| |]; try by intros [= <- _].
  destruct (key w p); by intros [= <- _].
Qed.

Lemma remove_check_ok_inv (paths : list PurePath) (w w' : world)
    (action : PurePath → M unit) :
  Project._remove_paths_check paths w = (Ok action, w') →
  w' = w ∧ action = (λ path, rmtree path) ∧ Forall (dir_at w) paths.
Proof.
  induction paths as [|p paths IH].
  - by intros [= <- <-].
  - rewrite remove_check_cons.
    destruct (stat w p) as [[c|m]| |] eqn:Hs; try done.
    intros H. destruct (IH H) as (-> & -> & Hd).
    split; [done|]. split; [done|]. constructor; [|done].
    unfold dir_at. eauto.
Qed.

Lemma is_name_segment (s : string) : is_name s = true → is_segment s = true.
Proof. unfold is_name. by intros [? _]%andb_true_iff. Qed.

Lemma is_pattern_not_empty (name : string) :
  is_pattern name = true → name ≠ "".
Proof. by intros H ->. Qed.

(** ** Removing the directories of a run *)

Section remove_paths.

Variable fnmatch : string → string → bool.
Variable w : world.
Variable name : string.
Variable rundirs : list PurePath.

Lemma listed_inv (p : PurePath) :
  p ∈ listing fnmatch w name rundirs →
  ∃ d m k x, d ∈ rundirs ∧ stat w d = Found (Dir m) ∧ m !! k = Some x ∧
             fnmatch k name = true ∧ p = mk (root d) (parts d ++ [k]) ∧
             stat w p = Found x ∧ key w p = (key w d ++ [k])%list.
Proof.
  intros H. apply elem_of_glob_all in H as (d & Hd & H).
  apply elem_of_globbed in H as (_ & m & k & x & Hm & Hk & Hf & ->).
  exists d, m, k, x. repeat (split; [done|]). split; [|apply key_child].
  by rewrite (child_stat w d m k Hm), Hk.
Qed.

Lemma listed (d : PurePath) (m : gmap string node) (k : string) (x : node) :
  name ≠ "" → d ∈ rundirs → stat w d = Found (Dir m) → m !! k = Some x →
  fnmatch k name = true →
  mk (root d) (parts d ++ [k]) ∈ listing fnmatch w name rundirs.
Proof.
  intros Hn Hd Hm Hk Hf. apply elem_of_glob_all. exists d. split; [done|].
  apply elem_of_globbed. split; [done|]. by exists m, k, x.
Qed.

Lemma listed_present : Forall (present w) (listing fnmatch w name rundirs).
Proof.
  apply Forall_forall. intros p Hp.
  destruct (listed_inv p Hp) as (d & m & k & x & _ & _ & _ & _ & _ & Hs & _).
  unfold present. eauto.
Qed.

(** A run directory is not at or below a listed entry, and what is apart
    from the run directories is apart from the listed entries. *)
Lemma listed_not_above (d : PurePath) :
  ForallOrdPairs apart (key w <$> rundirs) → d ∈ rundirs →
  Forall (λ k, ¬ k `prefix_of` key w d)
    (key w <$> listing fnmatch w name rundirs).
Proof.
  intros Hap Hd. apply Forall_fmap, Forall_forall. intros p Hp. cbn.
  destruct (listed_inv p Hp) as (d' & m & k & x & Hd' & _ & _ & _ & _ & _ & ->).
  destruct (apart_pairs_elem _ (key w d') (key w d) Hap) as [->|Ha];
    try by apply list_elem_of_fmap_2.
  - intros H%prefix_length. rewrite length_app in H. simpl in H. lia.
  - rewrite <- (app_nil_r (key w d)).
    by destruct (apart_app _ _ [k] [] Ha) as [H _].
Qed.

Lemma listed_apart (q : PurePath) :
  (∀ d, d ∈ rundirs → apart (key w d) (key w q)) →
  Forall (λ k, apart k (key w q)) (key w <$> listing fnmatch w name rundirs).
Proof.
  intros Hq. apply Forall_fmap, Forall_forall. intros p Hp. cbn.
  destruct (listed_inv p Hp) as (d' & m & k & x & Hd' & _ & _ & _ & _ & _ & ->).
  rewrite <- (app_nil_r (key w q)). by apply apart_app, Hq.
Qed.

Lemma listed_apart_sibling (d : PurePath) (k : string) :
  ForallOrdPairs apart (key w <$> rundirs) → d ∈ rundirs →
  fnmatch k name = false →
  Forall (λ k', apart k' (key w d ++ [k])%list)
    (key w <$> listing fnmatch w name rundirs).
Proof.
  intros Hap Hd Hk. apply Forall_fmap, Forall_forall. intros p Hp. cbn.
  destruct (listed_inv p Hp) as (d' & m & k' & x & Hd' & _ & _ & Hf & _ & _ & ->).
  destruct (apart_pairs_elem _ (key w d') (key w d) Hap) as [->|Ha];
    try by apply list_elem_of_fmap_2.
  - apply apart_siblings. intros ->. congruence.
  - by apply apart_app.
Qed.

(** The whole of [_remove_paths] once the listing is known. *)
Lemma remove_paths_run (self : Project.t) (subset : list string) :
  name ≠ "" →
  Project._get_rundirs self subset = rundirs →
  Project._remove_paths fnmatch self name subset w =
    match Project._remove_paths_check (listing fnmatch w name rundirs) w with
    | (Ok action, w1) =>
        match for_each action (listing fnmatch w name rundirs) w1 with
        | (Ok _, w2) => (Ok (listing fnmatch w name rundirs), w2)
        | (Raise e, w2) => (Raise e, w2)
        end
    | (Raise e, w1) => (Raise e, w1)
    end.
Proof.
  intros Hn Hr. unfold Project._remove_paths. rewrite Hr.
  rewrite (bind_ok _ _ _ _ _ (glob_all_run fnmatch name rundirs w Hn)).
  fold (listing fnmatch w name rundirs). rewrite bind_run.
  destruct (Project._remove_paths_check _ w) as [[action|e] w1]; [|done].
  rewrite bind_run. by destruct (for_each action _ w1) as [[[]|e] w2].
Qed.

End remove_paths.

(** X15: [_remove_paths] removes all or nothing as far as its check goes.
    A path operation error it raises is never the one for a path that
    does not exist, since the paths come from a listing, and it comes
    before any removal.  For a pattern that is matched against names, a
    matching file in one selected run directory makes the call raise the
    "not a directory" error with nothing removed, also not the matching
    directories.  When the selected run directories are apart from one
    another and every matching entry is a directory, the call returns:
    in each selected run directory the matching entries are gone and any
    other entry is as before, the run directories are still there, and
    whatever is apart from them is as before. *)
Theorem remove_paths_spec
    (fnmatch : string → string → bool) (self : Project.t) (name : string)
    (subset : list string) (w : world) :
  let rundirs := Project._get_rundirs self subset in
  (∀ msg p w',
     Project._remove_paths fnmatch self name subset w
       = (Raise (PathOperationError msg p), w') →
     msg = "not a directory" ∧ w' = w) ∧
  (is_pattern name = true →
   (∃ d m k c, d ∈ rundirs ∧ stat w d = Found (Dir m) ∧
               m !! k = Some (File c) ∧ fnmatch k name = true) →
   ∃ p, Project._remove_paths fnmatch self name subset w
          = (Raise (PathOperationError "not a directory" p), w)) ∧
  (is_pattern name = true →
   ForallOrdPairs apart (key w <$> rundirs) →
   (∀ d m k c, d ∈ rundirs → stat w d = Found (Dir m) →
               fnmatch k name = true → m !! k ≠ Some (File c)) →
   ∃ paths w',
     Project._remove_paths fnmatch self name subset w = (Ok paths, w') ∧
     cwd w' = cwd w ∧
     (∀ d k, d ∈ rundirs → dir_at w d → is_name k = true →
        stat w' (d // k) =
          if fnmatch k name then NoEnt else stat w (d // k)) ∧
     (∀ d, d ∈ rundirs → dir_at w d → dir_at w' d) ∧
     (∀ q, (∀ d, d ∈ rundirs → apart (key w d) (key w q)) →
           stat w' q = stat w q)).
Proof.
  intros rundirs.
  set (paths := listing fnmatch w name rundirs).
  assert (∀ e w', Project._remove_paths_check paths w = (Raise e, w') →
            w' = w ∧ ∃ p, e = PathOperationError "not a directory" p) as Hraise.
  { intros e w' H.
    apply remove_check_raise_inv in H as (-> & p & Hp & [[Hn _]|(_ & _ & ->)]).
    - destruct Hn. pose proof (listed_present fnmatch w name rundirs) as Hall.
      rewrite Forall_forall in Hall. by apply Hall.
    - eauto. }
  split; [|split].
  - intros msg p w' H. destruct (decide (name = "")) as [->|Hn].
    + unfold Project._remove_paths in H. fold rundirs in H.
      destruct rundirs as [|d ds]; [by vm_compute in H|].
      by rewrite (bind_raise _ _ _ _ _ (glob_all_empty_pattern fnmatch d ds w)) in H.
    + rewrite (remove_paths_run fnmatch w name rundirs self subset Hn eq_refl) in H.
      fold paths in H.
      destruct (Project._remove_paths_check paths w) as [[action|e] w1] eqn:Hc.
      * apply remove_check_ok_inv in Hc as (-> & -> & _).
        destruct (for_each _ paths w) as [[[]|e] w2] eqn:Hloop; [done|].
        injection H as -> ->.
        apply for_each_raise_inv in Hloop as (x & w0 & _ & Hx).
        by apply rmtree_raises in Hx.
      * injection H as -> ->.
        by destruct (Hraise _ _ eq_refl) as (-> & p' & [= -> _]).
  - intros Hpat (d & m & k & c & Hd & Hm & Hk & Hf).
    pose proof (is_pattern_not_empty name Hpat) as Hn.
    rewrite (remove_paths_run fnmatch w name rundirs self subset Hn eq_refl).
    fold paths.
    destruct (remove_check_not_dir paths w) as [e He].
    { apply Exists_exists. exists (mk (root d) (parts d ++ [k])).
      split; [by eapply listed|]. intros [m' Hm']. unfold stat in *.
      rewrite key_child, (resolve_app _ _ _ _ Hm), Hk in Hm'. done. }
    rewrite He. destruct (Hraise _ _ He) as (_ & p & ->). eauto.
  - intros Hpat Hap Hfiles.
    pose proof (is_pattern_not_empty name Hpat) as Hn.
    rewrite (remove_paths_run fnmatch w name rundirs self subset Hn eq_refl).
    fold paths.
    assert (Forall (dir_at w) paths) as Hdirs.
    { apply Forall_forall. intros p Hp.
      destruct (listed_inv fnmatch w name rundirs p Hp)
        as (d & m & k & x & Hd & Hm & Hk & Hf & _ & Hs & _).
      destruct x as [c|m']; [|unfold dir_at; eauto].
      by destruct (Hfiles d m k c). }
    rewrite (remove_check_dirs paths w Hdirs).
    destruct (rmtree_all paths w) as (w' & Hloop & Hgone & Hc & Hsh).
    { by apply glob_all_apart. }
    { done. }
    { apply Forall_forall. intros p Hp.
      destruct (listed_inv fnmatch w name rundirs p Hp)
        as (d & m & k & x & _ & _ & _ & _ & _ & _ & ->).
      by destruct (key w d). }
    change (for_each (λ path, rmtree path) paths w)
      with (for_each rmtree paths w).
    rewrite Hloop. exists paths, w'. split; [done|]. split; [done|].
    rewrite Forall_forall in Hgone. split; [|split].
    + intros d k Hd [m Hm] Hk%is_name_segment.
      rewrite (joinpath_segment d k Hk).
      destruct (fnmatch k name) eqn:Hf.
      * destruct (m !! k) as [x|] eqn:Hx.
        -- apply Hgone. by eapply listed.
        -- apply Hsh. by rewrite (child_stat w d m k Hm), Hx.
      * apply Hsh. rewrite key_child. by apply listed_apart_sibling.
    + intros d Hd Hdir. destruct (Hsh d) as (_ & H & _).
      apply H; [|done]. by apply listed_not_above.
    + intros q Hq. apply Hsh. by apply listed_apart.
Qed.

Lemma remove_paths_spec_witness :
  (∃ p, Project._remove_paths literal_match demo_project "run1" []
          (demo_world ∅ {[ "run1" := File JNull ]} {[ "run1" := Dir ∅ ]})
        = (Raise (PathOperationError "not a directory" p),
           demo_world ∅ {[ "run1" := File JNull ]} {[ "run1" := Dir ∅ ]})) ∧
  (∃ paths w',
     Project._remove_paths literal_match demo_project "run1" [] demo_world_run1
       = (Ok paths, w') ∧
     stat w' (pathlib.parse "/p/a/runs" // "run1") = NoEnt ∧
     dir_at w' (pathlib.parse "/p/a/runs") ∧
     stat w' log_path = stat demo_world_run1 log_path).
Proof.
  split.
  - destruct (remove_paths_spec literal_match demo_project "run1" []
                (demo_world ∅ {[ "run1" := File JNull ]} {[ "run1" := Dir ∅ ]}))
      as (_ & H & _).
    apply H; [reflexivity|].
    exists (pathlib.parse "/p/a/runs"), {[ "run1" := File JNull ]}, "run1", JNull.
    split; [by left|]. split; [vm_compute; reflexivity|].
    split; reflexivity.
  - destruct (remove_paths_spec literal_match demo_project "run1" []
                demo_world_run1) as (_ & _ & H).
    destruct H as (paths & w' & Hrun & _ & Hin & Hdir & Hout).
    + reflexivity.
    + vm_compute. repeat constructor; intros [k Hk]; simplify_eq.
    + intros d m k c Hd Hm Hk. apply String.eqb_eq in Hk as ->.
      apply elem_of_cons in Hd as [->|Hd];
        [|apply list_elem_of_singleton in Hd as ->];
        vm_compute in Hm; injection Hm as <-; vm_compute; discriminate.
    + exists paths, w'. split; [exact Hrun|]. split; [|split].
      * apply (Hin (pathlib.parse "/p/a/runs") "run1");
          [by left | eexists; vm_compute; reflexivity | reflexivity].
      * apply Hdir; [by left | eexists; vm_compute; reflexivity].
      * apply Hout. intros d Hd.
        apply elem_of_cons in Hd as [->|Hd];
          [|apply list_elem_of_singleton in Hd as ->];
          vm_compute; split; intros [k Hk]; simplify_eq.
Defined.

(** ** Renaming directories *)

Lemma rename_check_cons (old new : PurePath)
    (pairs : list (PurePath * PurePath)) (w : world) :
  Project._rename_paths_check ((old, new) :: pairs) w =
    match stat w old with
    | Found (Dir _) =>
        match stat w new with
        | Found _ =>
            (Raise (PathOperationError "would overwrite" (to_str new)), w)
        | _ => Project._rename_paths_check pairs w
        end
    | Found (File _) =>
        (Raise (PathOperationError "not a directory" (to_str old)), w)
    | _ => (Raise (PathOperationError "does not exist" (to_str old)), w)
    end.
Proof.
  unfold Project._rename_paths_check. cbn [for_each].
  unfold mbind, M_bind, mret, M_ret, exists_, is_dir, raise. cbv beta.
  destruct (stat w old) as [[c|m]| |] eqn:Hs; cbn [negb]; cbv beta iota;
    rewrite ?Hs; try reflexivity.
  cbn [negb]. cbv beta iota.
  destruct (stat w new) as [x| |]; reflexivity.
Qed.

Lemma rename_check_ok (pairs : list (PurePath * PurePath)) (w : world) :
  Forall (λ pair, dir_at w pair.1 ∧ ¬ present w pair.2) pairs →
  Project._rename_paths_check pairs w = (Ok (λ old new, rename old new), w).
Proof.
  induction 1 as [|[old new] pairs [[m Hm] Hn] _ IH]; [done|].
  rewrite rename_check_cons. cbn [fst snd] in *. rewrite Hm.
  unfold present in Hn. destruct (stat w new) as [x| |]; [|done..].
  destruct Hn. eauto.
Qed.

Lemma rename_check_ok_inv (pairs : list (PurePath * PurePath)) (w w' : world)
    (action : PurePath → PurePath → M unit) :
  Project._rename_paths_check pairs w = (Ok action, w') →
  w' = w ∧ action = (λ old new, rename old new).
Proof.
  induction pairs as [|[old new] pairs IH].
  - by intros [= <- <-].
  - rewrite rename_check_cons.
    destruct (stat w old) as [[c|m]| |]; try done.
    by destruct (stat w new) as [x| |].
Qed.

(** The check raises for the first pair that is not fit, and leaves the
    world alone. *)
Lemma rename_check_raise_inv (pairs : list (PurePath * PurePath))
    (w w' : world) (e : exn) :
  Project._rename_paths_check pairs w = (Raise e, w') →
  w' = w ∧
  ∃ pair msg p, pair ∈ pairs ∧ e = PathOperationError msg p ∧
                (¬ dir_at w pair.1 ∨ present w pair.2).
Proof.
  induction pairs as [|[old new] pairs IH]; [by intros [= ]|].
  rewrite rename_check_cons. unfold present, dir_at.
  assert (∀ msg p,
            (¬ (∃ m, stat w old = Found (Dir m)) ∨ ∃ n, stat w new = Found n) →
            (@Raise (PurePath → PurePath → M unit)
               (PathOperationError msg p), w) = (Raise e, w') →
            w' = w ∧
            ∃ pair msg p, pair ∈ (old, new) :: pairs ∧
                          e = PathOperationError msg p ∧
                          (¬ (∃ m, stat w pair.1 = Found (Dir m)) ∨
                           ∃ n, stat w pair.2 = Found n)) as Hhere.
  { intros msg p Hbad [= <- <-]. split; [done|].
    exists (old, new), msg, p. split; [by left|]. by split. }
  destruct (stat w old) as [[c|m]| |] eqn:Hs;
    try (apply Hhere; left; intros [? ?]; congruence).
  destruct (stat w new) as [x| |] eqn:Hn;
    try (intros H; destruct (IH H) as (-> & pair & msg & p & Hin & H');
         split; [done|]; exists pair, msg, p; split; [by right | done]).
  apply Hhere. right. eauto.
Qed.

Lemma rename_raises (old new : PurePath) (w w' : world) (e : exn) :
  rename old new w = (Raise e, w') → class_of e ≠ CPathOperationError.
Proof.
  unfold rename. repeat case_match; by intros [= <- _].
Qed.

(** One renaming of a directory to a free place below a directory. *)
Lemma rename_step (old new : PurePath) (w : world) (x : node) :
  apart (key w old) (key w new) →
  stat w old = Found x →
  stat w new = NoEnt →
  dir_at w (pathlib.parent new) →
  ∃ w1, rename old new w = (Ok tt, w1) ∧
        cwd w1 = cwd w ∧
        stat w1 new = Found x ∧
        stat w1 old = NoEnt ∧
        (∀ q, apart (key w old) (key w q) → apart (key w new) (key w q) →
              stat w1 q = stat w q) ∧
        (∀ q, ¬ key w old `prefix_of` key w q →
              ¬ key w new `prefix_of` key w q →
              dir_at w q → dir_at w1 q).
Proof.
  intros Hap Ho Hn Hpar.
  exists (put (put w old None) new (Some x)).
  assert (key w old ≠ []) as Hko by (by eapply apart_not_nil).
  assert (key w new ≠ []) as Hkn by (by eapply apart_not_nil, apart_sym).
  assert (∃ m, resolve (removelast (key w new)) (tree w) = Found (Dir m))
    as [mp Hmp].
  { destruct Hpar as [m Hm]. unfold stat in Hm, Hn. rewrite key_parent in Hm.
    destruct (parts new); [congruence | eauto]. }
  split; [|split; [done|split; [|split; [|split]]]].
  - unfold rename. rewrite Ho, Hn.
    rewrite bool_decide_eq_false_2.
    2:{ intros Heq. destruct Hap as [Hap _]. apply Hap. by rewrite Heq. }
    rewrite bool_decide_eq_false_2 by apply Hap.
    destruct Hpar as [m Hm]. rewrite Hm. by destruct x.
  - unfold stat. rewrite !key_put. cbn [put tree].
    apply resolve_set_node; [done|].
    eapply resolve_set_node_keeps_dir; [|exact Hmp].
    by apply apart_removelast.
  - unfold stat. rewrite !key_put. cbn [put tree].
    rewrite resolve_set_node_apart by (by apply apart_sym).
    unfold stat in Ho.
    destruct (resolve_parent _ _ _ Hko Ho) as [m Hm].
    rewrite <- (app_nil_r (key w old)) at 1.
    apply resolve_set_node_removed; eauto.
  - intros q Hqo Hqn. unfold stat. rewrite !key_put. cbn [put tree].
    by rewrite !resolve_set_node_apart.
  - intros q Hqo Hqn [m Hm]. unfold dir_at, stat in *.
    rewrite !key_put. cbn [put tree].
    destruct (resolve_set_node_keeps_dir (key w old) (key w q) None
                (tree w) m Hqo Hm) as [m1 Hm1].
    by eapply resolve_set_node_keeps_dir.
Qed.

(** The places a list of pairs names. *)
Lemma pair_keys_cwd (w w1 : world) (pairs : list (PurePath * PurePath)) :
  cwd w1 = cwd w →
  (pairs ≫= λ pair, [key w1 pair.1; key w1 pair.2]) =
  (pairs ≫= λ pair, [key w pair.1; key w pair.2]).
Proof.
  intros Hc. induction pairs as [|[o n] ps IH]; [done|].
  cbn [mbind list_bind]. cbn [fst snd].
  by rewrite IH, !(key_cwd w w1 _ Hc).
Qed.

(** Directories whose old and new places are all apart can be renamed one
    after the other. *)
Lemma rename_all (pairs : list (PurePath * PurePath)) (w : world) :
  ForallOrdPairs apart (pairs ≫= λ pair, [key w pair.1; key w pair.2]) →
  Forall (λ pair, dir_at w pair.1 ∧ stat w pair.2 = NoEnt ∧
                  dir_at w (pathlib.parent pair.2)) pairs →
  ∃ w', for_each (λ pair, rename pair.1 pair.2) pairs w = (Ok tt, w') ∧
        cwd w' = cwd w ∧
        Forall (λ pair, stat w' pair.2 = stat w pair.1 ∧
                        stat w' pair.1 = NoEnt) pairs ∧
        (∀ q, Forall (λ k, apart k (key w q))
                (pairs ≫= λ pair, [key w pair.1; key w pair.2]) →
              stat w' q = stat w q).
Proof.
  revert w. induction pairs as [|[o n] ps IH]; intros w Hap Hfit.
  - exists w. by repeat split.
  - cbn [mbind list_bind fst snd] in Hap. rewrite <- !app_comm_cons in Hap.
    cbn [app] in Hap.
    inversion Hap as [|? ? Ho Hap1]; subst.
    inversion Hap1 as [|? ? Hn Hrest]; subst.
    apply Forall_cons in Ho as [Hon Ho].
    apply Forall_cons in Hfit as [([m Hm] & Hfree & Hpar) Hfit].
    cbn [fst snd] in *.
    destruct (rename_step o n w (Dir m) Hon Hm Hfree Hpar)
      as (w1 & Hren & Hc & Hnew & Hold & Hframe & Hdirs).
    rewrite Forall_forall in Ho. rewrite Forall_forall in Hn.
    rewrite Forall_forall in Hfit.
    assert (∀ pair, pair ∈ ps →
              apart (key w o) (key w pair.1) ∧ apart (key w o) (key w pair.2) ∧
              apart (key w n) (key w pair.1) ∧ apart (key w n) (key w pair.2))
      as Hother.
    { intros pair Hin.
      assert (∀ k, k ∈ [key w pair.1; key w pair.2] →
                   k ∈ ps ≫= λ pair, [key w pair.1; key w pair.2]) as Hk.
      { intros k Hk. apply list_elem_of_bind. eauto. }
      repeat split; (apply Ho || apply Hn); apply Hk;
        rewrite !elem_of_cons; auto. }
    destruct (IH w1) as (w' & Hloop & Hc' & Hpost & Hframe').
    { by rewrite (pair_keys_cwd w w1 ps Hc). }
    { apply Forall_forall. intros pair Hin.
      destruct (Hfit pair Hin) as ([m' Hm'] & Hfree' & Hpar').
      destruct (Hother pair Hin) as (Ho1 & Ho2 & Hn1 & Hn2).
      split; [|split].
      - exists m'. by rewrite Hframe.
      - by rewrite Hframe.
      - apply Hdirs; [| |done]; rewrite key_parent;
          destruct (parts pair.2);
          (apply Ho2 || apply Hn2 || by apply apart_removelast). }
    rewrite (pair_keys_cwd w w1 ps Hc) in Hframe'.
    assert (∀ q, key w1 q = key w q) as Hkey
      by (intros q; by apply key_cwd).
    setoid_rewrite Hkey in Hframe'.
    exists w'. split; [|split; [congruence|split]].
    + cbn [for_each]. rewrite bind_run. cbv beta. cbn [fst snd].
      by rewrite Hren.
    + apply Forall_cons. split.
      * cbn [fst snd]. rewrite (Hframe' n), (Hframe' o).
        -- by rewrite Hm.
        -- apply Forall_forall. intros k Hk. by apply apart_sym, Ho.
        -- apply Forall_forall. intros k Hk. by apply apart_sym, Hn.
      * apply Forall_forall. intros pair Hin.
        rewrite Forall_forall in Hpost. destruct (Hpost pair Hin) as [-> ->].
        destruct (Hother pair Hin) as (Ho1 & Ho2 & Hn1 & Hn2).
        by rewrite Hframe.
    + intros q Hq. cbn [mbind list_bind fst snd] in Hq.
      rewrite <- !app_comm_cons in Hq. cbn [app] in Hq.
      apply Forall_cons in Hq as [Hqo Hq]. apply Forall_cons in Hq as [Hqn Hq].
      rewrite (Hframe' q Hq). by apply Hframe.
Qed.

(** ** Renaming the directories of a run *)

Section rename_paths.

Variable w : world.
Variables src dst : string.

Lemma rename_paths_run (self : Project.t) (subset : list string) :
  Project._rename_paths self src dst subset w =
    match Project._rename_paths_check
            (pairs_of src dst (Project._get_rundirs self subset)) w with
    | (Ok action, w1) =>
        match for_each (λ pair, action pair.1 pair.2)
                (pairs_of src dst (Project._get_rundirs self subset)) w1 with
        | (Ok _, w2) => (Ok (pairs_of src dst (Project._get_rundirs self subset)), w2)
        | (Raise e, w2) => (Raise e, w2)
        end
    | (Raise e, w1) => (Raise e, w1)
    end.
Proof.
  unfold Project._rename_paths. fold (pairs_of src dst (Project._get_rundirs self subset)).
  rewrite bind_run.
  destruct (Project._rename_paths_check _ w) as [[action|e] w1]; [|done].
  rewrite bind_run. by destruct (for_each _ _ w1) as [[[]|e] w2].
Qed.

Lemma pair_keys_inv (rundirs : list PurePath) (k : list string) :
  is_segment src = true → is_segment dst = true →
  k ∈ (pairs_of src dst rundirs ≫= λ pair, [key w pair.1; key w pair.2]) →
  ∃ d s, d ∈ rundirs ∧ (s = src ∨ s = dst) ∧ k = (key w d ++ [s])%list.
Proof.
  intros Hs Hd H. apply list_elem_of_bind in H as (pair & Hk & Hin).
  apply list_elem_of_fmap in Hin as (d & -> & Hin). cbn [fst snd] in Hk.
  rewrite !key_joinpath_segment in Hk by done.
  apply elem_of_cons in Hk as [->|Hk];
    [|apply list_elem_of_singleton in Hk as ->]; eauto 10.
Qed.

Lemma pair_keys_apart (rundirs : list PurePath) :
  is_segment src = true → is_segment dst = true → src ≠ dst →
  ForallOrdPairs apart (key w <$> rundirs) →
  ForallOrdPairs apart
    (pairs_of src dst rundirs ≫= λ pair, [key w pair.1; key w pair.2]).
Proof.
  intros Hs Hd Hne. induction rundirs as [|d ds IH]; [constructor|].
  cbn [fmap list_fmap]. intros H. inversion H as [|? ? Hhead Htail]; subst.
  unfold pairs_of. cbn [fmap list_fmap]. rewrite bind_cons. cbn [fst snd app].
  rewrite !key_joinpath_segment by done.
  rewrite Forall_forall in Hhead.
  assert (∀ s k, k ∈ (pairs_of src dst ds ≫= λ pair, [key w pair.1; key w pair.2]) →
                 apart (key w d ++ [s])%list k) as Hother.
  { intros s k Hk.
    apply pair_keys_inv in Hk as (d' & s' & Hd' & _ & ->); [|done..].
    apply apart_app, Hhead. by apply list_elem_of_fmap_2. }
  constructor; [|constructor].
  - constructor; [by apply apart_siblings|].
    apply Forall_forall. intros k Hk. by apply Hother.
  - apply Forall_forall. intros k Hk. by apply Hother.
  - by apply IH.
Qed.

End rename_paths.

(** X16: [_rename_paths] renames all or nothing as far as its check goes.
    A path operation error comes before any renaming, and then in one of
    the selected run directories the source is no directory or the target
    is there.  Renaming a run to its own name never passes the check.
    When the selected run directories are apart from one another, the two
    names are different names of entries, and in every selected run
    directory the source is a directory and the target is free, the call
    returns: in each of them the target is what the source was, the source
    is gone, every other entry is as before; and whatever is apart from
    the run directories is as before. *)
Theorem rename_paths_spec
    (self : Project.t) (src dst : string) (subset : list string) (w : world) :
  let rundirs := Project._get_rundirs self subset in
  (∀ msg p w',
     Project._rename_paths self src dst subset w
       = (Raise (PathOperationError msg p), w') →
     w' = w ∧
     ∃ d, d ∈ rundirs ∧ (¬ dir_at w (d // src) ∨ present w (d // dst))) ∧
  (rundirs ≠ [] →
   ∃ msg p, Project._rename_paths self src src subset w
              = (Raise (PathOperationError msg p), w)) ∧
  (is_name src = true → is_name dst = true → src ≠ dst →
   ForallOrdPairs apart (key w <$> rundirs) →
   Forall (λ d, dir_at w (d // src)) rundirs →
   Forall (λ d, ¬ present w (d // dst)) rundirs →
   ∃ w',
     Project._rename_paths self src dst subset w
       = (Ok ((λ d, (d // src, d // dst)) <$> rundirs), w') ∧
     cwd w' = cwd w ∧
     (∀ d, d ∈ rundirs →
        stat w' (d // dst) = stat w (d // src) ∧
        stat w' (d // src) = NoEnt) ∧
     (∀ d k, d ∈ rundirs → is_name k = true → k ≠ src → k ≠ dst →
        stat w' (d // k) = stat w (d // k)) ∧
     (∀ q, (∀ d, d ∈ rundirs → apart (key w d) (key w q)) →
           stat w' q = stat w q)).
Proof.
  intros rundirs. split; [|split].
  - intros msg p w' H. rewrite rename_paths_run in H. fold rundirs in H.
    unfold pairs_of in H.
    destruct (Project._rename_paths_check _ w) as [[action|e] w1] eqn:Hc.
    + apply rename_check_ok_inv in Hc as (-> & ->).
      destruct (for_each _ _ w) as [[[]|e] w2] eqn:Hloop; [done|].
      injection H as -> ->.
      apply for_each_raise_inv in Hloop as (x & w0 & _ & Hx).
      by apply rename_raises in Hx.
    + injection H as -> ->.
      apply rename_check_raise_inv in Hc as (-> & pair & _ & _ & Hin & _ & Hbad).
      split; [done|].
      apply list_elem_of_fmap in Hin as (d & -> & Hd). eauto.
  - intros Hne. rewrite rename_paths_run. fold rundirs. unfold pairs_of.
    destruct rundirs as [|d ds]; [done|]. cbn [fmap list_fmap].
    rewrite rename_check_cons.
    destruct (stat w (d // src)) as [[c|m]| |]; eauto.
  - intros Hsrc Hdst Hne Hap Hthere Hfree.
    pose proof (is_name_segment src Hsrc) as Hs.
    pose proof (is_name_segment dst Hdst) as Hd.
    rewrite Forall_forall in Hthere. rewrite Forall_forall in Hfree.
    rewrite rename_paths_run. fold rundirs. unfold pairs_of.
    set (pairs := (λ rundir, (rundir // src, rundir // dst)) <$> rundirs).
    rewrite (rename_check_ok pairs w).
    2:{ apply Forall_fmap, Forall_forall. intros d Hin. cbn. auto. }
    destruct (rename_all pairs w) as (w' & Hloop & Hc & Hpost & Hframe).
    { by apply pair_keys_apart. }
    { apply Forall_fmap, Forall_forall. intros d Hin. cbn.
      assert (dir_at w d) as Hdir.
      { rewrite <- (parent_joinpath_segment d src Hs).
        by apply dir_at_parent, Hthere. }
      split; [by apply Hthere|].
      rewrite (parent_joinpath_segment d dst Hd). split; [|done].
      apply absent_below_dir; auto. }
    rewrite Hloop. exists w'. split; [done|]. split; [done|].
    assert (∀ q, (∀ k, k ∈ (pairs ≫= λ pair, [key w pair.1; key w pair.2]) →
                       apart k (key w q)) → stat w' q = stat w q) as Hframe'.
    { intros q Hq. apply Hframe. by apply Forall_forall. }
    split; [|split].
    + intros d Hin. unfold pairs in Hpost.
      rewrite Forall_fmap, Forall_forall in Hpost. by apply (Hpost d).
    + intros d k Hin Hk%is_name_segment Hks Hkd. apply Hframe'.
      intros k' Hk'.
      apply pair_keys_inv in Hk' as (d' & s & Hd' & Hsd & ->); [|done..].
      rewrite key_joinpath_segment by done.
      destruct (apart_pairs_elem _ (key w d') (key w d) Hap) as [->|Ha];
        try by apply list_elem_of_fmap_2.
      * apply apart_siblings. by destruct Hsd as [-> | ->].
      * by apply apart_app.
    + intros q Hq. apply Hframe'. intros k' Hk'.
      apply pair_keys_inv in Hk' as (d' & s & Hd' & _ & ->); [|done..].
      rewrite <- (app_nil_r (key w q)). by apply apart_app, Hq.
Qed.

Lemma rename_paths_spec_witness :
  ∃ w',
    Project._rename_paths demo_project "run1" "run2" [] demo_world_run1
      = (Ok ((λ d, (d // "run1", d // "run2"))
               <$> Project._get_rundirs demo_project []), w') ∧
    stat w' (pathlib.parse "/p/a/runs" // "run2")
      = stat demo_world_run1 (pathlib.parse "/p/a/runs" // "run1") ∧
    stat w' (pathlib.parse "/p/a/runs" // "run1") = NoEnt ∧
    stat w' log_path = stat demo_world_run1 log_path.
Proof.
  destruct (rename_paths_spec demo_project "run1" "run2" [] demo_world_run1)
    as (_ & _ & H).
  destruct H as (w' & Hrun & _ & Hin & _ & Hout).
  - reflexivity.
  - reflexivity.
  - done.
  - vm_compute. repeat constructor; intros [k Hk]; simplify_eq.
  - repeat constructor; eexists; vm_compute; reflexivity.
  - repeat constructor; intros [n Hn]; vm_compute in Hn; done.
  - exists w'. split; [exact Hrun|].
    destruct (Hin (pathlib.parse "/p/a/runs")) as [H1 H2]; [by left|].
    split; [exact H1|]. split; [exact H2|].
    apply Hout. intros d Hd.
    apply elem_of_cons in Hd as [->|Hd];
      [|apply list_elem_of_singleton in Hd as ->];
      vm_compute; split; intros [k Hk]; simplify_eq.
Defined.

(** ** Runs that are not there *)

(** X17: removing a run that is nowhere is accepted in silence, where
    renaming one is an error.  When no entry of the selected run
    directories matches the pattern, [rm] returns and the world is as
    before; [mv] raises the "does not exist" error as soon as the source
    is missing in the first selected run directory, and the world is as
    before.  When the subset selects no run directory at all, both return
    and change nothing, whatever the names.  The empty pattern makes [rm]
    raise a [ValueError] when a run directory is selected. *)
Theorem absent_run
    (fnmatch : string → string → bool) (self : Project.t)
    (subset : list string) (w : world) :
  let rundirs := Project._get_rundirs self subset in
  (∀ run, is_pattern run = true →
     (∀ d m k, d ∈ rundirs → stat w d = Found (Dir m) → is_Some (m !! k) →
               fnmatch k run = false) →
     Project.rm fnmatch self run subset w = (Ok tt, w)) ∧
  (∀ source target d ds, rundirs = d :: ds → ¬ present w (d // source) →
     Project.mv self source target subset w =
       (Raise (PathOperationError "does not exist" (to_str (d // source))),
        w)) ∧
  (rundirs = [] →
   ∀ run source target,
     Project.rm fnmatch self run subset w = (Ok tt, w) ∧
     Project.mv self source target subset w = (Ok tt, w)) ∧
  (rundirs ≠ [] →
   ∃ msg, Project.rm fnmatch self "" subset w = (Raise (ValueError msg), w)).
Proof.
  intros rundirs. split; [|split; [|split]].
  - intros run Hpat Hnone.
    pose proof (is_pattern_not_empty run Hpat) as Hn.
    assert (Project._remove_paths fnmatch self run subset w = (Ok [], w))
      as Hrm.
    { rewrite (remove_paths_run fnmatch w run rundirs self subset Hn eq_refl).
      assert (listing fnmatch w run rundirs = []) as ->; [|done].
      apply elem_of_nil_inv. intros p Hp.
      destruct (listed_inv fnmatch w run rundirs p Hp)
        as (d & m & k & x & Hd & Hm & Hk & Hf & _).
      rewrite (Hnone d m k Hd Hm) in Hf; [done | eauto]. }
    unfold Project.rm. by rewrite (bind_ok _ _ _ _ _ Hrm).
  - intros source target d ds Hr Hmiss. unfold Project.mv.
    apply bind_raise. rewrite rename_paths_run. fold rundirs. rewrite Hr.
    unfold pairs_of. cbn [fmap list_fmap]. rewrite rename_check_cons.
    unfold present in Hmiss.
    destruct (stat w (d // source)) as [x| |]; [|done..].
    destruct Hmiss. eauto.
  - intros Hr run source target. unfold rundirs in Hr. split.
    + unfold Project.rm, Project._remove_paths. by rewrite Hr.
    + unfold Project.mv, Project._rename_paths. by rewrite Hr.
  - intros Hne. exists "Unacceptable pattern".
    unfold Project.rm, Project._remove_paths. fold rundirs.
    destruct rundirs as [|d ds]; [done|].
    apply bind_raise, bind_raise, glob_all_empty_pattern.
Qed.

Lemma absent_run_witness :
  Project.rm literal_match demo_project "run9" [] demo_world_run1
    = (Ok tt, demo_world_run1) ∧
  Project.mv demo_project "run9" "run2" [] demo_world_run1
    = (Raise (PathOperationError "does not exist" "/p/a/runs/run9"),
       demo_world_run1) ∧
  Project.mv demo_project "run1" "run2" ["c"] demo_world_run1
    = (Ok tt, demo_world_run1) ∧
  (∃ msg, Project.rm literal_match demo_project "" [] demo_world_run1
          = (Raise (ValueError msg), demo_world_run1)).
Proof.
  destruct (absent_run literal_match demo_project [] demo_world_run1)
    as (H1 & H2 & _ & H4).
  destruct (absent_run literal_match demo_project ["c"] demo_world_run1)
    as (_ & _ & H3 & _).
  split; [|split; [|split]].
  - apply H1; [reflexivity|]. intros d m k Hd Hm [x Hx].
    assert (m = {[ "run1" := Dir ∅ ]}) as ->.
    { apply elem_of_cons in Hd as [->|Hd];
        [|apply list_elem_of_singleton in Hd as ->];
        match type of Hm with
        | ?s = _ =>
            assert (s = Found (Dir {[ "run1" := Dir ∅ ]})) as Hs
              by (vm_compute; reflexivity)
        end; congruence. }
    apply lookup_singleton_Some in Hx as [<- _]. reflexivity.
  - apply (H2 "run9" "run2" (pathlib.parse "/p/a/runs")
             [pathlib.parse "/p/b/runs"]); [reflexivity|].
    intros [n Hn]. vm_compute in Hn. done.
  - assert (Project._get_rundirs demo_project ["c"] = []) as Hr
      by (vm_compute; reflexivity).
    by destruct (H3 Hr "" "run1" "run2") as [_ H].
  - by apply H4.
Defined.

(** ** Starting a run *)

(** Writing over a file makes nothing appear or disappear. *)
Lemma resolve_replace_file (p q : list string) (c c' : json) (n : node) :
  resolve p n = Found (File c) →
  (∃ x, resolve q (set_node p (Some (File c')) n) = Found x) ↔
  (∃ x, resolve q n = Found x).
Proof.
  revert q n. induction p as [|s p IH]; intros q n Hp.
  - injection Hp as ->. cbn [set_node default].
    destruct q as [|t q]; [split; eauto|]. split; by intros [? ?].
  - destruct n as [c0|m0]; [done|]. cbn [resolve] in Hp.
    destruct (m0 !! s) as [child|] eqn:Hs; [|done]. cbn [set_node].
    destruct q as [|t q]; [split; eauto|]. cbn [resolve].
    destruct (decide (t = s)) as [->|Hts].
    + rewrite lookup_partial_alter_eq, Hs.
      destruct p as [|s' p].
      * injection Hp as ->. destruct q as [|t q]; [split; eauto|].
        split; by intros [? ?].
      * simpl fmap. cbv iota. by apply IH.
    + by rewrite lookup_partial_alter_ne.
Qed.

Lemma put_file_present (w : world) (p q : PurePath) (c c' : json) :
  stat w p = Found (File c) →
  present (put w p (Some (File c'))) q ↔ present w q.
Proof.
  intros Hp. unfold present, stat. rewrite key_put. cbn [put tree].
  by eapply resolve_replace_file.
Qed.

(** The world [create] leaves. *)
Lemma create_world (w : world) (self : RunLog.t) (m : dict) (key : string)
    (source : option dict) :
  holds w self m →
  RunLog.create self key source w =
    (Ok self,
     put w (RunLog._path self)
       (Some (File (JObj (<[key := JObj (default ∅ source)]> m))))).
Proof.
  intros Hm. unfold RunLog.create.
  rewrite (bind_ok _ _ _ _ _ (asdict_holds _ _ _ Hm)).
  assert (∀ m', RunLog.dump self m' w =
                  (Ok tt, put w (RunLog._path self) (Some (File (JObj m')))))
    as Hd.
  { intros m'. unfold RunLog.dump, write_json. by rewrite Hm. }
  destruct source as [d|]; cbn [default].
  - by rewrite (bind_ok _ _ _ _ _ (Hd _)).
  - rewrite insert_insert_eq. by rewrite (bind_ok _ _ _ _ _ (Hd _)).
Qed.

(** X18: [run] writes the empty record of the run to the log before it
    looks at the directories.  On a name that is taken in one of the
    selected run directories it raises the "already exists" error, and by
    then the log binds the name to the empty record, so that the record
    of the run that is there is lost; nothing else has appeared or
    disappeared.  When the run directories are in place and free of the
    name, the body of the loop runs over the new paths in a world where
    each of them is a directory and the log binds the name to the empty
    record. *)
Theorem run_resets_record
    (execute : PurePath → M unit) (self : Project.t) (name : string)
    (subset : list string) (w : world) (m : dict) :
  let rundirs := Project._get_rundirs self subset in
  let paths := (λ rundir, rundir // name) <$> rundirs in
  holds w (Project.log self) m →
  (Exists (present w) paths →
   ∃ p w', p ∈ paths ∧ present w p ∧
     Project.run execute self name subset w =
       (Raise (PathOperationError "already exists" (to_str p)), w') ∧
     holds w' (Project.log self) (<[name := JObj ∅]> m) ∧
     (∀ q, present w' q ↔ present w q)) ∧
  (is_name name = true → ready w name rundirs →
   ∃ w', Project.run execute self name subset w = for_each execute paths w' ∧
         holds w' (Project.log self) (<[name := JObj ∅]> m) ∧
         Forall (dir_at w') paths).
Proof.
  intros rundirs paths Hm.
  pose proof (create_world w (Project.log self) m name None Hm) as Hcreate.
  cbn [default] in Hcreate.
  set (w1 := put w (RunLog._path (Project.log self))
               (Some (File (JObj (<[name := JObj ∅]> m))))) in *.
  assert (holds w1 (Project.log self) (<[name := JObj ∅]> m)) as Hm1
    by (by eapply stat_put_file).
  assert (∀ q, present w1 q ↔ present w q) as Hsame
    by (intros q; by eapply put_file_present).
  unfold Project.run. rewrite (bind_ok _ _ _ _ _ Hcreate). cbv beta. split.
  - intros Hex.
    destruct (make_paths_check_present paths w1) as (p & Hin & Hp & Hr).
    { eapply Exists_impl; [exact Hex|]. intros q. apply Hsame. }
    exists p, w1. split; [done|]. split; [by apply Hsame|].
    split; [|done]. apply bind_raise. unfold Project._make_paths.
    fold rundirs. fold paths. by apply bind_raise.
  - intros Hname%is_name_segment (Hdirs & Hnd & Hfree).
    assert (Forall (dir_at w1) rundirs) as Hdirs1.
    { eapply Forall_impl; [exact Hdirs|]. intros d Hd.
      by eapply (write_json_keeps (RunLog._path (Project.log self))
                   (JObj (<[name := JObj ∅]> m)) w w1 (Ok tt));
        [unfold write_json; rewrite Hm|]. }
    assert (Forall (λ p, ¬ present w1 p) paths) as Habs.
    { apply Forall_fmap. eapply Forall_impl; [exact Hfree|].
      intros d Hd. cbn. rewrite Hsame. intros [x Hx]. congruence. }
    destruct (make_all_ready name rundirs w1 Hname) as [w' Hw'].
    { split; [done|]. split; [by unfold w1; rewrite keys_put|].
      apply Forall_forall. intros d Hin. apply absent_below_dir; [done| |].
      - rewrite Forall_forall in Hdirs1. by apply Hdirs1.
      - rewrite Forall_forall in Habs. apply Habs.
        by apply (list_elem_of_fmap_2 (λ rundir, rundir // name)). }
    fold paths in Hw'.
    assert (Project._make_paths self name subset w1 = (Ok paths, w')) as Hmk.
    { unfold Project._make_paths. fold rundirs. fold paths.
      rewrite (bind_ok _ _ _ _ _ (make_paths_check_absent _ _ Habs)).
      by rewrite (bind_ok _ _ _ _ _ Hw'). }
    exists w'. rewrite (bind_ok _ _ _ _ _ Hmk).
    split; [done|]. split; [|by eapply make_all_ok].
    pose proof (growing_for_each (λ path, mkdir_parents path false) paths
                  (λ path, growing_mkdir_parents path false) w1) as Hg.
    rewrite Hw' in Hg. destruct Hg as (_ & Hfiles & _).
    by apply Hfiles.
Qed.

Lemma run_resets_record_witness :
  (∃ p w',
     Project.run (λ _, mret tt) demo_project "run1" [] demo_world_run1
       = (Raise (PathOperationError "already exists" p), w') ∧
     holds w' (Project.log demo_project)
       (<["run1" := JObj ∅]> two_branch_log)) ∧
  (∃ w',
     Project.run (λ _, mret tt) demo_project "run2" [] demo_world_run1
       = (Ok tt, w') ∧
     holds w' (Project.log demo_project)
       (<["run2" := JObj ∅]> two_branch_log) ∧
     dir_at w' (pathlib.parse "/p/a/runs" // "run2")).
Proof.
  split.
  - destruct (run_resets_record (λ _, mret tt) demo_project "run1" []
                demo_world_run1 two_branch_log) as [H _].
    { vm_compute. reflexivity. }
    destruct H as (p & w' & _ & _ & Hrun & Hlog & _).
    { apply Exists_cons_hd. eexists. vm_compute. reflexivity. }
    eauto.
  - destruct (run_resets_record (λ _, mret tt) demo_project "run2" []
                demo_world_run1 two_branch_log) as [_ H].
    { vm_compute. reflexivity. }
    destruct H as (w' & Hrun & Hlog & Hdirs).
    { reflexivity. }
    { split; [|split].
      - repeat constructor; eexists; vm_compute; reflexivity.
      - vm_compute. repeat constructor; rewrite ?elem_of_cons, ?elem_of_nil;
          intros H; repeat destruct H as [H|H]; done.
      - repeat constructor; vm_compute; reflexivity. }
    exists w'. split; [by rewrite Hrun|]. split; [done|].
    by apply Forall_cons in Hdirs as [Hd _].
Defined.

(** ** Deleting a project *)

Lemma rmtree_dir (p : PurePath) (w : world) :
  dir_at w p → key w p ≠ [] →
  rmtree p w = (Ok tt, put w p None) ∧
  (∀ r, resolve (key w p ++ r) (tree (put w p None)) = NoEnt).
Proof.
  intros [m Hm] Hk. split.
  - unfold rmtree. rewrite Hm. by destruct (key w p).
  - intros r. cbn [put tree]. unfold stat in Hm.
    destruct (resolve_parent _ _ _ Hk Hm) as [m' Hm'].
    apply resolve_set_node_removed; eauto.
Qed.

(** X19: [remove] deletes the tree before it reads the registry.  When
    the root is missing it raises and nothing is changed.  When the root
    is a directory and the registry lies outside of it, the call returns:
    the root is gone, the registry has lost the entry of the root and kept
    every other entry, and outside the root every other file holds what it
    held and every directory is there.  When the registry lies in the
    root, as it does when the project is removed from a working directory
    inside it, the tree is deleted and the call then raises, because the
    registry is gone with it. *)
Theorem remove_spec (self : Project.t) (w : world) :
  let rt := Project.root self in
  let db := Project.database in
  (stat w rt = NoEnt →
   Project.remove self w = (Raise (FileNotFoundError (to_str rt)), w)) ∧
  (dir_at w rt → key w rt ≠ [] → ¬ key w rt `prefix_of` key w db →
   ∀ reg, stat w db = Found (File (JObj reg)) →
   ∃ w', Project.remove self w = (Ok tt, w') ∧
         ¬ present w' rt ∧
         stat w' db = Found (File (JObj (delete (to_str rt) reg))) ∧
         (∀ q x, stat w q = Found (File x) →
                 ¬ key w rt `prefix_of` key w q → key w q ≠ key w db →
                 stat w' q = Found (File x)) ∧
         (∀ q, dir_at w q → ¬ key w rt `prefix_of` key w q → dir_at w' q)) ∧
  (dir_at w rt → key w rt ≠ [] → key w rt `prefix_of` key w db →
   ∃ w', Project.remove self w =
           (Raise (FileNotFoundError (to_str db)), w') ∧
         stat w' rt = NoEnt ∧ stat w' db = NoEnt).
Proof.
  intros rt db. unfold Project.remove. fold rt. fold db. split; [|split].
  - intros Hrt. apply bind_raise. unfold rmtree. by rewrite Hrt.
  - intros Hdir Hk Hout reg Hreg.
    destruct (rmtree_dir rt w Hdir Hk) as [Hrm Hgone].
    rewrite (bind_ok _ _ _ _ _ Hrm). cbv beta.
    destruct (put_none_shrinks w rt) as [_ Hsh].
    set (w1 := put w rt None) in *.
    assert (stat w1 db = Found (File (JObj reg))) as Hreg1.
    { destruct (Hsh db) as (_ & H & _). apply H; [|done].
      by apply Forall_singleton. }
    assert (read_json db w1 = (Ok (JObj reg), w1)) as Hread.
    { unfold read_json. by rewrite Hreg1. }
    rewrite (bind_ok _ _ _ _ _ Hread). cbv beta.
    rewrite (bind_ok (as_dict (JObj reg)) _ w1 w1 reg eq_refl). cbv beta.
    rewrite filter_ne_delete.
    set (c := JObj (delete (to_str rt) reg)).
    assert (write_json db c w1 = (Ok tt, put w1 db (Some (File c)))) as Hwr.
    { unfold write_json. by rewrite Hreg1. }
    rewrite Hwr. eexists. split; [done|].
    destruct (write_json_keeps db c w1 _ _ Hwr) as (_ & Hdirs & Hfiles).
    split; [|split; [|split]].
    + rewrite (put_file_present w1 db rt _ c Hreg1). intros [x Hx].
      unfold stat, w1 in Hx. rewrite key_put in Hx.
      by rewrite <- (app_nil_r (key w rt)), Hgone in Hx.
    + by eapply stat_put_file.
    + intros q x Hq Hnot Hne. apply Hfiles; [|by unfold w1; rewrite !key_put].
      destruct (Hsh q) as (_ & H & _). apply H; [|done].
      by apply Forall_singleton.
    + intros q Hq Hnot. apply Hdirs.
      destruct (Hsh q) as (_ & H & _). apply H; [|done].
      by apply Forall_singleton.
  - intros Hdir Hk [r Hr].
    destruct (rmtree_dir rt w Hdir Hk) as [Hrm Hgone].
    rewrite (bind_ok _ _ _ _ _ Hrm). cbv beta.
    set (w1 := put w rt None) in *.
    assert (stat w1 db = NoEnt) as Hdb.
    { unfold stat, w1. rewrite key_put, Hr. apply Hgone. }
    exists w1. split; [|split; [|done]].
    + apply bind_raise. unfold read_json. by rewrite Hdb.
    + unfold stat, w1. rewrite key_put.
      rewrite <- (app_nil_r (key w rt)). apply Hgone.
Qed.

Lemma remove_spec_witness :
  (∃ w', Project.remove plain_project plain_world = (Ok tt, w') ∧
         ¬ present w' (pathlib.parse "/p") ∧
         stat w' Project.database =
           Found (File (JObj (delete "/p"
                                {[ "/p" := _ProjectInit.to_json plain_attrs ]})))) ∧
  (∃ w', Project.remove plain_project (World ["p"] (tree plain_world)) =
           (Raise (FileNotFoundError ".eprem-runtime.json"), w') ∧
         stat w' (pathlib.parse "/p") = NoEnt).
Proof.
  split.
  - destruct (remove_spec plain_project plain_world) as (_ & H & _).
    assert (dir_at plain_world (Project.root plain_project)) as Hdir
      by (eexists; vm_compute; reflexivity).
    assert (key plain_world (Project.root plain_project) ≠ []) as Hk
      by (vm_compute; discriminate).
    assert (¬ key plain_world (Project.root plain_project)
              `prefix_of` key plain_world Project.database) as Hout
      by (vm_compute; intros [k Hk']; simplify_eq).
    destruct (H Hdir Hk Hout
                ({[ "/p" := _ProjectInit.to_json plain_attrs ]} : dict))
      as (w' & Hrun & Hgone & Hreg & _); [vm_compute; reflexivity|].
    exists w'. split; [exact Hrun|]. split; [exact Hgone | exact Hreg].
  - destruct (remove_spec plain_project (World ["p"] (tree plain_world)))
      as (_ & _ & H).
    destruct H as (w' & Hrun & Hgone & _).
    + eexists. vm_compute. reflexivity.
    + vm_compute. discriminate.
    + exists [".eprem-runtime.json"]. vm_compute. reflexivity.
    + exists w'. split; [exact Hrun | exact Hgone].
Defined.

(** * Further properties of creation *)

(** ** The errors of the file system *)

Lemma os_not_value (e : exn) :
  isinstance e COSError = true → class_of e ≠ CValueError.
Proof. by destruct e. Qed.

Lemma mkdir_raises_os (p : PurePath) (w w' : world) (e : exn) :
  mkdir p w = (Raise e, w') → isinstance e COSError = true.
Proof.
  unfold mkdir. destruct (stat w p) as [n| |]; try by intros [= <- _].
  destruct (stat w (parent p)) as [[?|?]| |]; try done; by intros [= <- _].
Qed.

Lemma mkdir_once_raises_os (p : PurePath) (exist_ok : bool) (w w' : world)
    (e : exn) :
  mkdir_once p exist_ok w = (Raise e, w') → isinstance e COSError = true.
Proof.
  unfold mkdir_once. destruct (mkdir p w) as [[[]|e0] w1] eqn:Hmk; [done|].
  apply mkdir_raises_os in Hmk. unfold is_dir.
  destruct e0; try done;
    destruct (stat w1 p) as [[?|?]| |]; destruct exist_ok;
    by intros [= <- _].
Qed.

Lemma mkdir_rev_raises_os (rt : string) (rp : list string) (exist_ok : bool)
    (w w' : world) (e : exn) :
  mkdir_rev rt rp exist_ok w = (Raise e, w') → isinstance e COSError = true.
Proof.
  revert exist_ok w w'. induction rp as [|s rp IH]; intros exist_ok w w';
    cbn [mkdir_rev];
    destruct (mkdir _ w) as [[[]|e0] w1] eqn:Hmk; try done;
    apply mkdir_raises_os in Hmk; unfold is_dir.
  - destruct e0; try done; try (by intros [= <- _]);
      destruct (stat w1 _) as [[?|?]| |]; destruct exist_ok;
      by intros [= <- _].
  - destruct e0; try done;
      try (destruct (stat w1 _) as [[?|?]| |]; destruct exist_ok;
           by intros [= <- _]).
    rewrite bind_run.
    destruct (mkdir_rev rt rp true w1) as [[[]|e1] w2] eqn:Hrec.
    + apply mkdir_once_raises_os.
    + intros [= <- _]. by eapply IH.
Qed.

Lemma mkdir_parents_raises_os (p : PurePath) (exist_ok : bool) (w w' : world)
    (e : exn) :
  mkdir_parents p exist_ok w = (Raise e, w') → isinstance e COSError = true.
Proof. apply mkdir_rev_raises_os. Qed.

Lemma write_json_raises_os (p : PurePath) (c : json) (w w' : world) (e : exn) :
  write_json p c w = (Raise e, w') → isinstance e COSError = true.
Proof.
  unfold write_json.
  destruct (stat w p) as [[?|?]| |]; try done; try by intros [= <- _].
  destruct (stat w _) as [[?|?]| |]; try done; by intros [= <- _].
Qed.

Lemma read_json_raises_os (p : PurePath) (w w' : world) (e : exn) :
  read_json p w = (Raise e, w') → isinstance e COSError = true.
Proof.
  unfold read_json. destruct (stat w p) as [[?|?]| |]; by intros [= <- _].
Qed.

(** ** What opening and creating cannot raise *)

Lemma as_str_raises (v : json) (w w' : world) (e : exn) :
  _ProjectInit.as_str v w = (Raise e, w') → class_of e = CTypeError.
Proof. destruct v; try done; by intros [= <- _]. Qed.

Lemma fmap_raises {A B} (f : A → B) (m : M A) (w w' : world) (e : exn) :
  (f <$> m) w = (Raise e, w') → m w = (Raise e, w').
Proof.
  unfold fmap, M_fmap. rewrite bind_run.
  destruct (m w) as [[a|e0] w1]; [by rewrite ret_run | by intros [= -> ->]].
Qed.

Lemma mapM_as_str_raises (l : list json) (w w' : world) (e : exn) :
  mapM _ProjectInit.as_str l w = (Raise e, w') → class_of e = CTypeError.
Proof.
  revert w w'. induction l as [|v l IH]; intros w w'; [done|].
  cbn [mapM]. rewrite bind_run.
  destruct (_ProjectInit.as_str v w) as [[s|e0] w1] eqn:Hv.
  - rewrite bind_run.
    destruct (mapM _ProjectInit.as_str l w1) as [[ss|e1] w2] eqn:Hl; [done|].
    intros [= <- _]. by eapply IH.
  - intros [= <- _]. by eapply as_str_raises.
Qed.

Lemma kw_str_raises (m : dict) (k : string) (w w' : world) (e : exn) :
  _ProjectInit.kw_str m k w = (Raise e, w') → class_of e = CTypeError.
Proof.
  unfold _ProjectInit.kw_str. destruct (m !! k) as [v|]; [|done].
  destruct (_ProjectInit.falsy v); [done|].
  intros H%fmap_raises. by eapply as_str_raises.
Qed.

Lemma kw_strs_raises (m : dict) (k : string) (w w' : world) (e : exn) :
  _ProjectInit.kw_strs m k w = (Raise e, w') → class_of e = CTypeError.
Proof.
  unfold _ProjectInit.kw_strs. destruct (m !! k) as [v|]; [|done].
  destruct v as [|b|n|s|l|o]; try done;
    try (destruct (_ProjectInit.falsy _); [done | by intros [= <- _]]).
  intros H%fmap_raises. by eapply mapM_as_str_raises.
Qed.

Lemma of_json_raises (entry : json) (w w' : world) (e : exn) :
  _ProjectInit.of_json entry w = (Raise e, w') → class_of e = CTypeError.
Proof.
  unfold _ProjectInit.of_json.
  destruct entry as [| | | | |m]; try by intros [= <- _].
  destruct (m !! "root") as [r|]; [|by intros [= <- _]].
  rewrite bind_run.
  destruct (_ProjectInit.as_str r w) as [[rt|e0] w0] eqn:H0;
    [|intros [= <- _]; by eapply as_str_raises].
  rewrite bind_run.
  destruct (_ProjectInit.kw_strs m "branches" w0) as [[bs|e1] w1] eqn:H1;
    [|intros [= <- _]; by eapply kw_strs_raises].
  rewrite bind_run.
  destruct (_ProjectInit.kw_str m "config" w1) as [[cfg|e2] w2] eqn:H2;
    [|intros [= <- _]; by eapply kw_str_raises].
  rewrite bind_run.
  destruct (_ProjectInit.kw_str m "output" w2) as [[out|e3] w3] eqn:H3;
    [|intros [= <- _]; by eapply kw_str_raises].
  rewrite bind_run.
  destruct (_ProjectInit.kw_str m "rundir" w3) as [[rd|e4] w4] eqn:H4;
    [|intros [= <- _]; by eapply kw_str_raises].
  rewrite bind_run.
  destruct (_ProjectInit.kw_str m "logstem" w4) as [[ls|e5] w5] eqn:H5;
    [done|intros [= <- _]; by eapply kw_str_raises].
Qed.

Lemma init_attrs_raises (rt : string) (kw : _ProjectInit.kwargs)
    (w w' : world) (e : exn) :
  Project._init_attrs rt kw w = (Raise e, w') → class_of e ≠ CValueError.
Proof.
  unfold Project._init_attrs.
  rewrite (bind_ok _ _ _ _ _ (fullpath_run _ _)).
  set (path := abspath w (pathlib.parse rt)).
  set (ex := match stat w path with Found _ => true | _ => false end).
  assert (exists_ path w = (Ok ex, w)) as Hex by reflexivity.
  rewrite (bind_ok _ _ _ _ _ Hex).
  destruct (ex && _ProjectInit.given kw);
    [by (unfold raise; intros [= <- _])|].
  rewrite (bind_ok _ _ _ _ _ Hex). destruct ex.
  - rewrite bind_run.
    destruct (read_json Project.database w) as [[c|e0] w0] eqn:Hrd;
      [|intros [= <- _]; by eapply os_not_value, read_json_raises_os].
    rewrite bind_run.
    destruct c as [| | | | |m]; cbn [as_dict];
      try by (unfold raise; intros [= <- _]).
    rewrite ret_run.
    destruct (m !! _) as [entry|]; [|by (unfold raise; intros [= <- _])].
    intros H%of_json_raises. by rewrite H.
  - rewrite bind_run.
    destruct (mkdir_parents path false w) as [[[]|e0] w0] eqn:Hmk;
      [|intros [= <- _]; by eapply os_not_value, mkdir_parents_raises_os].
    rewrite bind_run.
    destruct (write_json _ _ w0) as [[[]|e1] w1] eqn:Hwr; [done|].
    intros [= <- _]. by eapply os_not_value, write_json_raises_os.
Qed.

Lemma RunLog_init_raises (path : PurePath) (branches : option (list string))
    (attrs : dict) (w w' : world) (e : exn) :
  RunLog.__init__ path branches attrs w = (Raise e, w') →
  class_of e ≠ CValueError.
Proof.
  unfold RunLog.__init__.
  rewrite (bind_ok _ _ _ _ _ (fullpath_run _ _)). rewrite bind_run.
  destruct (RunLog.dump _ attrs w) as [[[]|e0] w0] eqn:Hd; [done|].
  intros [= <- _]. by eapply os_not_value, dump_raises_os.
Qed.

Lemma not_given (kw : _ProjectInit.kwargs) :
  _ProjectInit.given kw = false → kw = _ProjectInit.no_kwargs.
Proof. by destruct kw as [[?|] [?|] [?|] [?|] [?|]]. Qed.

Lemma logname_raises_pure (attrs : _ProjectInit.t) (w w' w0 : world)
    (e : exn) :
  _ProjectInit.logname attrs w = (Raise e, w') →
  _ProjectInit.logname attrs w0 = (Raise e, w0).
Proof.
  unfold _ProjectInit.logname.
  destruct (with_suffix _ _); [done | by intros [= <- _]].
Qed.

(** Opening a root that is there with a keyword. *)
Lemma open_existing_given (rt : string) (kw : _ProjectInit.kwargs)
    (w : world) :
  present w (abspath w (pathlib.parse rt)) →
  _ProjectInit.given kw = true →
  Project.__init__ rt kw w =
    (Raise (ProjectExistsError (to_str (abspath w (pathlib.parse rt)))), w).
Proof.
  intros [n Hn] Hkw. unfold Project.__init__. apply bind_raise.
  unfold Project._init_attrs.
  rewrite (bind_ok _ _ _ _ _ (fullpath_run _ _)).
  assert (exists_ (abspath w (pathlib.parse rt)) w = (Ok true, w)) as Hex.
  { unfold exists_. by rewrite Hn. }
  rewrite (bind_ok _ _ _ _ _ Hex). by rewrite Hkw.
Qed.

(** Opening a root that is there from its entry in the registry. *)
Lemma open_existing_attrs (rt : string) (w : world) (reg : dict)
    (entry : json) :
  present w (abspath w (pathlib.parse rt)) →
  stat w Project.database = Found (File (JObj reg)) →
  reg !! to_str (abspath w (pathlib.parse rt)) = Some entry →
  Project._init_attrs rt _ProjectInit.no_kwargs w =
    _ProjectInit.of_json entry w.
Proof.
  intros [n Hn] Hdb Hreg. unfold Project._init_attrs.
  rewrite (bind_ok _ _ _ _ _ (fullpath_run _ _)).
  assert (exists_ (abspath w (pathlib.parse rt)) w = (Ok true, w)) as Hex.
  { unfold exists_. by rewrite Hn. }
  rewrite (bind_ok _ _ _ _ _ Hex).
  change (_ProjectInit.given _ProjectInit.no_kwargs) with false.
  cbn [andb]. rewrite (bind_ok _ _ _ _ _ Hex).
  assert (read_json Project.database w = (Ok (JObj reg), w)) as Hrd.
  { unfold read_json. by rewrite Hdb. }
  rewrite (bind_ok _ _ _ _ _ Hrd). cbn [as_dict].
  rewrite bind_run, ret_run. by rewrite Hreg.
Qed.

(** ** A creation that fails on the name of the log *)

(** X20: a creation that fails is not undone.  When the constructor, on a
    root that is not there, raises a [ValueError], which it does when the
    configured log stem has no file name, the root directory is made and
    the registry holds the entry of the project all the same; and from
    then on the constructor never returns for this root, with or without
    keywords: the project can neither be opened nor created again. *)
Theorem creation_without_log_name
    (rt : string) (kw : _ProjectInit.kwargs) (w w1 : world) (msg : string) :
  let path := abspath w (pathlib.parse rt) in
  ¬ present w path →
  Project.__init__ rt kw w = (Raise (ValueError msg), w1) →
  dir_at w1 path ∧
  stat w1 Project.database =
    Found (File (JObj {[ to_str path :=
                           _ProjectInit.to_json
                             (_ProjectInit.__init__ (to_str path) kw) ]})) ∧
  ∀ kw' p w2, Project.__init__ rt kw' w1 ≠ (Ok p, w2).
Proof.
  intros path Hfresh H. unfold Project.__init__ in H. rewrite bind_run in H.
  destruct (Project._init_attrs rt kw w) as [[attrs|e] w0] eqn:Ha.
  2:{ injection H as -> ->. by apply init_attrs_raises in Ha. }
  apply init_attrs_fresh_inv in Ha as (-> & wa & Hmk & Hwr); [|done].
  fold path in Hmk, Hwr, H.
  set (attrs := _ProjectInit.__init__ (to_str path) kw) in *.
  unfold _ProjectInit.path in H.
  rewrite (bind_ok _ _ _ _ _ (fullpath_run _ _)) in H. rewrite bind_run in H.
  destruct (for_each _ _ w0) as [[[]|e] w2] eqn:Hdirs.
  2:{ injection H as -> ->.
      apply for_each_raise_inv in Hdirs as (d & w' & _ & Hd).
      by apply mkdir_parents_raises_os in Hd. }
  rewrite bind_run in H.
  destruct (_ProjectInit.logname attrs w2) as [[l|e] w3] eqn:Hln.
  { rewrite bind_run in H.
    destruct (RunLog.__init__ _ _ _ w3) as [[lg|e] w4] eqn:Hlg; [done|].
    injection H as -> ->. by apply RunLog_init_raises in Hlg. }
  injection H as -> ->.
  pose proof (quiet_logname attrs w2) as Hq. rewrite Hln in Hq.
  cbn [snd] in Hq. subst w1.
  (* the worlds in between *)
  pose proof (growing_mkdir_parents path false w) as Hg1.
  rewrite Hmk in Hg1. cbn [snd] in Hg1. destruct Hg1 as (Hc1 & _ & _).
  pose proof (mkdir_parents_ok_dir _ _ _ _ Hmk) as Hpath_a.
  pose proof (write_json_ok _ _ _ _ Hwr) as Hdb0.
  apply write_json_keeps in Hwr as (Hc2 & Hd2 & _).
  match type of Hdirs with
  | for_each ?f ?l w0 = _ =>
      pose proof (growing_for_each f l
                    (λ x, growing_mkdir_parents x true) w0) as Hg3
  end.
  rewrite Hdirs in Hg3. cbn [snd] in Hg3. destruct Hg3 as (Hc3 & Hf3 & Hd3).
  assert (cwd w2 = cwd w) as Hc by congruence.
  assert (dir_at w2 path) as Hpath by (by apply Hd3, Hd2).
  assert (present w2 (abspath w2 (pathlib.parse rt))) as Hthere.
  { rewrite (abspath_cwd w w2) by done. destruct Hpath as [m Hm].
    unfold present. eauto. }
  split; [done|]. split; [by apply Hf3|].
  intros kw' p w4 Hopen.
  destruct (_ProjectInit.given kw') eqn:Hkw.
  { by rewrite (open_existing_given rt kw' w2 Hthere Hkw) in Hopen. }
  apply not_given in Hkw as ->. unfold Project.__init__ in Hopen.
  apply bind_ok_inv in Hopen as (attrs' & w5 & Ha' & Hopen).
  rewrite (open_existing_attrs rt w2 _ (_ProjectInit.to_json attrs) Hthere
             (Hf3 _ _ Hdb0)) in Ha'.
  2:{ rewrite (abspath_cwd w w2) by done. fold path.
      by rewrite lookup_singleton_eq. }
  unfold attrs in Ha' at 1. rewrite of_json_to_json in Ha'.
  injection Ha' as <- <-. fold attrs in Hopen.
  apply bind_ok_inv in Hopen as (path' & w6 & _ & Hopen).
  apply bind_ok_inv in Hopen as ([] & w7 & _ & Hopen).
  apply bind_ok_inv in Hopen as (l & w8 & Hln' & _).
  by rewrite (logname_raises_pure attrs w2 w2 w7 _ Hln) in Hln'.
Qed.

Lemma creation_without_log_name_witness :
  ∃ w1,
    Project.__init__ "/p"
      (_ProjectInit.Kwargs None None None None (Some "/")) empty_world
      = (Raise (ValueError "has an empty name"), w1) ∧
    dir_at w1 (pathlib.parse "/p") ∧
    ∀ kw' p w2, Project.__init__ "/p" kw' w1 ≠ (Ok p, w2).
Proof.
  eexists. split; [vm_compute; reflexivity|].
  match goal with
  | |- dir_at ?w1 _ ∧ _ =>
      destruct (creation_without_log_name "/p"
                  (_ProjectInit.Kwargs None None None None (Some "/"))
                  empty_world w1 "has an empty name")
        as (Hdir & _ & Hnever)
  end.
  - intros [n Hn]. vm_compute in Hn. done.
  - vm_compute. reflexivity.
  - split; [exact Hdir | exact Hnever].
Defined.

(** * Further properties of sequences of log operations *)

(** ** Renaming there and back *)

Lemma mv_unbranched_run (w : world) (self : RunLog.t) (m r : dict)
    (a b d : string) :
  RunLog._branches self = [] →
  holds w self m →
  m !! a = Some (JObj r) →
  r !! "directory" = Some (JStr d) →
  ∃ w', RunLog.mv self a b w = (Ok self, w') ∧
        holds w' self
          (<[b := JObj (<["directory" :=
                           JStr (to_str (parent (parse d) // b))]> r)]>
             (delete a m)).
Proof.
  intros Hbr Hm Ha Hd.
  destruct (dump_holds w self m
              (<[b := JObj (<["directory" :=
                               JStr (to_str (parent (parse d) // b))]> r)]>
                 (delete a m)) Hm) as (w' & Hdump & Hh).
  exists w'. split; [|done]. unfold RunLog.mv.
  rewrite (bind_ok _ _ _ _ _ (asdict_holds _ _ _ Hm)), Ha, Hbr.
  rewrite (bind_ok _ _ _ _ _ (moved_run r d b w Hd)).
  rewrite filter_ne_delete. by rewrite (bind_ok _ _ _ _ _ Hdump).
Qed.

(** A path that ends in a segment is its parent joined with it. *)
Lemma parent_joinpath_name (p : PurePath) :
  is_segment (name p) = true → parent p // name p = p.
Proof.
  intros H. rewrite (joinpath_segment _ _ H). destruct p as [rt ps].
  unfold parent, name in *. cbn [root parts] in *. f_equal.
  destruct ps as [|x ps] using rev_ind; [done|].
  by rewrite removelast_last, last_last.
Qed.

(** X21: in a project without branches, renaming a run to a free name and
    back gives the run its record again, with the directory it names
    written in the normal form of [pathlib] and ending in the name of the
    run; every other entry is as before.  So when the recorded directory
    is in normal form and ends in the name of the run, as the directories
    that [run] records do, the log is exactly what it was. *)
Theorem mv_there_and_back
    (w : world) (self : RunLog.t) (m r : dict) (a b d : string) :
  RunLog._branches self = [] →
  holds w self m →
  m !! a = Some (JObj r) →
  r !! "directory" = Some (JStr d) →
  m !! b = None →
  is_segment b = true →
  ∃ w1 w2,
    RunLog.mv self a b w = (Ok self, w1) ∧
    RunLog.mv self b a w1 = (Ok self, w2) ∧
    holds w2 self
      (<[a := JObj (<["directory" :=
                       JStr (to_str (parent (parse d) // a))]> r)]> m) ∧
    (is_segment a = true → name (parse d) = a → to_str (parse d) = d →
     holds w2 self m).
Proof.
  intros Hbr Hm Ha Hd Hb Hseg.
  destruct (mv_unbranched_run w self m r a b d Hbr Hm Ha Hd)
    as (w1 & Hmv1 & Hm1).
  set (d1 := to_str (parent (parse d) // b)) in *.
  set (r1 := <["directory" := JStr d1]> r) in *.
  destruct (mv_unbranched_run w1 self _ r1 b a d1 Hbr Hm1)
    as (w2 & Hmv2 & Hm2).
  { by rewrite lookup_insert_eq. }
  { unfold r1. by rewrite lookup_insert_eq. }
  assert (parent (parse d1) = parent (parse d)) as Hpar.
  { by apply (sibling_roundtrip (parse d) b (parse_well_formed d) Hseg). }
  rewrite Hpar in Hm2. unfold r1 in Hm2.
  rewrite insert_insert_eq, delete_insert_eq in Hm2.
  rewrite (delete_id (delete a m) b) in Hm2
    by (rewrite lookup_delete_ne; [done | congruence]).
  rewrite insert_delete_eq in Hm2.
  exists w1, w2. split; [done|]. split; [done|]. split; [done|].
  intros Hsa Hname Hnorm.
  assert (parent (parse d) // a = parse d) as Heq.
  { rewrite <- Hname. apply parent_joinpath_name. by rewrite Hname. }
  rewrite Heq, Hnorm in Hm2. by rewrite (insert_id r), (insert_id m) in Hm2.
Qed.

Lemma mv_there_and_back_witness :
  ∃ w1 w2,
    RunLog.mv unbranched "run1" "run2" (world_with_log one_run_log)
      = (Ok unbranched, w1) ∧
    RunLog.mv unbranched "run2" "run1" w1 = (Ok unbranched, w2) ∧
    holds w2 unbranched one_run_log.
Proof.
  destruct (mv_there_and_back (world_with_log one_run_log) unbranched
              one_run_log run1_record "run1" "run2" "/p/runs/run1")
    as (w1 & w2 & H1 & H2 & _ & H3); try (vm_compute; reflexivity).
  exists w1, w2. split; [exact H1|]. split; [exact H2|].
  apply H3; vm_compute; reflexivity.
Defined.

(** ** The record a run builds *)





(** * Properties of locating an executable *)

(** ** Resolved paths *)

Lemma Forall_removelast {A} (P : A → Prop) (l : list A) :
  Forall P l → Forall P (removelast l).
Proof.
  destruct l as [|x l] using rev_ind; [done|].
  rewrite removelast_last. by intros [? _]%Forall_app.
Qed.

(** Resolving keeps every property of segments that [..] need not
    have. *)
Lemma collapse_from_Forall (P : string → Prop) (ps acc : list string) :
  Forall P acc →
  Forall (λ s, s ≠ ".." → P s) ps →
  Forall P (fold_left (λ acc s, if String.eqb s ".." then removelast acc
                                else (acc ++ [s])%list) ps acc).
Proof.
  revert acc. induction ps as [|s ps IH]; intros acc Hacc Hps; [done|].
  apply Forall_cons in Hps as [Hs Hps]. cbn [fold_left]. apply IH; [|done].
  destruct (String.eqb s "..") eqn:E.
  - by apply Forall_removelast.
  - apply Forall_app. split; [done|]. apply Forall_singleton, Hs.
    intros ->. by rewrite String.eqb_refl in E.
Qed.

Lemma collapse_from_plain (ps acc : list string) :
  Forall (λ s, s ≠ "..") ps →
  fold_left (λ acc s, if String.eqb s ".." then removelast acc
                      else (acc ++ [s])%list) ps acc = (acc ++ ps)%list.
Proof.
  revert acc. induction ps as [|s ps IH]; intros acc Hps.
  - by rewrite app_nil_r.
  - apply Forall_cons in Hps as [Hs Hps]. cbn [fold_left].
    apply String.eqb_neq in Hs. rewrite Hs, IH by done.
    by rewrite <- app_assoc.
Qed.

Lemma collapse_idemp (ps : list string) : collapse (collapse ps) = collapse ps.
Proof.
  unfold collapse at 1. apply (collapse_from_plain _ []).
  apply (collapse_from_Forall (λ s, s ≠ "..")); [done|].
  by apply Forall_forall.
Qed.

(** A resolved path resolves to itself, from any working directory. *)
Lemma abspath_idemp (w w' : world) (p : PurePath) :
  abspath w' (abspath w p) = abspath w p.
Proof. unfold abspath. cbn [key root parts]. by rewrite collapse_idemp. Qed.

Lemma abspath_well_formed (w : world) (p : PurePath) :
  Forall (λ s, is_segment s = true) (cwd w) → well_formed p →
  well_formed (abspath w p).
Proof.
  intros Hcwd [Hr Hps]. split; [by right; left|]. cbn [abspath parts].
  apply (collapse_from_Forall (λ s, is_segment s = true)); [done|].
  eapply Forall_impl; [|by intros s Hs _; exact Hs].
  unfold key. destruct (root p); [by apply Forall_app|done].
Qed.

Lemma joinpath_well_formed (p : PurePath) (s : string) :
  well_formed p → well_formed (p // s).
Proof.
  intros [Hr Hps]. unfold joinpath.
  destruct (parse_well_formed s) as [Hrq Hq].
  destruct (root (parse s)) eqn:E; [|by split; [rewrite E|]].
  split; [done|]. cbn [parts]. by apply Forall_app.
Qed.

(** ** [_locate] *)

Lemma locate_run (which : string → option string) (name : string)
    (path : PurePath) (environment : gmap string string) (w : world) :
  let location :=
    match environment !! name with
    | Some s => if truthy s then parse s else path // name
    | None => path // name
    end in
  Forall (λ s, is_segment s = true) (cwd w) →
  well_formed location →
  _locate which name path environment w =
    match stat w (abspath w location) with
    | Found _ => (Ok (abspath w location), w)
    | _ => match which name with
           | Some found => (Ok (parse found), w)
           | None =>
               (Raise (TypeError "expected str, bytes or os.PathLike object"),
                w)
           end
    end.
Proof.
  intros location Hcwd Hwf. unfold _locate. fold location.
  unfold os_path_realpath, realpath. rewrite !bind_run, ret_run.
  rewrite (bind_ok _ _ _ _ _ (fullpath_run _ _)).
  rewrite (parse_to_str _ (abspath_well_formed w location Hcwd Hwf)).
  rewrite abspath_idemp. unfold exists_. rewrite bind_run.
  destruct (stat w (abspath w location)) as [n| |]; try done;
    by destruct (which name).
Qed.

(** X23: [_locate] returns the resolved location when something is
    there, and then it is absolute and comes back when it is handed in
    again through the environment.  The location is the one the
    environment names, and the executable of the branch is tried only
    when the environment names none, an empty string counting as none:
    when the environment names a place where nothing is, the search path
    decides at once, whatever is in the branch.  When nothing is at the
    location and nothing on the search path, the call raises a
    [TypeError]; it never returns the bare name.  A call that returns
    leaves the world as it was. *)
Theorem locate_spec
    (which : string → option string) (name : string) (path : PurePath)
    (environment : gmap string string) (w : world) :
  Forall (λ s, is_segment s = true) (cwd w) →
  well_formed path →
  (∀ s, environment !! name = Some s → truthy s = true →
     (present w (abspath w (parse s)) →
      _locate which name path environment w = (Ok (abspath w (parse s)), w)) ∧
     (¬ present w (abspath w (parse s)) →
      _locate which name path environment w =
        match which name with
        | Some found => (Ok (parse found), w)
        | None =>
            (Raise (TypeError "expected str, bytes or os.PathLike object"), w)
        end)) ∧
  (environment !! name = None ∨ environment !! name = Some "" →
   (present w (abspath w (path // name)) →
    _locate which name path environment w =
      (Ok (abspath w (path // name)), w)) ∧
   (¬ present w (abspath w (path // name)) → which name = None →
    ∃ msg, _locate which name path environment w = (Raise (TypeError msg), w))) ∧
  (∀ q w', _locate which name path environment w = (Ok q, w') →
     w' = w ∧
     (which name = None →
      present w q ∧ root q = "/" ∧
      ∀ path' env',
        well_formed path' →
        _locate which name path' (<[name := to_str q]> env') w = (Ok q, w))).
Proof.
  intros Hcwd Hpath.
  assert (∀ s, well_formed
                 (match Some s with
                  | Some s => if truthy s then parse s else path // name
                  | None => path // name
                  end)) as Hwf1.
  { intros s. destruct (truthy s);
      [apply parse_well_formed | by apply joinpath_well_formed]. }
  split; [|split].
  - intros s Hs Ht.
    pose proof (locate_run which name path environment w) as Hrun.
    rewrite Hs, Ht in Hrun. specialize (Hrun Hcwd (parse_well_formed s)).
    unfold present. split.
    + intros [n Hn]. by rewrite Hn in Hrun.
    + intros Hn. destruct (stat w (abspath w (parse s))) as [n| |];
        [destruct Hn; eauto | done | done].
  - intros Hnone.
    pose proof (locate_run which name path environment w) as Hrun.
    assert (match environment !! name with
            | Some s => if truthy s then parse s else path // name
            | None => path // name
            end = path // name) as Hloc.
    { by destruct Hnone as [-> | ->]. }
    rewrite Hloc in Hrun.
    specialize (Hrun Hcwd (joinpath_well_formed path name Hpath)).
    unfold present. split.
    + intros [n Hn]. by rewrite Hn in Hrun.
    + intros Hn Hw. rewrite Hw in Hrun.
      destruct (stat w (abspath w (path // name))) as [n| |]; eauto.
      destruct Hn. eauto.
  - intros q w' Hq.
    pose proof (locate_run which name path environment w) as Hrun.
    cbv zeta in Hrun.
    set (location := match environment !! name with
                     | Some s => if truthy s then parse s else path // name
                     | None => path // name
                     end) in *.
    assert (well_formed location) as Hwf.
    { unfold location. destruct (environment !! name) as [s|];
        [apply Hwf1 | by apply joinpath_well_formed]. }
    rewrite (Hrun Hcwd Hwf) in Hq.
    destruct (stat w (abspath w location)) as [n| |] eqn:Hs.
    + injection Hq as <- <-. split; [done|]. intros _.
      split; [unfold present; eauto|]. split; [done|].
      intros path' env' Hpath'.
      pose proof (locate_run which name path'
                    (<[name := to_str (abspath w location)]> env') w) as Hrun'.
      cbv zeta in Hrun'. rewrite lookup_insert_eq in Hrun'.
      destruct (to_str_absolute (collapse (key w location))) as [s' Hs'].
      change (mk "/" (collapse (key w location)))
        with (abspath w location) in Hs'.
      assert (truthy (to_str (abspath w location)) = true) as Ht
        by (by rewrite Hs').
      rewrite Ht in Hrun'.
      rewrite (parse_to_str _ (abspath_well_formed w location Hcwd Hwf))
        in Hrun'.
      rewrite abspath_idemp, Hs in Hrun'. apply Hrun'; [done|].
      by apply abspath_well_formed.
    + destruct (which name) as [found|] eqn:Hw; [|done].
      injection Hq as <- <-. split; [done|]. by intros.
    + destruct (which name) as [found|] eqn:Hw; [|done].
      injection Hq as <- <-. split; [done|]. by intros.
Qed.

Lemma locate_spec_witness :
  _locate (λ _, None) "runs" (pathlib.parse "/p/a") ∅ demo_world_run1
    = (Ok (abspath demo_world_run1 (pathlib.parse "/p/a" // "runs")),
       demo_world_run1) ∧
  _locate (λ _, None) "runs" (pathlib.parse "/p/a")
    {[ "runs" := "/nowhere" ]} demo_world_run1
    = (Raise (TypeError "expected str, bytes or os.PathLike object"),
       demo_world_run1).
Proof.
  split.
  - destruct (locate_spec (λ _, None) "runs" (pathlib.parse "/p/a") ∅
                demo_world_run1) as (_ & H & _).
    + constructor.
    + apply parse_well_formed.
    + destruct (H (or_introl eq_refl)) as [Hthere _]. apply Hthere.
      eexists. vm_compute. reflexivity.
  - destruct (locate_spec (λ _, None) "runs" (pathlib.parse "/p/a")
                {[ "runs" := "/nowhere" ]} demo_world_run1) as (H & _).
    + constructor.
    + apply parse_well_formed.
    + destruct (H "/nowhere") as [_ Hmiss];
        [by rewrite lookup_singleton_eq | reflexivity |].
      apply Hmiss. intros [n Hn]. vm_compute in Hn. done.
Defined.
